(** * The OCR session controller of [app.py], embedded in Rocq

    [app.py] is a Streamlit script: the framework runs it from top to bottom
    once per user interaction, handing it the current widget values and the
    session-state dictionary that survives between runs.  The embedding
    follows that reading:

    - [st.session_state] is a [gmap string value] over a small universe of
      Python values;
    - the widget values of one run are a record [widgets];
    - the external collaborators ([convert_from_path], [mlx_load],
      [load_config], [apply_chat_template], [generate], the temporary-file
      name chosen by the operating system) are a record [externals] of
      functions that either return or raise; the conversion and the two
      calls that load a model are handed the files and hand them back, for
      they write to the file system (the model is downloaded on its first
      load);
    - the script itself is written in a small monad [M] that threads the
      session state and the file system, collects what the run renders and
      which external calls it makes, and propagates Python exceptions and
      Streamlit's rerun request.

    The page chrome, the "About" text and the footer of [app.py] render
    fixed text and touch no state; they are left out.  Everything from the
    session initialisation (line 84) to the results section (line 240) is
    embedded statement by statement.  What the sidebar computes from the
    model names (lines 44-64) is embedded as pure functions of its own. *)

From Stdlib Require Import ZArith QArith Ascii String List Strings.Byte.
From stdpp Require Import gmap strings list fin_maps pretty numbers.

Open Scope string_scope.
Open Scope Z_scope.

(** ** Python values and results of external calls *)

(** An external call either returns or raises an exception; an exception is
    kept as its message [str(e)], the only thing the script looks at. *)
Inductive result (A : Type) : Type :=
| Returns (a : A)
| Raises (msg : string).
Arguments Returns {A} a.
Arguments Raises {A} msg.

(** Keyword arguments of the [generate] call (lines 201-203). *)
Record generate_options := {
  max_tokens : Z;
  temperature : Q;
  verbose : bool
}.

(** How a piece of the script ends. *)
Inductive outcome (A : Type) : Type :=
| Done (a : A)
| Exception (msg : string)     (* a Python [Exception] is propagating *)
| RerunRequested.              (* [st.rerun()] stopped the run *)
Arguments Done {A} a.
Arguments Exception {A} msg.
Arguments RerunRequested {A}.

Section Controller.

(** Opaque objects owned by the libraries: page images, the model, its
    processor and its configuration. *)
Context {Obj : Type}.

Inductive value : Type :=
| VNone
| VBool (b : bool)
| VInt (n : Z)
| VStr (s : string)
| VObj (o : Obj).

(** Python truthiness, as used by [if error:], [not ...model_loaded] and
    [... and st.session_state.output_text]. *)
Definition truthy (v : value) : bool :=
  match v with
  | VNone => false
  | VBool b => b
  | VInt n => negb (n =? 0)
  | VStr s => negb (String.eqb s "")
  | VObj _ => true
  end.

(** [v != s] for a string [s] (line 157). *)
Definition ne_str (v : value) (s : string) : bool :=
  match v with
  | VStr s' => negb (String.eqb s' s)
  | _ => true
  end.

(** ** What a run renders and which external calls it makes *)

Inductive event : Type :=
| Ext_convert_from_path (path : string) (dpi : Z)
| Ext_mlx_load (name : string)
| Ext_load_config (name : string)
| Ext_apply_chat_template (processor config : value) (prompt : string)
    (num_images : Z)
| Ext_generate (model processor : value) (formatted_prompt : string)
    (image : value) (opts : generate_options)
| St_file_uploader (label : string)
| St_spinner (text : string)
| St_success (body : string)
| St_error (body : string)
| St_info (body : string)
| St_exception (e : string)
| St_selectbox (label : string) (options : list Z)
| St_image (image : Obj) (caption : string)
| St_header (body : string)
| St_subheader (body : string)
| St_button (label : string)
| St_toggle (label : string)
| St_markdown (body : value)
| St_text_area (label : string) (val : value) (height : Z)
| St_download_button (label : string) (data : value) (file_name mime : string).

(** ** The world of a run *)

Record world := {
  session_state : gmap string value;
  files : gmap string (list byte)
}.

(** The collaborators, as they behave during one run. *)
Record externals := {
  (** [str(o)] of an opaque object *)
  obj_str : Obj -> string;
  (** the message of the [AttributeError] that [st.session_state.<key>]
      raises for a missing key *)
  missing_attribute : string -> string;
  (** the name [NamedTemporaryFile] picks, from the files present and the
      suffix *)
  temporary_name : gmap string (list byte) -> string -> string;
  (** [pdf2image.convert_from_path]; it may touch the file system *)
  convert_from_path :
    gmap string (list byte) -> string -> Z ->
    result (list Obj) * gmap string (list byte);
  (** [mlx_vlm.load]: the model and its processor; it downloads what is
      not in the cache, so it may touch the file system *)
  mlx_load :
    gmap string (list byte) -> string ->
    result (Obj * Obj) * gmap string (list byte);
  (** [mlx_vlm.utils.load_config]; it resolves the model like [mlx_load] *)
  load_config :
    gmap string (list byte) -> string ->
    result Obj * gmap string (list byte);
  apply_chat_template : value -> value -> string -> Z -> result string;
  (** [generate(...).text] *)
  generate :
    value -> value -> string -> value -> generate_options -> result string
}.

(** The widget values the framework hands to one run. *)
Record widgets := {
  model_choice : nat;           (* index picked in the model selectbox *)
  ocr_prompt : string;
  uploaded_file : option (list byte);
  page_choice : nat;            (* index picked in the page selectbox *)
  load_clicked : bool;          (* "Load Model" was pressed *)
  extract_clicked : bool;       (* "Extract Text" was pressed *)
  render_markdown : bool        (* state of the display toggle *)
}.

(** ** The script monad *)

Record run (A : Type) := {
  out : outcome A;
  final : world;
  log : list event
}.
Arguments out {A} r.
Arguments final {A} r.
Arguments log {A} r.

Definition M (A : Type) : Type := world -> run A.

Definition ret {A} (a : A) : M A :=
  fun w => {| out := Done a; final := w; log := [] |}.

Definition bind {A B} (m : M A) (k : A -> M B) : M B :=
  fun w =>
    let '{| out := o; final := w1; log := l1 |} := m w in
    match o with
    | Done a =>
        let '{| out := o'; final := w2; log := l2 |} := k a w1 in
        {| out := o'; final := w2; log := l1 ++ l2 |}
    | Exception msg => {| out := Exception msg; final := w1; log := l1 |}
    | RerunRequested => {| out := RerunRequested; final := w1; log := l1 |}
    end.

Declare Scope script_scope.
Delimit Scope script_scope with script.
Notation "x <- m ;; k" := (bind m (fun x => k))
  (at level 100, m at next level, right associativity) : script_scope.
Notation "m ;; k" := (bind m (fun _ => k))
  (at level 100, right associativity) : script_scope.
Open Scope script_scope.

Definition raise {A} (msg : string) : M A :=
  fun w => {| out := Exception msg; final := w; log := [] |}.

Definition st_rerun {A} : M A :=
  fun w => {| out := RerunRequested; final := w; log := [] |}.

Definition emit (e : event) : M unit :=
  fun w => {| out := Done tt; final := w; log := [e] |}.

(** [try: body / except Exception as e: handler e]; the rerun request is not
    an [Exception] and passes through. *)
Definition try_except {A} (body : M A) (handler : string -> M A) : M A :=
  fun w =>
    let '{| out := o; final := w1; log := l1 |} := body w in
    match o with
    | Exception msg =>
        let '{| out := o'; final := w2; log := l2 |} := handler msg w1 in
        {| out := o'; final := w2; log := l1 ++ l2 |}
    | _ => {| out := o; final := w1; log := l1 |}
    end.

(** [try: body / finally: cleanup]. *)
Definition try_finally {A} (body : M A) (cleanup : M unit) : M A :=
  fun w =>
    let '{| out := o; final := w1; log := l1 |} := body w in
    let '{| out := o'; final := w2; log := l2 |} := cleanup w1 in
    match o' with
    | Done _ => {| out := o; final := w2; log := l1 ++ l2 |}
    | Exception msg => {| out := Exception msg; final := w2; log := l1 ++ l2 |}
    | RerunRequested => {| out := RerunRequested; final := w2; log := l1 ++ l2 |}
    end.

(** *** Session state *)

(** ['key' in st.session_state] *)
Definition contains (key : string) : M bool :=
  fun w =>
    {| out := Done (match session_state w !! key with
                    | Some _ => true
                    | None => false
                    end);
       final := w; log := [] |}.

(** [st.session_state.key = v] *)
Definition assign (key : string) (v : value) : M unit :=
  fun w =>
    {| out := Done tt;
       final := {| session_state := <[key := v]> (session_state w);
                   files := files w |};
       log := [] |}.

Variable E : externals.

(** [st.session_state.key] *)
Definition attr (key : string) : M value :=
  fun w =>
    match session_state w !! key with
    | Some v => {| out := Done v; final := w; log := [] |}
    | None =>
        {| out := Exception (missing_attribute E key); final := w; log := [] |}
    end.

(** *** External calls *)

Definition lift {A} (r : result A) : M A :=
  match r with
  | Returns a => ret a
  | Raises msg => raise msg
  end.

Definition call_convert_from_path (path : string) (dpi : Z) : M (list Obj) :=
  fun w =>
    let '(r, fs) := convert_from_path E (files w) path dpi in
    bind (emit (Ext_convert_from_path path dpi)) (fun _ => lift r)
      {| session_state := session_state w; files := fs |}.

Definition call_mlx_load (name : string) : M (Obj * Obj) :=
  fun w =>
    let '(r, fs) := mlx_load E (files w) name in
    bind (emit (Ext_mlx_load name)) (fun _ => lift r)
      {| session_state := session_state w; files := fs |}.

Definition call_load_config (name : string) : M Obj :=
  fun w =>
    let '(r, fs) := load_config E (files w) name in
    bind (emit (Ext_load_config name)) (fun _ => lift r)
      {| session_state := session_state w; files := fs |}.

Definition call_apply_chat_template (processor config : value)
    (prompt : string) (num_images : Z) : M string :=
  emit (Ext_apply_chat_template processor config prompt num_images) ;;
  lift (apply_chat_template E processor config prompt num_images).

Definition call_generate (model processor : value) (formatted_prompt : string)
    (image : value) (opts : generate_options) : M string :=
  emit (Ext_generate model processor formatted_prompt image opts) ;;
  lift (generate E model processor formatted_prompt image opts).

(** *** Temporary files *)

(** [with tempfile.NamedTemporaryFile(delete=False, suffix=...) as f:
       f.write(data); path = f.name] *)
Definition named_temporary_file (suffix : string) (data : list byte)
    : M string :=
  fun w =>
    let path := temporary_name E (files w) suffix in
    {| out := Done path;
       final := {| session_state := session_state w;
                   files := <[path := data]> (files w) |};
       log := [] |}.

(** [os.path.exists(path)] *)
Definition path_exists (path : string) : M bool :=
  fun w =>
    {| out := Done (match files w !! path with
                    | Some _ => true
                    | None => false
                    end);
       final := w; log := [] |}.

(** [os.unlink(path)] *)
Definition unlink (path : string) : M unit :=
  fun w =>
    match files w !! path with
    | Some _ =>
        {| out := Done tt;
           final := {| session_state := session_state w;
                       files := delete path (files w) |};
           log := [] |}
    | None =>
        {| out := Exception "[Errno 2] No such file or directory"; final := w;
           log := [] |}
    end.

(** ** Python helpers *)

(** [str(v)], as an f-string formats a value. *)
Definition py_str (v : value) : string :=
  match v with
  | VNone => "None"
  | VBool true => "True"
  | VBool false => "False"
  | VInt n => pretty n
  | VStr s => s
  | VObj o => obj_str E o
  end.

(** [len(l)] *)
Definition len {A} (l : list A) : Z := Z.of_nat (length l).

(** [range(a, b)] *)
Definition range (a b : Z) : list Z := seqZ a (b - a).

(** [l[i]] with Python's negative indices and [IndexError]. *)
Definition index {A} (l : list A) (i : Z) : M A :=
  let j := if i <? 0 then i + len l else i in
  if (0 <=? j) && (j <? len l) then
    match l !! Z.to_nat j with
    | Some x => ret x
    | None => raise "list index out of range"
    end
  else raise "list index out of range".


(** The value of [st.selectbox(label, options)]: the option the user picked,
    the first option while nothing valid is picked ([index=0] is the
    default), [None] for an empty list of options. *)
Definition selectbox_value {A} (options : list A) (choice : nat) : option A :=
  match options !! choice with
  | Some x => Some x
  | None => head options
  end.

(** ** The script *)

(** Lines 35-41. *)
Definition available_models : list string :=
  [ "mlx-community/Qwen3-VL-2B-Instruct-4bit";
    "mlx-community/Qwen3-VL-2B-Instruct-8bit";
    "mlx-community/Qwen3-VL-8B-Instruct-4bit";
    "mlx-community/Qwen3-VL-8B-Instruct-8bit";
    "mlx-community/Qwen3-VL-32B-Instruct-4bit" ].

(** Lines 46-52: [model_name = st.selectbox(..., options=available_models,
    index=0, ...)]. *)
Definition model_name (wd : widgets) : string :=
  default "" (selectbox_value available_models (model_choice wd)).

(** Lines 85-89. *)
Definition init_session_state : M unit :=
  present <- contains "model" ;;
  if negb present then
    assign "model" VNone ;;
    assign "processor" VNone ;;
    assign "model_loaded" (VBool false) ;;
    assign "model_name" VNone
  else ret tt.

(** Lines 92-99. *)
Definition load_vision_model (name : string)
    : M (value * value * value * value) :=
  try_except
    (mp <- call_mlx_load name ;;
     config <- call_load_config name ;;
     ret (VObj mp.1, VObj mp.2, VObj config, VNone))
    (fun e => ret (VNone, VNone, VNone, VStr e)).

(** Lines 128-135. *)
Definition select_page (wd : widgets) (images : list Obj) : M Z :=
  if 1 <? len images then
    let options := range 1 (len images + 1) in
    emit (St_selectbox "Select page to OCR" options) ;;
    match selectbox_value options (page_choice wd) with
    | Some page_num => ret page_num
    | None => raise "unsupported operand type(s) for -: 'NoneType' and 'int'"
    end
  else ret 1.

(** Lines 121-143, the body of the [try]. *)
Definition convert_and_select (wd : widgets) (tmp_pdf_path : string) : M unit :=
  emit (St_spinner "Converting PDF to images...") ;;
  images <- call_convert_from_path tmp_pdf_path 200 ;;
  emit (St_success ("✅ PDF loaded successfully! Found "
                    +:+ pretty (len images) +:+ " page(s)")) ;;
  page_num <- select_page wd images ;;
  selected_image <- index images (page_num - 1) ;;
  emit (St_image selected_image ("Page " +:+ pretty page_num)) ;;
  assign "current_image" (VObj selected_image) ;;
  assign "page_num" (VInt page_num).

(** Lines 108-150. *)
Definition upload_section (wd : widgets) : M unit :=
  emit (St_file_uploader "Choose a PDF file") ;;
  match uploaded_file wd with
  | None => ret tt
  | Some data =>
      tmp_pdf_path <- named_temporary_file ".pdf" data ;;
      try_finally
        (try_except
           (convert_and_select wd tmp_pdf_path)
           (fun e => emit (St_error ("Error processing PDF: " +:+ e))))
        (present <- path_exists tmp_pdf_path ;;
         if present then unlink tmp_pdf_path else ret tt)
  end.

(** Lines 157-172. *)
Definition load_model_section (wd : widgets) : M unit :=
  loaded <- attr "model_loaded" ;;
  stale <- (if negb (truthy loaded) then ret true
            else name <- attr "model_name" ;; ret (ne_str name (model_name wd))) ;;
  if stale : bool then
    emit (St_button "🔄 Load Model") ;;
    if load_clicked wd then
      emit (St_spinner ("Loading model: " +:+ model_name wd +:+ "...")) ;;
      loaded_model <- load_vision_model (model_name wd) ;;
      let '(model, processor, config, error) := loaded_model in
      if truthy error then
        emit (St_error ("Failed to load model: " +:+ py_str error)) ;;
        emit (St_info
          "Make sure the model is available. You may need to download it first.")
      else
        assign "model" model ;;
        assign "processor" processor ;;
        assign "config" config ;;
        assign "model_loaded" (VBool true) ;;
        assign "model_name" (VStr (model_name wd)) ;;
        emit (St_success "✅ Model loaded successfully!") ;;
        st_rerun
    else ret tt
  else ret tt.

(** Lines 201-203. *)
Definition decoding : generate_options :=
  {| max_tokens := 2048; temperature := (1 # 10)%Q; verbose := false |}.

(** Lines 180-207, the body of the [try]. *)
Definition extract_text (wd : widgets) : M unit :=
  emit (St_spinner "Extracting text from image...") ;;
  image <- attr "current_image" ;;
  let prompt := ocr_prompt wd in
  processor <- attr "processor" ;;
  config <- attr "config" ;;
  formatted_prompt <- call_apply_chat_template processor config prompt 1 ;;
  model <- attr "model" ;;
  processor <- attr "processor" ;;
  text <- call_generate model processor formatted_prompt image decoding ;;
  assign "output_text" (VStr text).

(** Lines 178-211. *)
Definition extract_section (wd : widgets) : M unit :=
  emit (St_button "🚀 Extract Text") ;;
  if extract_clicked wd then
    try_except
      (extract_text wd)
      (fun e =>
         emit (St_error ("Error during OCR: " +:+ e)) ;;
         emit (St_exception e))
  else ret tt.

(** Lines 214-236. *)
Definition display_section (wd : widgets) : M unit :=
  present <- contains "output_text" ;;
  shown <- (if present : bool then
              text <- attr "output_text" ;; ret (truthy text)
            else ret false) ;;
  if shown : bool then
    page_num <- attr "page_num" ;;
    emit (St_subheader ("Extracted Text (Page " +:+ py_str page_num +:+ ")")) ;;
    emit (St_toggle "Render as Markdown") ;;
    (if render_markdown wd then
       text <- attr "output_text" ;;
       emit (St_markdown text)
     else
       text <- attr "output_text" ;;
       emit (St_text_area "OCR Output" text 400)) ;;
    data <- attr "output_text" ;;
    page_num <- attr "page_num" ;;
    emit (St_download_button "📥 Download Text" data
            ("ocr_page_" +:+ py_str page_num +:+ ".txt") "text/plain")
  else ret tt.

(** Lines 176-236, the branch of a loaded model. *)
Definition ready_section (wd : widgets) : M unit :=
  name <- attr "model_name" ;;
  emit (St_success ("✅ Model ready: " +:+ py_str name)) ;;
  extract_section wd ;;
  display_section wd.

(** Lines 175-238. *)
Definition ocr_section (wd : widgets) : M unit :=
  loaded <- attr "model_loaded" ;;
  if truthy loaded then ready_section wd
  else emit (St_info "👆 Click 'Load Model' to start").

(** Lines 153-240. *)
Definition results_section (wd : widgets) : M unit :=
  emit (St_header "📝 OCR Results") ;;
  uploaded <- contains "current_image" ;;
  if uploaded : bool then
    load_model_section wd ;;
    ocr_section wd
  else emit (St_info "👈 Upload a PDF file to begin").

(** One run of the script. *)
Definition script (wd : widgets) : M unit :=
  init_session_state ;;
  upload_section wd ;;
  results_section wd.

(** Buttons are only pressed in the run they trigger; every other widget
    keeps its value when the script is run again. *)
Definition after_rerun (wd : widgets) : widgets :=
  {| model_choice := model_choice wd;
     ocr_prompt := ocr_prompt wd;
     uploaded_file := uploaded_file wd;
     page_choice := page_choice wd;
     load_clicked := false;
     extract_clicked := false;
     render_markdown := render_markdown wd |}.

(** One user interaction: a run of the script and, when that run ends in
    [st.rerun()], the run the framework starts in its place. *)
Definition interact (wd : widgets) : M unit :=
  fun w =>
    let '{| out := o; final := w1; log := l1 |} := script wd w in
    match o with
    | RerunRequested =>
        let '{| out := o'; final := w2; log := l2 |} :=
          script (after_rerun wd) w1 in
        {| out := o'; final := w2; log := l1 ++ l2 |}
    | _ => {| out := o; final := w1; log := l1 |}
    end.

End Controller.

Arguments Build_run {Obj A} out final log.
Arguments out {Obj A} r.
Arguments final {Obj A} r.
Arguments log {Obj A} r.

(** * The sidebar (lines 31-71)

    The sidebar computes three things from the model names: the provider
    shown in the label of the model selector, the name each option is
    displayed under, and the caption with the size of the download. *)

(** [s.split(sep)] for a separator of one character. *)
Fixpoint split (sep : Ascii.ascii) (s : string) : list string :=
  match s with
  | EmptyString => [EmptyString]
  | String c s' =>
      if Ascii.eqb c sep then EmptyString :: split sep s'
      else match split sep s' with
           | piece :: pieces => String c piece :: pieces
           | [] => [String c EmptyString]
           end
  end.

(** [s.startswith(sub)] *)
Fixpoint starts_with (sub s : string) : bool :=
  match sub, s with
  | EmptyString, _ => true
  | String a sub', String b s' => Ascii.eqb a b && starts_with sub' s'
  | String _ _, EmptyString => false
  end.

(** [sub in s]: [s] has [sub] at one of its positions. *)
Fixpoint in_str (sub s : string) : bool :=
  starts_with sub s ||
  match s with
  | EmptyString => false
  | String _ s' => in_str sub s'
  end.

(** Line 44: [available_models[0].split('/')[0]].  Neither list is empty,
    so the defaults are never used. *)
Definition model_provider : string :=
  hd "" (split "/"%char (hd "" available_models)).

(** Line 47, the label of the model selector. *)
Definition select_model_label : string :=
  "Select Model (" +:+ model_provider +:+ ")".

(** Line 51: [lambda x: x.split('/')[-1]].  The result of [split] is never
    empty, so the default is never used. *)
Definition format_func (x : string) : string :=
  List.last (split "/"%char x) "".

(** Lines 55-64: the caption under the model selector, if any. *)
Definition download_caption (name : string) : option string :=
  if in_str "2B" name && in_str "4bit" name then
    Some "📦 ~0.7GB download"
  else if in_str "2B" name && in_str "8bit" name then
    Some "📦 ~1.5GB download"
  else if in_str "8B" name && in_str "4bit" name then
    Some "📦 ~2.5GB download"
  else if in_str "8B" name && in_str "8bit" name then
    Some "📦 ~5GB download"
  else if in_str "32B" name && in_str "4bit" name then
    Some "📦 ~10GB download"
  else None.

(** A string without the character [c]. *)
Fixpoint free_of (c : Ascii.ascii) (s : string) : bool :=
  match s with
  | EmptyString => true
  | String c' s' => negb (Ascii.eqb c' c) && free_of c s'
  end.

(** * Vocabulary of the statements *)

Section Vocabulary.
Context {Obj : Type}.
Implicit Types (w : @world Obj) (s : gmap string (@value Obj)).

(** A piece of script keeps a relation [I] between the world before and the
    world after it. *)
Definition keeps (I : @world Obj -> @world Obj -> Prop) {A} (m : @M Obj A)
    : Prop :=
  forall w, I w (final (m w)).

Definition same_attr (key : string) w w' : Prop :=
  session_state w !! key = session_state w' !! key.

(** The session state behind lines 85-89. *)
Definition initialised s : gmap string (@value Obj) :=
  match s !! "model" with
  | Some _ => s
  | None =>
      <["model_name" := VNone]>
        (<["model_loaded" := VBool false]>
           (<["processor" := VNone]> (<["model" := VNone]> s)))
  end.

Definition initialised_world w : @world Obj :=
  {| session_state := initialised (session_state w); files := files w |}.

(** A run [r] that follows the events [l]. *)
Definition prepend {A} (l : list (@event Obj)) (r : @run Obj A) : run A :=
  {| out := out r; final := final r; log := l ++ log r |}.

(** Every event of a piece of script satisfies [P]. *)
Definition emits (P : @event Obj -> Prop) {A} (m : @M Obj A) : Prop :=
  forall w, Forall P (log (m w)).

(** The events of the upload section (lines 108-150). *)
Definition upload_event (e : @event Obj) : bool :=
  match e with
  | St_file_uploader _ | St_spinner _ | Ext_convert_from_path _ _
  | St_success _ | St_selectbox _ _ | St_image _ _ | St_error _ => true
  | _ => false
  end.

Definition is_selectbox (e : @event Obj) : bool :=
  match e with St_selectbox _ _ => true | _ => false end.

(** The calls that make up an inference attempt (lines 188-204). *)
Definition is_inference (e : @event Obj) : bool :=
  match e with
  | Ext_apply_chat_template _ _ _ _ | Ext_generate _ _ _ _ _ => true
  | _ => false
  end.

(** The calls that load a model (lines 95-96). *)
Definition is_load (e : @event Obj) : bool :=
  match e with
  | Ext_mlx_load _ | Ext_load_config _ => true
  | _ => false
  end.

(** A run that logged [l] has called the model loader. *)
Definition loads (l : list (@event Obj)) : bool := existsb is_load l.

(** The events of the "Load Model" button (lines 158-171). *)
Definition load_event (e : @event Obj) : bool :=
  match e with
  | St_button label => String.eqb label "🔄 Load Model"
  | St_spinner _ | Ext_mlx_load _ | Ext_load_config _ | St_error _
  | St_info _ | St_success _ => true
  | _ => false
  end.

(** What reports an error to the user (lines 146, 163, 210-211). *)
Definition is_error (e : @event Obj) : bool :=
  match e with
  | St_error _ | St_exception _ => true
  | _ => false
  end.

(** What shows or delivers the extracted text (lines 215-236). *)
Definition is_result_display (e : @event Obj) : bool :=
  match e with
  | St_subheader _ | St_toggle _ | St_markdown _ | St_text_area _ _ _
  | St_download_button _ _ _ _ => true
  | _ => false
  end.

(** The name of the temporary file of a run that starts in [w]. *)
Definition tmp_pdf_path (E : @externals Obj) w : string :=
  temporary_name E (files w) ".pdf".

(** What the conversion of the uploaded bytes [data] gives in a run that
    starts in [w]: the temporary file is in place when [convert_from_path]
    (line 123) is called. *)
Definition conversion (E : @externals Obj) w (data : list byte)
    : result (list Obj) * gmap string (list byte) :=
  convert_from_path E (<[tmp_pdf_path E w := data]> (files w))
    (tmp_pdf_path E w) 200.

(** The files a run that starts in [w] has when it reaches the results
    section (line 153), where the model is loaded: those its upload section
    leaves. *)
Definition files_at_load (E : @externals Obj) (wd : widgets) w
    : gmap string (list byte) :=
  files (final (upload_section E wd w)).

(** Loading the model [name] with the files [fs] in place fails with the
    message [msg]: one of the two calls of [load_vision_model] (lines
    95-96) raises, [load_config] after [mlx_load] has returned. *)
Definition load_fails (E : @externals Obj) (fs : gmap string (list byte))
    (name msg : string) : Prop :=
  (mlx_load E fs name).1 = Raises msg \/
  (exists mp, (mlx_load E fs name).1 = Returns mp) /\
  (load_config E (mlx_load E fs name).2 name).1 = Raises msg.

(** Loading the model [name] with the files [fs] in place gives the handle
    [(m, p, c)]. *)
Definition load_succeeds (E : @externals Obj) (fs : gmap string (list byte))
    (name : string) (m p c : Obj) : Prop :=
  (mlx_load E fs name).1 = Returns (m, p) /\
  (load_config E (mlx_load E fs name).2 name).1 = Returns c.

(** The files the two calls of [load_vision_model] leave behind them:
    [load_config] is only called when [mlx_load] has returned. *)
Definition load_files (E : @externals Obj) (fs : gmap string (list byte))
    (name : string) : gmap string (list byte) :=
  match mlx_load E fs name with
  | (Returns _, fs1) => (load_config E fs1 name).2
  | (Raises _, fs1) => fs1
  end.

(** The calls that load a model leave the path [p] alone. *)
Definition loader_spares (E : @externals Obj) (p : string) : Prop :=
  forall fs name,
    (mlx_load E fs name).2 !! p = fs !! p /\
    (load_config E fs name).2 !! p = fs !! p.

(** The session state behind the assignments of lines 166-170. *)
Definition record_model (name : string) (model processor config : @value Obj)
    s : gmap string (@value Obj) :=
  <["model_name" := VStr name]>
    (<["model_loaded" := VBool true]>
       (<["config" := config]>
          (<["processor" := processor]> (<["model" := model]> s)))).

(** What the result display renders for the stored text [text] and the
    stored page number [page_num] (lines 215-236). *)
Definition result_display (E : @externals Obj) (wd : widgets)
    (text page_num : @value Obj) : list (@event Obj) :=
  [ St_subheader ("Extracted Text (Page " +:+ py_str E page_num +:+ ")");
    St_toggle "Render as Markdown";
    (if render_markdown wd then St_markdown text
     else St_text_area "OCR Output" text 400);
    St_download_button "📥 Download Text" text
      ("ocr_page_" +:+ py_str E page_num +:+ ".txt") "text/plain" ].

(** The keys that hold the loaded model (lines 166-170). *)
Definition model_keys : list string :=
  ["model"; "processor"; "config"; "model_loaded"; "model_name"].

(** Two worlds hold the same model under the same name and flag. *)
Definition same_model w w' : Prop :=
  forall key, In key model_keys ->
    session_state w !! key = session_state w' !! key.

(** The session is ready: the flag tested at line 175 is set. *)
Definition ready s : bool :=
  match s !! "model_loaded" with
  | Some v => truthy v
  | None => false
  end.

(** What a run rendered of the result display. *)
Definition displayed (l : list (@event Obj)) : list (@event Obj) :=
  List.filter is_result_display l.

(** What the result display renders in a session state [s]: nothing
    without a stored text, nothing for a stored text that is empty. *)
Definition shown (E : @externals Obj) (wd : widgets)
    (s : gmap string (@value Obj)) : list (@event Obj) :=
  match s !! "output_text", s !! "page_num" with
  | Some text, Some page_num =>
      if truthy text then result_display E wd text page_num else []
  | _, _ => []
  end.

(** What the session states of the script have in common: a ready session
    holds a model, its processor and configuration under the name of a
    model, next to a page image; a page image comes with its page number;
    a stored result is a text, and is only stored in a ready session. *)
Definition wf s : Prop :=
  (ready s = true ->
   is_Some (s !! "model") /\ is_Some (s !! "processor") /\
   is_Some (s !! "config") /\ is_Some (s !! "current_image") /\
   exists n, s !! "model_name" = Some (VStr n)) /\
  (is_Some (s !! "current_image") ->
   exists n, s !! "page_num" = Some (VInt n)) /\
  (forall v, s !! "output_text" = Some v ->
   ready s = true /\ exists t, v = VStr t).

(** Every key of [s] is a key of [s']. *)
Definition grows s s' : Prop :=
  forall key, is_Some (s !! key) -> is_Some (s' !! key).

(** A session state that has gone through the initialisation of lines
    85-89 has the flag and the name next to the model. *)
Definition has_defaults s : Prop :=
  is_Some (s !! "model") ->
  is_Some (s !! "model_loaded") /\ is_Some (s !! "model_name").

(** What the results section tells the user about a session state [s]
    (lines 155, 175-176, 238, 240), going by the page image and the flag
    [model_loaded]: to upload a document, to load a model, or that the
    model is ready. *)
Definition status_line (s : gmap string (@value Obj))
    (l : list (@event Obj)) : Prop :=
  match s !! "current_image" with
  | None => In (St_info "👈 Upload a PDF file to begin") l
  | Some _ =>
      if ready s then
        exists n,
          s !! "model_name" = Some (VStr n) /\
          In (St_success ("✅ Model ready: " +:+ n)) l
      else
        In (St_info "👆 Click 'Load Model' to start") l /\
        In (St_button "🔄 Load Model") l
  end.

(** The worlds a session goes through: it starts with an empty session
    state, and every interaction of the user, with whatever widget values
    and whatever the collaborators do, leads to the next one. *)
Inductive reachable : @world Obj -> Prop :=
| reachable_start fs : reachable {| session_state := ∅; files := fs |}
| reachable_interact E wd w :
    reachable w -> reachable (final (interact E wd w)).

(** The interactions [steps] of the user, one after the other, each with
    the collaborators as they behave at that time. *)
Fixpoint session (steps : list (@externals Obj * widgets)) w : @world Obj :=
  match steps with
  | [] => w
  | (E, wd) :: steps' => session steps' (final (interact E wd w))
  end.

(** The run [r], ending with the files [fs]. *)
Definition with_files {A} (fs : gmap string (list byte)) (r : @run Obj A)
    : run A :=
  {| out := out r;
     final := {| session_state := session_state (final r); files := fs |};
     log := log r |}.

(** A piece of script that neither reads nor writes the files: it runs in
    the same way whatever they are. *)
Definition files_blind {A} (m : @M Obj A) : Prop :=
  forall s fs fs',
    m {| session_state := s; files := fs' |} =
    with_files fs' (m {| session_state := s; files := fs |}).

End Vocabulary.

(** * A session to try the statements on

    Opaque objects are named by strings.  The document has three pages; the
    collaborators are given by what the conversion, the model load and the
    generation do. *)

Definition demo_pdf : list byte := [x25; x50; x44; x46].

Definition demo_pages : list string := ["page one"; "page two"; "page three"].

(** Where the model loader of the example keeps what it has downloaded. *)
Definition demo_cache (name : string) : string :=
  "/root/.cache/huggingface/hub/" +:+ name.

Definition demo_weights : list byte := [x93; x4e; x55; x4d].

Definition demo_externals (pages : result (list string))
    (load : string -> result (string * string)) (text : result string)
    : @externals string :=
  {| obj_str := fun o => o;
     missing_attribute := fun key =>
       "st.session_state has no attribute " +:+ key;
     temporary_name := fun _ suffix => "/tmp/tmpq3x81" +:+ suffix;
     convert_from_path := fun fs _ _ => (pages, fs);
     mlx_load := fun fs name =>
       match load name with
       | Returns mp => (Returns mp, <[demo_cache name := demo_weights]> fs)
       | Raises msg => (Raises msg, fs)
       end;
     load_config := fun fs name => (Returns ("config of " +:+ name), fs);
     apply_chat_template := fun _ _ prompt _ =>
       Returns ("<|image|>" +:+ prompt);
     generate := fun _ _ _ _ _ => text |}.

(** Every model loads. *)
Definition load_any (name : string) : result (string * string) :=
  Returns ("weights of " +:+ name, "processor of " +:+ name).

(** Only the first model of the list is available. *)
Definition load_first_only (name : string) : result (string * string) :=
  if String.eqb name "mlx-community/Qwen3-VL-2B-Instruct-4bit"
  then load_any name
  else Raises "Repository Not Found".

(** The load raises an exception without a message. *)
Definition load_silent (name : string) : result (string * string) :=
  Raises "".

Definition demo_widgets (model page : nat) (load extract : bool) : widgets :=
  {| model_choice := model;
     ocr_prompt := "Extract all text";
     uploaded_file := Some demo_pdf;
     page_choice := page;
     load_clicked := load;
     extract_clicked := extract;
     render_markdown := false |}.

Definition demo_world : @externals string :=
  demo_externals (Returns demo_pages) load_first_only (Returns "# Invoice").

(** The same collaborators, with a model load that raises without a
    message. *)
Definition demo_silent : @externals string :=
  demo_externals (Returns demo_pages) load_silent (Returns "# Invoice").

(** The same collaborators, with a generation that returns no text. *)
Definition demo_blank : @externals string :=
  demo_externals (Returns demo_pages) load_first_only (Returns "").

(** The same collaborators, with a generation that raises. *)
Definition demo_failing : @externals string :=
  demo_externals (Returns demo_pages) load_first_only
    (Raises "out of memory").

Definition fresh : @world string := {| session_state := ∅; files := ∅ |}.

(** The document is uploaded and page 2 selected. *)
Definition with_document : @world string :=
  final (interact demo_world (demo_widgets 0 1 false false) fresh).

(** Then the first model is loaded. *)
Definition with_model : @world string :=
  final (interact demo_world (demo_widgets 0 1 true false) with_document).

(** Then the text of page 2 is extracted. *)
Definition with_result : @world string :=
  final (interact demo_world (demo_widgets 0 1 false true) with_model).

(** The same collaborators, with a conversion that raises. *)
Definition demo_corrupt : @externals string :=
  demo_externals (Raises "Unable to get page count.") load_first_only
    (Returns "# Invoice").

(** The same collaborators, with a conversion that returns no page. *)
Definition demo_empty : @externals string :=
  demo_externals (Returns []) load_first_only (Returns "# Invoice").

(** The file is taken away and "Load Model" is pressed. *)
Definition demo_reload : widgets :=
  {| model_choice := 0;
     ocr_prompt := "Extract all text";
     uploaded_file := None;
     page_choice := 0;
     load_clicked := true;
     extract_clicked := false;
     render_markdown := false |}.

(** The document is uploaded, and then the load of the first model raises
    an exception without a message. *)
Definition with_silent_load : @world string :=
  final (interact demo_silent (demo_widgets 0 1 true false) with_document).

(** * Reasoning about runs *)

Create HintDb frame discriminated.

(** ** Relations kept by the pieces of the script

    A relation [I] between worlds that is reflexive and transitive is kept
    by sequencing, by exception handling and by clean-up, whenever each of
    the pieces keeps it. *)
Section Frame.
Context {Obj : Type}.
Variable I : @world Obj -> @world Obj -> Prop.
Hypothesis I_refl : forall w, I w w.
Hypothesis I_trans : forall w1 w2 w3, I w1 w2 -> I w2 w3 -> I w1 w3.

Lemma keeps_ret {A} (a : A) : keeps I (ret a).
Proof. intros w. apply I_refl. Qed.

Lemma keeps_raise {A} msg : keeps I (raise (A:=A) msg).
Proof. intros w. apply I_refl. Qed.

Lemma keeps_st_rerun {A} : keeps I (st_rerun (A:=A)).
Proof. intros w. apply I_refl. Qed.

Lemma keeps_emit e : keeps I (emit e).
Proof. intros w. apply I_refl. Qed.

Lemma keeps_contains key : keeps I (contains key).
Proof. intros w. apply I_refl. Qed.

Lemma keeps_attr E key : keeps I (attr E key).
Proof. intros w. unfold attr. destruct (session_state w !! key); apply I_refl. Qed.

Lemma keeps_lift {A} (r : result A) : keeps I (lift r).
Proof. destruct r; [apply keeps_ret | apply keeps_raise]. Qed.

Lemma keeps_bind {A B} (m : M A) (k : A -> M B) :
  keeps I m -> (forall a, keeps I (k a)) -> keeps I (bind m k).
Proof.
  intros Hm Hk w. unfold bind. specialize (Hm w).
  destruct (m w) as [[a|msg|] w1 l1]; simpl in *; [|done..].
  specialize (Hk a w1). destruct (k a w1) as [o' w2 l2]; simpl in *.
  eapply I_trans; eassumption.
Qed.

Lemma keeps_try_except {A} (body : M A) handler :
  keeps I body -> (forall e, keeps I (handler e)) ->
  keeps I (try_except body handler).
Proof.
  intros Hb Hh w. unfold try_except. specialize (Hb w).
  destruct (body w) as [[a|msg|] w1 l1]; simpl in *; [done| |done].
  specialize (Hh msg w1). destruct (handler msg w1) as [o' w2 l2]; simpl in *.
  eapply I_trans; eassumption.
Qed.

Lemma keeps_try_finally {A} (body : M A) cleanup :
  keeps I body -> keeps I cleanup -> keeps I (try_finally body cleanup).
Proof.
  intros Hb Hc w. unfold try_finally. specialize (Hb w).
  destruct (body w) as [o w1 l1]; simpl in *.
  specialize (Hc w1). destruct (cleanup w1) as [[[]|msg|] w2 l2]; simpl in *;
    eapply I_trans; eassumption.
Qed.

Lemma keeps_index {A} (l : list A) i : keeps I (index l i).
Proof. intros w. unfold index. repeat case_match; apply I_refl. Qed.

Lemma keeps_call_apply_chat_template E p c pr n :
  keeps I (call_apply_chat_template E p c pr n).
Proof. apply keeps_bind; [apply keeps_emit | intros; apply keeps_lift]. Qed.

Lemma keeps_call_generate E m p f i o : keeps I (call_generate E m p f i o).
Proof. apply keeps_bind; [apply keeps_emit | intros; apply keeps_lift]. Qed.

End Frame.

Section FrameInstances.
Context {Obj : Type}.
Implicit Types (E : @externals Obj) (w : @world Obj).

Lemma same_attr_refl key w : same_attr key w w.
Proof. done. Qed.

Lemma same_attr_trans key w1 w2 w3 :
  same_attr key w1 w2 -> same_attr key w2 w3 -> same_attr key w1 w3.
Proof. unfold same_attr; congruence. Qed.

Lemma keeps_attr_assign key key' v :
  key <> key' -> keeps (same_attr key) (assign (Obj:=Obj) key' v).
Proof. intros Hne w. unfold same_attr. simpl. by rewrite lookup_insert_ne. Qed.

Lemma keeps_attr_named_temporary_file E key suffix data :
  keeps (same_attr key) (named_temporary_file (Obj:=Obj) E suffix data).
Proof. done. Qed.

Lemma keeps_attr_path_exists key path :
  keeps (same_attr key) (path_exists (Obj:=Obj) path).
Proof. done. Qed.

Lemma keeps_attr_unlink key path :
  keeps (same_attr key) (unlink (Obj:=Obj) path).
Proof. intros w. unfold unlink. by destruct (files w !! path). Qed.

Lemma keeps_attr_call_convert_from_path E key path dpi :
  keeps (same_attr key) (call_convert_from_path E path dpi).
Proof.
  intros w. unfold call_convert_from_path.
  destruct (convert_from_path E (files w) path dpi) as [[imgs|msg] fs]; done.
Qed.

Lemma keeps_attr_call_mlx_load E key name :
  keeps (same_attr key) (call_mlx_load E name).
Proof.
  intros w. unfold call_mlx_load.
  destruct (mlx_load E (files w) name) as [[mp|msg] fs]; done.
Qed.

Lemma keeps_attr_call_load_config E key name :
  keeps (same_attr key) (call_load_config E name).
Proof.
  intros w. unfold call_load_config.
  destruct (load_config E (files w) name) as [[c|msg] fs]; done.
Qed.

End FrameInstances.

Section ModelFrame.
Context {Obj : Type}.
Implicit Types (E : @externals Obj) (w : @world Obj).

Lemma same_model_refl w : same_model w w.
Proof. done. Qed.

Lemma same_model_trans w1 w2 w3 :
  same_model w1 w2 -> same_model w2 w3 -> same_model w1 w3.
Proof. intros H1 H2 key Hk. by rewrite H1, H2. Qed.

Lemma keeps_model_assign key v :
  ~ In key model_keys -> keeps same_model (assign (Obj:=Obj) key v).
Proof.
  intros Hk w key' Hk'. simpl. rewrite lookup_insert_ne; [done|].
  by intros ->.
Qed.

Lemma same_model_ready w w' :
  same_model w w' -> ready (session_state w) = ready (session_state w').
Proof. intros H. unfold ready. rewrite (H "model_loaded"); simpl; auto. Qed.

End ModelFrame.

#[export] Hint Resolve keeps_ret keeps_raise keeps_st_rerun keeps_emit
  keeps_contains keeps_attr keeps_lift keeps_index
  keeps_call_apply_chat_template keeps_call_generate
  same_attr_refl same_attr_trans keeps_attr_named_temporary_file
  keeps_attr_path_exists keeps_attr_unlink keeps_attr_call_convert_from_path
  keeps_attr_call_mlx_load keeps_attr_call_load_config
  : frame.
#[export] Hint Extern 1 (@keeps _ (same_attr _) _ (assign _ _)) =>
  apply keeps_attr_assign; discriminate : frame.
#[export] Hint Resolve same_model_refl same_model_trans : frame.
#[export] Hint Extern 1 (@keeps _ same_model _ (assign _ _)) =>
  apply keeps_model_assign; simpl; intuition discriminate : frame.

(** Splits a goal [keeps I m] along the structure of [m]. *)
Ltac frame_step :=
  match goal with
  | |- @keeps _ _ _ (bind _ _) =>
      apply keeps_bind; [eauto with frame..| |intros]
  | |- @keeps _ _ _ (try_except _ _) =>
      apply keeps_try_except; [eauto with frame..| |intros]
  | |- @keeps _ _ _ (try_finally _ _) =>
      apply keeps_try_finally; [eauto with frame..| |]
  | |- @keeps _ _ _ (if ?b then _ else _) => destruct b
  | |- @keeps _ _ _ (match ?x with _ => _ end) => destruct x
  | |- @keeps _ _ _ _ => solve [eauto with frame]
  end.
Ltac frame := repeat frame_step.

(** ** Events of the pieces of the script *)
Section Emits.
Context {Obj : Type}.
Variable P : @event Obj -> Prop.

Lemma emits_ret {A} (a : A) : emits P (ret a).
Proof. intros w. constructor. Qed.

Lemma emits_raise {A} msg : emits P (raise (A:=A) msg).
Proof. intros w. constructor. Qed.

Lemma emits_st_rerun {A} : emits P (st_rerun (A:=A)).
Proof. intros w. constructor. Qed.

Lemma emits_emit e : P e -> emits P (emit e).
Proof. intros He w. simpl. by repeat constructor. Qed.

Lemma emits_contains key : emits P (contains key).
Proof. intros w. constructor. Qed.

Lemma emits_assign key v : emits P (assign key v).
Proof. intros w. constructor. Qed.

Lemma emits_attr E key : emits P (attr E key).
Proof. intros w. unfold attr. destruct (session_state w !! key); constructor. Qed.

Lemma emits_lift {A} (r : result A) : emits P (lift r).
Proof. destruct r; [apply emits_ret | apply emits_raise]. Qed.

Lemma emits_named_temporary_file E suffix data :
  emits P (named_temporary_file E suffix data).
Proof. intros w. constructor. Qed.

Lemma emits_path_exists path : emits P (path_exists path).
Proof. intros w. constructor. Qed.

Lemma emits_unlink path : emits P (unlink path).
Proof. intros w. unfold unlink. destruct (files w !! path); constructor. Qed.

Lemma emits_index {A} (l : list A) i : emits P (index l i).
Proof. intros w. unfold index. repeat case_match; constructor. Qed.

Lemma emits_bind {A B} (m : M A) (k : A -> M B) :
  emits P m -> (forall a, emits P (k a)) -> emits P (bind m k).
Proof.
  intros Hm Hk w. unfold bind. specialize (Hm w).
  destruct (m w) as [[a|msg|] w1 l1]; simpl in *; [|done..].
  specialize (Hk a w1). destruct (k a w1) as [o' w2 l2]; simpl in *.
  by apply Forall_app.
Qed.

Lemma emits_try_except {A} (body : M A) handler :
  emits P body -> (forall e, emits P (handler e)) ->
  emits P (try_except body handler).
Proof.
  intros Hb Hh w. unfold try_except. specialize (Hb w).
  destruct (body w) as [[a|msg|] w1 l1]; simpl in *; [done| |done].
  specialize (Hh msg w1). destruct (handler msg w1) as [o' w2 l2]; simpl in *.
  by apply Forall_app.
Qed.

Lemma emits_try_finally {A} (body : M A) cleanup :
  emits P body -> emits P cleanup -> emits P (try_finally body cleanup).
Proof.
  intros Hb Hc w. unfold try_finally. specialize (Hb w).
  destruct (body w) as [o w1 l1]; simpl in *.
  specialize (Hc w1). destruct (cleanup w1) as [[[]|msg|] w2 l2]; simpl in *;
    by apply Forall_app.
Qed.

Lemma emits_call_mlx_load E name :
  P (Ext_mlx_load name) -> emits P (call_mlx_load E name).
Proof.
  intros He w. unfold call_mlx_load.
  destruct (mlx_load E (files w) name) as [[mp|msg] fs]; simpl;
    by repeat constructor.
Qed.

Lemma emits_call_load_config E name :
  P (Ext_load_config name) -> emits P (call_load_config E name).
Proof.
  intros He w. unfold call_load_config.
  destruct (load_config E (files w) name) as [[c|msg] fs]; simpl;
    by repeat constructor.
Qed.

End Emits.

#[export] Hint Resolve emits_ret emits_raise emits_st_rerun emits_contains
  emits_assign emits_attr emits_lift emits_named_temporary_file
  emits_path_exists emits_unlink emits_index : frame.
#[export] Hint Extern 1 (@emits _ _ _ (emit _)) =>
  apply emits_emit; done : frame.
#[export] Hint Extern 1 (@emits _ _ _ (call_mlx_load _ _)) =>
  apply emits_call_mlx_load; done : frame.
#[export] Hint Extern 1 (@emits _ _ _ (call_load_config _ _)) =>
  apply emits_call_load_config; done : frame.

(** Splits a goal [emits P m] along the structure of [m]. *)
Ltac emits_step :=
  match goal with
  | |- @emits _ _ _ (bind _ _) => apply emits_bind; [|intros]
  | |- @emits _ _ _ (try_except _ _) => apply emits_try_except; [|intros]
  | |- @emits _ _ _ (try_finally _ _) => apply emits_try_finally
  | |- @emits _ _ _ (if ?b then _ else _) => destruct b
  | |- @emits _ _ _ (match ?x with _ => _ end) => destruct x
  | |- @emits _ _ _ _ => solve [eauto with frame]
  end.
Ltac emits := repeat emits_step.

(** ** Pieces of the script that do not look at the files *)
Section Blind.
Context {Obj : Type}.

Lemma files_blind_ret {A} (a : A) : files_blind (Obj:=Obj) (ret a).
Proof. done. Qed.

Lemma files_blind_raise {A} msg : files_blind (Obj:=Obj) (raise (A:=A) msg).
Proof. done. Qed.

Lemma files_blind_st_rerun {A} : files_blind (Obj:=Obj) (st_rerun (A:=A)).
Proof. done. Qed.

Lemma files_blind_emit (e : @event Obj) : files_blind (emit e).
Proof. done. Qed.

Lemma files_blind_contains key : files_blind (Obj:=Obj) (contains key).
Proof. done. Qed.

Lemma files_blind_assign key (v : @value Obj) : files_blind (assign key v).
Proof. done. Qed.

Lemma files_blind_attr (E : @externals Obj) key : files_blind (attr E key).
Proof. intros s fs fs'. unfold attr. simpl. by destruct (s !! key). Qed.

Lemma files_blind_lift {A} (r : result A) : files_blind (Obj:=Obj) (lift r).
Proof. by destruct r. Qed.

Lemma files_blind_bind {A B} (m : @M Obj A) (k : A -> M B) :
  files_blind m -> (forall a, files_blind (k a)) -> files_blind (bind m k).
Proof.
  intros Hm Hk s fs fs'. unfold bind. rewrite (Hm s fs fs').
  destruct (m {| session_state := s; files := fs |}) as [[a|msg|] [s1 fs1] l1];
    simpl; [|done..].
  rewrite (Hk a s1 fs1 fs').
  by destruct (k a {| session_state := s1; files := fs1 |}).
Qed.

Lemma files_blind_try_except {A} (body : @M Obj A) handler :
  files_blind body -> (forall e, files_blind (handler e)) ->
  files_blind (try_except body handler).
Proof.
  intros Hb Hh s fs fs'. unfold try_except. rewrite (Hb s fs fs').
  destruct (body {| session_state := s; files := fs |})
    as [[a|msg|] [s1 fs1] l1]; simpl; [done| |done].
  rewrite (Hh msg s1 fs1 fs').
  by destruct (handler msg {| session_state := s1; files := fs1 |}).
Qed.

Lemma files_blind_call_apply_chat_template (E : @externals Obj) p c pr n :
  files_blind (call_apply_chat_template E p c pr n).
Proof.
  apply files_blind_bind; [apply files_blind_emit|intros; apply files_blind_lift].
Qed.

Lemma files_blind_call_generate (E : @externals Obj) m p f i o :
  files_blind (call_generate E m p f i o).
Proof.
  apply files_blind_bind; [apply files_blind_emit|intros; apply files_blind_lift].
Qed.

End Blind.

#[export] Hint Resolve files_blind_ret files_blind_raise files_blind_st_rerun
  files_blind_emit files_blind_contains files_blind_assign files_blind_attr
  files_blind_lift files_blind_call_apply_chat_template
  files_blind_call_generate : frame.

(** Splits a goal [files_blind m] along the structure of [m]. *)
Ltac blind_step :=
  match goal with
  | |- @files_blind _ _ (bind _ _) => apply files_blind_bind; [|intros]
  | |- @files_blind _ _ (try_except _ _) =>
      apply files_blind_try_except; [|intros]
  | |- @files_blind _ _ (if ?b then _ else _) => destruct b
  | |- @files_blind _ _ (match ?x with _ => _ end) => destruct x
  | |- @files_blind _ _ _ => solve [eauto with frame]
  end.
Ltac blind := repeat blind_step.

(** ** Symbolic execution of the script *)

Ltac unfold_script :=
  unfold script, init_session_state, upload_section, convert_and_select,
    results_section, ocr_section, ready_section, load_model_section,
    extract_section,
    extract_text, display_section, load_vision_model, call_convert_from_path,
    call_mlx_load, call_load_config, call_apply_chat_template, call_generate,
    named_temporary_file, path_exists, unlink, lift,
    try_finally, try_except, bind, emit, ret, raise, assign, attr,
    contains, st_rerun.

(** Uses what is known: hypotheses about the lookups, widget values and
    external calls a run is stuck on, and the lookups in a session state
    that has just been assigned to. *)
Ltac run_known :=
  match goal with
  | H : ?s !! ?k = _ |- context [?s !! ?k] => rewrite H
  | H : truthy ?v = _ |- context [truthy ?v] => rewrite H
  | H : ne_str ?v ?n = _ |- context [ne_str ?v ?n] => rewrite H
  | H : load_clicked ?wd = _ |- context [load_clicked ?wd] => rewrite H
  | H : extract_clicked ?wd = _ |- context [extract_clicked ?wd] => rewrite H
  | H : render_markdown ?wd = _ |- context [render_markdown ?wd] => rewrite H
  | H : mlx_load ?E ?fs ?n = _ |- context [mlx_load ?E ?fs ?n] => rewrite H
  | H : load_config ?E ?fs ?n = _ |- context [load_config ?E ?fs ?n] =>
      rewrite H
  | H : apply_chat_template ?E ?a ?b ?c ?d = _
    |- context [apply_chat_template ?E ?a ?b ?c ?d] => rewrite H
  | H : generate ?E ?a ?b ?c ?d ?e = _
    |- context [generate ?E ?a ?b ?c ?d ?e] => rewrite H
  | H : String.eqb ?a ?b = _ |- context [String.eqb ?a ?b] => rewrite H
  | |- context [<[?k:=_]> _ !! ?k] => rewrite lookup_insert_eq
  | |- context [<[?k:=_]> _ !! ?k'] => rewrite (lookup_insert_ne _ k k') by done
  end.

(** Splits on what a run is stuck on. *)
Ltac run_split :=
  match goal with
  | |- context [match ?s !! ?k with _ => _ end] =>
      is_var s; destruct (s !! k) eqn:?
  | |- context [if truthy ?v then _ else _] => destruct (truthy v) eqn:?
  | |- context [if negb (truthy ?v) then _ else _] => destruct (truthy v) eqn:?
  | |- context [if ne_str ?v ?n then _ else _] => destruct (ne_str v n) eqn:?
  | |- context [if load_clicked ?wd then _ else _] =>
      destruct (load_clicked wd) eqn:?
  | |- context [if extract_clicked ?wd then _ else _] =>
      destruct (extract_clicked wd) eqn:?
  | |- context [if render_markdown ?wd then _ else _] =>
      destruct (render_markdown wd) eqn:?
  | |- context [if negb (String.eqb ?a ?b) then _ else _] =>
      destruct (String.eqb a b) eqn:?
  | |- context [match mlx_load ?E ?fs ?n with _ => _ end] =>
      destruct (mlx_load E fs n) as [[[??]|?] ?] eqn:?
  | |- context [match load_config ?E ?fs ?n with _ => _ end] =>
      destruct (load_config E fs n) as [[?|?] ?] eqn:?
  | |- context [match apply_chat_template ?E ?a ?b ?c ?d with _ => _ end] =>
      destruct (apply_chat_template E a b c d) eqn:?
  | |- context [match generate ?E ?a ?b ?c ?d ?e with _ => _ end] =>
      destruct (generate E a b c d e) eqn:?
  end.

(** Two results of the same call are the same. *)
Ltac same_call :=
  repeat match goal with
  | H1 : ?x = _, H2 : ?x = _ |- _ => rewrite H1 in H2; simplify_eq
  end.

Ltac run_script := simpl; repeat (run_known; simpl).
Ltac run_cases := run_script; repeat (run_split; run_script).

Section Sections.
Context {Obj : Type}.
Implicit Types (E : @externals Obj) (wd : widgets) (w : @world Obj).
Implicit Types (s : gmap string (@value Obj)) (fs : gmap string (list byte)).

(** ** Session initialisation *)

Lemma init_session_state_run w :
  init_session_state w =
  {| out := Done tt; final := initialised_world w; log := [] |}.
Proof.
  unfold init_session_state, initialised_world, initialised, bind, contains.
  destruct w as [s fs]; simpl.
  by destruct (s !! "model") as [v|] eqn:Hs.
Qed.

Lemma initialised_present s : is_Some (s !! "model") -> initialised s = s.
Proof. intros [v Hv]. unfold initialised. by rewrite Hv. Qed.

Lemma initialised_attr s key :
  key <> "model" -> key <> "processor" -> key <> "model_loaded" ->
  key <> "model_name" -> initialised s !! key = s !! key.
Proof.
  intros. unfold initialised. destruct (s !! "model"); [done|].
  by rewrite !lookup_insert_ne.
Qed.

(** ** The upload section *)

Lemma index_lookup {A} (l : list A) (i : nat) x w :
  l !! i = Some x -> index (Obj:=Obj) l (Z.of_nat (S i) - 1) w = ret x w.
Proof.
  intros Hx. unfold index, len. apply lookup_lt_Some in Hx as Hlt.
  replace (Z.of_nat (S i) - 1) with (Z.of_nat i) by lia.
  destruct (Z.ltb_spec (Z.of_nat i) 0); [lia|].
  destruct (Z.leb_spec 0 (Z.of_nat i)); [|lia].
  destruct (Z.ltb_spec (Z.of_nat i) (Z.of_nat (length l))); [|lia].
  simpl. by rewrite Nat2Z.id, Hx.
Qed.

Lemma range_lookup (n i : nat) :
  (i < n)%nat -> range 1 (Z.of_nat n + 1) !! i = Some (Z.of_nat (S i)).
Proof.
  intros Hi. unfold range. rewrite lookup_seqZ_lt by lia. f_equal. lia.
Qed.

Lemma select_page_many wd (images : list Obj) w :
  (1 < length images)%nat -> (page_choice wd < length images)%nat ->
  select_page wd images w =
  {| out := Done (Z.of_nat (S (page_choice wd))); final := w;
     log := [St_selectbox "Select page to OCR" (range 1 (len images + 1))] |}.
Proof.
  intros Hn Hi. unfold select_page, len, selectbox_value.
  destruct (Z.ltb_spec 1 (Z.of_nat (length images))); [|lia].
  unfold bind, emit. simpl. by rewrite range_lookup.
Qed.

Lemma select_page_one wd (image : Obj) w :
  select_page wd [image] w = ret 1 w.
Proof. done. Qed.

Lemma upload_section_none E wd w :
  uploaded_file wd = None ->
  upload_section E wd w =
  {| out := Done tt; final := w;
     log := [St_file_uploader "Choose a PDF file"] |}.
Proof. intros H. unfold upload_section, bind, emit. rewrite H. by destruct w. Qed.

Lemma upload_section_keeps E wd key :
  key <> "current_image" -> key <> "page_num" ->
  keeps (same_attr key) (upload_section E wd).
Proof.
  intros. unfold upload_section, convert_and_select, select_page.
  frame; apply keeps_attr_assign; done.
Qed.

Lemma upload_section_emits E wd :
  emits (fun e => upload_event e = true) (upload_section E wd).
Proof.
  unfold upload_section, convert_and_select, select_page,
    call_convert_from_path.
  emits. intros w. destruct (convert_from_path E _ _ _) as [r fs].
  by apply emits_bind; [apply emits_emit|intros; apply emits_lift].
Qed.

(** The body of the [try] of the upload section ends normally or in an
    exception, and leaves the files as the conversion left them. *)
Lemma convert_and_select_run E wd path w :
  let r := convert_and_select E wd path w in
  out r <> RerunRequested /\
  files (final r) = (convert_from_path E (files w) path 200).2 /\
  In (Ext_convert_from_path path 200) (log r).
Proof.
  unfold convert_and_select, select_page, index, call_convert_from_path,
    bind, emit, ret, raise, lift, assign.
  destruct (convert_from_path E _ _ _) as [[images|msg] fs']; simpl; [|auto].
  repeat (case_match; simplify_eq/=); auto.
Qed.

Lemma upload_section_some E wd w data :
  uploaded_file wd = Some data ->
  let r := upload_section E wd w in
  out r = Done tt /\
  files (final r) = delete (tmp_pdf_path E w) (conversion E w data).2 /\
  In (Ext_convert_from_path (tmp_pdf_path E w) 200) (log r).
Proof.
  intros Hup. unfold upload_section. rewrite Hup.
  unfold conversion, tmp_pdf_path.
  set (path := temporary_name E (files w) ".pdf").
  unfold named_temporary_file, try_finally, try_except, path_exists, unlink,
    bind, emit, ret. simpl. fold path.
  set (w0 := {| session_state := session_state w;
                files := <[path:=data]> (files w) |}).
  destruct (convert_and_select_run E wd path w0) as (Hout & Hfiles & Hlog).
  change (files w0) with (<[path:=data]> (files w)) in Hfiles.
  destruct (convert_and_select E wd path w0) as [[[]|msg|] w1 l1];
    simpl in *; [| |done]; rewrite <- Hfiles;
    destruct (files w1 !! path) eqn:Hp; simpl; rewrite ?Hp; simpl;
    rewrite ?delete_id by done; repeat split; try done;
    right; rewrite ?in_app_iff; auto.
Qed.

(** The files the upload section leaves do not depend on the session
    state. *)
Lemma files_at_load_initialised E wd w :
  files (final (upload_section E wd (initialised_world w))) =
  files_at_load E wd w.
Proof.
  unfold files_at_load. destruct (uploaded_file wd) as [data|] eqn:Hup.
  - destruct (upload_section_some E wd w data Hup) as (_ & -> & _).
    by destruct (upload_section_some E wd (initialised_world w) data Hup)
      as (_ & -> & _).
  - by rewrite !upload_section_none.
Qed.

Lemma files_at_load_some E wd w data :
  uploaded_file wd = Some data ->
  files_at_load E wd w = delete (tmp_pdf_path E w) (conversion E w data).2.
Proof.
  intros Hup. unfold files_at_load.
  by destruct (upload_section_some E wd w data Hup) as (_ & -> & _).
Qed.

Lemma files_at_load_none E wd w :
  uploaded_file wd = None -> files_at_load E wd w = files w.
Proof. intros Hup. unfold files_at_load. by rewrite upload_section_none. Qed.

Lemma upload_section_out E wd w : out (upload_section E wd w) = Done tt.
Proof.
  destruct (uploaded_file wd) as [data|] eqn:Hup.
  - by destruct (upload_section_some E wd w data Hup).
  - by rewrite upload_section_none.
Qed.

Lemma upload_section_current_image E wd w :
  is_Some (session_state w !! "current_image") ->
  is_Some (session_state (final (upload_section E wd w)) !! "current_image").
Proof.
  intros Hi. destruct (uploaded_file wd) as [data|] eqn:Hup;
    [|by rewrite upload_section_none].
  unfold upload_section, convert_and_select, select_page, index,
    call_convert_from_path, named_temporary_file, path_exists, unlink,
    try_finally, try_except, bind, emit, ret, raise, lift, assign.
  rewrite Hup. simpl.
  destruct (convert_from_path E _ _ _) as [[images|msg] fs']; simpl;
    repeat (case_match; simplify_eq/=); try done;
    by rewrite lookup_insert_ne, lookup_insert_eq.
Qed.

(** A failed conversion: the error is reported, the session state is the
    one before. *)
Lemma upload_section_failure E wd w data msg fs' :
  uploaded_file wd = Some data ->
  conversion E w data = (Raises msg, fs') ->
  upload_section E wd w =
  {| out := Done tt;
     final := {| session_state := session_state w;
                 files := delete (tmp_pdf_path E w) fs' |};
     log := [ St_file_uploader "Choose a PDF file";
              St_spinner "Converting PDF to images...";
              Ext_convert_from_path (tmp_pdf_path E w) 200;
              St_error ("Error processing PDF: " +:+ msg) ] |}.
Proof.
  unfold conversion, tmp_pdf_path. intros Hup Hconv. unfold_script.
  rewrite Hup. simpl. rewrite Hconv. simpl.
  destruct (fs' !! _) eqn:Hp; simpl; rewrite ?Hp; simpl;
    by rewrite ?delete_id by done.
Qed.

(** A successful conversion of a document with several pages. *)
Lemma upload_section_many E wd w data images fs' image :
  uploaded_file wd = Some data ->
  conversion E w data = (Returns images, fs') ->
  (1 < length images)%nat ->
  images !! page_choice wd = Some image ->
  let page_num := Z.of_nat (S (page_choice wd)) in
  upload_section E wd w =
  {| out := Done tt;
     final := {| session_state :=
                   <["page_num" := VInt page_num]>
                     (<["current_image" := VObj image]> (session_state w));
                 files := delete (tmp_pdf_path E w) fs' |};
     log := [ St_file_uploader "Choose a PDF file";
              St_spinner "Converting PDF to images...";
              Ext_convert_from_path (tmp_pdf_path E w) 200;
              St_success ("✅ PDF loaded successfully! Found "
                          +:+ pretty (len images) +:+ " page(s)");
              St_selectbox "Select page to OCR" (range 1 (len images + 1));
              St_image image ("Page " +:+ pretty page_num) ] |}.
Proof.
  unfold conversion, tmp_pdf_path. intros Hup Hconv Hn Himg. unfold_script.
  rewrite Hup. simpl. rewrite Hconv. simpl.
  rewrite select_page_many by (done || by eapply lookup_lt_Some).
  rewrite (index_lookup _ _ _ _ Himg). simpl.
  destruct (fs' !! _) eqn:Hp; simpl; rewrite ?Hp; simpl;
    by rewrite ?delete_id by done.
Qed.

(** A successful conversion of a document with one page. *)
Lemma upload_section_one E wd w data image fs' :
  uploaded_file wd = Some data ->
  conversion E w data = (Returns [image], fs') ->
  upload_section E wd w =
  {| out := Done tt;
     final := {| session_state :=
                   <["page_num" := VInt 1]>
                     (<["current_image" := VObj image]> (session_state w));
                 files := delete (tmp_pdf_path E w) fs' |};
     log := [ St_file_uploader "Choose a PDF file";
              St_spinner "Converting PDF to images...";
              Ext_convert_from_path (tmp_pdf_path E w) 200;
              St_success ("✅ PDF loaded successfully! Found "
                          +:+ pretty (len [image]) +:+ " page(s)");
              St_image image ("Page " +:+ pretty 1) ] |}.
Proof.
  unfold conversion, tmp_pdf_path. intros Hup Hconv. unfold_script.
  rewrite Hup. simpl. rewrite Hconv. simpl.
  destruct (fs' !! _) eqn:Hp; simpl; rewrite ?Hp; simpl;
    by rewrite ?delete_id by done.
Qed.

(** ** What the results section leaves alone *)

Ltac unfold_results :=
  unfold results_section, ocr_section, ready_section, load_model_section,
    extract_section, extract_text,
    display_section, load_vision_model,
    call_apply_chat_template, call_generate.

Lemma results_section_current_image E wd :
  keeps (same_attr "current_image") (results_section E wd).
Proof. unfold_results. frame. Qed.

Lemma results_section_page_num E wd :
  keeps (same_attr "page_num") (results_section E wd).
Proof. unfold_results. frame. Qed.

Lemma results_section_no_selectbox E wd :
  emits (fun e => is_selectbox e = false) (results_section E wd).
Proof. unfold_results. emits. Qed.

(** ** Sequencing *)

Lemma bind_run {A B} (m : @M Obj A) (k : A -> M B) w :
  bind m k w =
  match out (m w) with
  | Done a => prepend (log (m w)) (k a (final (m w)))
  | Exception msg =>
      {| out := Exception msg; final := final (m w); log := log (m w) |}
  | RerunRequested =>
      {| out := RerunRequested; final := final (m w); log := log (m w) |}
  end.
Proof.
  unfold bind, prepend. destruct (m w) as [[a|msg|] w1 l1]; simpl; [|done..].
  by destruct (k a w1).
Qed.

Lemma prepend_nil {A} (r : @run Obj A) : prepend [] r = r.
Proof. by destruct r. Qed.

Lemma truthy_message msg : msg <> "" -> truthy (Obj:=Obj) (VStr msg) = true.
Proof. intros H. simpl. by destruct (String.eqb_spec msg ""). Qed.

(** ** The "Load Model" button (lines 157-172) *)

Lemma load_fails_cases E fs name msg :
  load_fails E fs name msg ->
  (exists fs1, mlx_load E fs name = (Raises msg, fs1)) \/
  (exists mp fs1 fs2,
     mlx_load E fs name = (Returns mp, fs1) /\
     load_config E fs1 name = (Raises msg, fs2)).
Proof.
  unfold load_fails. destruct (mlx_load E fs name) as [r1 fs1]; cbn [fst snd].
  intros [->|[[mp ->] Hc]]; [left; by eexists|right].
  destruct (load_config E fs1 name) as [r2 fs2] eqn:Hcfg; cbn [fst snd] in *.
  subst. by eexists _, _, _.
Qed.

Lemma load_succeeds_cases E fs name m p c :
  load_succeeds E fs name m p c ->
  exists fs1 fs2,
    mlx_load E fs name = (Returns (m, p), fs1) /\
    load_config E fs1 name = (Returns c, fs2).
Proof.
  unfold load_succeeds.
  destruct (mlx_load E fs name) as [r1 fs1]; cbn [fst snd].
  intros [-> Hc].
  destruct (load_config E fs1 name) as [r2 fs2] eqn:Hcfg; cbn [fst snd] in *.
  subst. by eexists _, _.
Qed.

Ltac unfold_load :=
  unfold load_model_section, load_vision_model, call_mlx_load,
    call_load_config, lift, try_except, bind, emit, ret, raise, assign, attr,
    st_rerun.

(** The selected model is the loaded one: no button. *)
Lemma load_model_section_idle E wd w vl vn :
  session_state w !! "model_loaded" = Some vl ->
  session_state w !! "model_name" = Some vn ->
  truthy vl = true -> ne_str vn (model_name wd) = false ->
  load_model_section E wd w = ret tt w.
Proof.
  intros Hl Hn Ht Hne. destruct w as [s fs]; simpl in *.
  unfold_load. by run_script.
Qed.

(** The button is offered and not pressed. *)
Lemma load_model_section_offered E wd w vl vn :
  session_state w !! "model_loaded" = Some vl ->
  session_state w !! "model_name" = Some vn ->
  truthy vl = false \/ ne_str vn (model_name wd) = true ->
  load_clicked wd = false ->
  load_model_section E wd w =
  {| out := Done tt; final := w; log := [St_button "🔄 Load Model"] |}.
Proof.
  intros Hl Hn Hst Hc. destruct w as [s fs]; simpl in *.
  unfold_load. destruct Hst; run_script; [done|].
  destruct (truthy vl); by run_script.
Qed.

(** The button is pressed and the load fails with a message. *)
Lemma load_model_section_failed E wd w vl vn msg :
  session_state w !! "model_loaded" = Some vl ->
  session_state w !! "model_name" = Some vn ->
  truthy vl = false \/ ne_str vn (model_name wd) = true ->
  load_clicked wd = true ->
  load_fails E (files w) (model_name wd) msg -> msg <> "" ->
  let r := load_model_section E wd w in
  out r = Done tt /\ session_state (final r) = session_state w /\
  In (Ext_mlx_load (model_name wd)) (log r) /\
  In (St_error ("Failed to load model: " +:+ msg)) (log r).
Proof.
  intros Hl Hn Hst Hc Hfail Hmsg. destruct w as [s fs]; simpl in *.
  apply String.eqb_neq in Hmsg.
  unfold_load.
  destruct (load_fails_cases _ _ _ _ Hfail)
    as [[fs1 Hf]|(mp & fs1 & fs2 & Hf1 & Hf2)], Hst; run_script;
    try (destruct (truthy vl); run_script); auto 10.
Qed.

(** The button is pressed and the load succeeds: the handle and the name
    are recorded and the run is started again. *)
Lemma load_model_section_loaded E wd w vl vn m p c :
  session_state w !! "model_loaded" = Some vl ->
  session_state w !! "model_name" = Some vn ->
  truthy vl = false \/ ne_str vn (model_name wd) = true ->
  load_clicked wd = true ->
  load_succeeds E (files w) (model_name wd) m p c ->
  load_model_section E wd w =
  {| out := RerunRequested;
     final := {| session_state :=
                   record_model (model_name wd) (VObj m) (VObj p) (VObj c)
                     (session_state w);
                 files := load_files E (files w) (model_name wd) |};
     log := [ St_button "🔄 Load Model";
              St_spinner ("Loading model: " +:+ model_name wd +:+ "...");
              Ext_mlx_load (model_name wd);
              Ext_load_config (model_name wd);
              St_success "✅ Model loaded successfully!" ] |}.
Proof.
  intros Hl Hn Hst Hc Hok. destruct w as [s fs]; simpl in *.
  destruct (load_succeeds_cases _ _ _ _ _ _ Hok) as (fs1 & fs2 & Hm & Hcfg).
  unfold load_files. unfold_load.
  destruct Hst; run_script; try (destruct (truthy vl); run_script); done.
Qed.

(** Whatever happens, the section either records a model and asks for a
    new run, or leaves the session state as it is. *)
Lemma load_model_section_cases E wd w :
  let r := load_model_section E wd w in
  (out r = RerunRequested /\
   exists model processor config,
     session_state (final r) =
     record_model (model_name wd) model processor config (session_state w)) \/
  (out r <> RerunRequested /\ session_state (final r) = session_state w).
Proof.
  destruct w as [s fs]; simpl. unfold_load. run_cases;
    first [ by right | left; split; [done|]; by eexists _, _, _ ].
Qed.

(** The files change when the model loader is called, and only then. *)
Lemma load_model_section_files E wd w :
  let r := load_model_section E wd w in
  files (final r) =
  if loads (log r) then load_files E (files w) (model_name wd) else files w.
Proof.
  destruct w as [s fs]; simpl. unfold load_files, loads. unfold_load.
  run_cases; done.
Qed.

(** ** The "Extract Text" button (lines 178-211) *)

Ltac unfold_extract :=
  unfold extract_section, extract_text, call_apply_chat_template,
    call_generate, lift, try_except, bind, emit, ret, raise, assign, attr.

Lemma extract_section_idle E wd w :
  extract_clicked wd = false ->
  extract_section E wd w =
  {| out := Done tt; final := w; log := [St_button "🚀 Extract Text"] |}.
Proof.
  intros Hc. destruct w as [s fs]. unfold_extract. by run_script.
Qed.

(** Whatever happens, the section ends normally, and it either stores a
    text or leaves the world as it is. *)
Lemma extract_section_cases E wd w :
  let r := extract_section E wd w in
  out r = Done tt /\
  (final r = w \/
   exists text,
     final r = {| session_state :=
                    <["output_text" := VStr text]> (session_state w);
                  files := files w |}).
Proof.
  destruct w as [s fs]; simpl. unfold_extract. run_cases; eauto.
Qed.

(** The generation call is made on what the session holds, with the fixed
    decoding options; its text is stored as it is, its exception is
    reported and nothing is stored. *)
Lemma extract_section_generate E wd w vm vp fp vi opts :
  let r := extract_section E wd w in
  In (Ext_generate vm vp fp vi opts) (log r) ->
  session_state w !! "model" = Some vm /\
  session_state w !! "processor" = Some vp /\
  session_state w !! "current_image" = Some vi /\
  opts = decoding /\
  (forall text,
     generate E vm vp fp vi opts = Returns text ->
     final r = {| session_state :=
                    <["output_text" := VStr text]> (session_state w);
                  files := files w |}) /\
  (forall msg,
     generate E vm vp fp vi opts = Raises msg ->
     final r = w /\
     In (St_error ("Error during OCR: " +:+ msg)) (log r) /\
     In (St_exception msg) (log r)).
Proof.
  destruct w as [s fs]; simpl. unfold_extract. run_cases;
    intros Hin; repeat (destruct Hin as [Hin|Hin]; try done);
    simplify_eq; repeat split; intros; same_call; auto 10.
Qed.

(** A failing prompt formatter is reported in the same way. *)
Lemma extract_section_template E wd w vp vc prompt n msg :
  let r := extract_section E wd w in
  In (Ext_apply_chat_template vp vc prompt n) (log r) ->
  apply_chat_template E vp vc prompt n = Raises msg ->
  final r = w /\
  In (St_error ("Error during OCR: " +:+ msg)) (log r) /\
  In (St_exception msg) (log r).
Proof.
  destruct w as [s fs]; simpl. unfold_extract. run_cases;
    intros Hin; repeat (destruct Hin as [Hin|Hin]; try done);
    simplify_eq; intros; same_call; auto 10.
Qed.

(** ** The result display (lines 214-236) *)

Ltac unfold_display :=
  unfold display_section, bind, emit, ret, raise, attr, contains.

Lemma display_section_final E wd w : final (display_section E wd w) = w.
Proof. destruct w as [s fs]. unfold_display. by run_cases. Qed.

(** Nothing is rendered without a stored, non-empty result. *)
Lemma display_section_hidden E wd w :
  match session_state w !! "output_text" with
  | Some text => truthy text = false
  | None => True
  end ->
  display_section E wd w = ret tt w.
Proof.
  destruct w as [s fs]; simpl. unfold_display.
  destruct (s !! "output_text") eqn:Ht; intros Hf; by run_script.
Qed.

(** A stored, non-empty result is rendered. *)
Lemma display_section_shown E wd w text page_num :
  session_state w !! "output_text" = Some text ->
  truthy text = true ->
  session_state w !! "page_num" = Some page_num ->
  display_section E wd w =
  {| out := Done tt; final := w; log := result_display E wd text page_num |}.
Proof.
  intros Ht Htr Hp. destruct w as [s fs]; simpl in *.
  unfold result_display. unfold_display.
  run_script. destruct (render_markdown wd); by run_script.
Qed.

(** ** The results section, piece by piece *)

Lemma ready_section_run E wd w vn :
  session_state w !! "model_name" = Some vn ->
  let x := extract_section E wd w in
  ready_section E wd w =
  prepend (St_success ("✅ Model ready: " +:+ py_str E vn) :: log x)
    (display_section E wd (final x)).
Proof.
  intros Hn. simpl. unfold ready_section.
  rewrite bind_run. unfold attr. rewrite Hn. simpl.
  rewrite bind_run. simpl. rewrite bind_run.
  destruct (extract_section_cases E wd w) as [-> _].
  by unfold prepend.
Qed.

Lemma ocr_section_ready E wd w vl :
  session_state w !! "model_loaded" = Some vl -> truthy vl = true ->
  ocr_section E wd w = ready_section E wd w.
Proof.
  intros Hl Ht. unfold ocr_section. rewrite bind_run.
  unfold attr. rewrite Hl. simpl. rewrite Ht.
  apply prepend_nil.
Qed.

Lemma ocr_section_not_ready E wd w vl :
  session_state w !! "model_loaded" = Some vl -> truthy vl = false ->
  ocr_section E wd w =
  {| out := Done tt; final := w;
     log := [St_info "👆 Click 'Load Model' to start"] |}.
Proof.
  intros Hl Ht. unfold ocr_section. rewrite bind_run.
  unfold attr. rewrite Hl. simpl. rewrite Ht.
  by rewrite prepend_nil.
Qed.

Lemma ocr_section_missing E wd w :
  session_state w !! "model_loaded" = None ->
  ocr_section E wd w =
  {| out := Exception (missing_attribute E "model_loaded"); final := w;
     log := [] |}.
Proof.
  intros Hl. unfold ocr_section. rewrite bind_run.
  unfold attr. by rewrite Hl.
Qed.

Lemma results_section_no_document E wd w :
  session_state w !! "current_image" = None ->
  results_section E wd w =
  {| out := Done tt; final := w;
     log := [ St_header "📝 OCR Results";
              St_info "👈 Upload a PDF file to begin" ] |}.
Proof.
  intros Hi. unfold results_section, bind, emit, contains. by rewrite Hi.
Qed.

Lemma results_section_document E wd w vi :
  session_state w !! "current_image" = Some vi ->
  results_section E wd w =
  prepend [St_header "📝 OCR Results"]
    (bind (load_model_section E wd) (fun _ => ocr_section E wd) w).
Proof.
  intros Hi. unfold results_section. rewrite bind_run. simpl.
  rewrite bind_run. simpl. rewrite Hi. unfold prepend. simpl.
  by destruct (bind _ _ w).
Qed.

(** A run of the section that calls [mlx_load] calls it on the selected
    model; a failure with a message is reported and changes nothing, a
    success is recorded. *)
Lemma load_model_section_called E wd w name :
  let r := load_model_section E wd w in
  In (Ext_mlx_load name) (log r) ->
  name = model_name wd /\
  (forall msg,
     load_fails E (files w) name msg -> msg <> "" ->
     out r = Done tt /\ session_state (final r) = session_state w /\
     In (St_error ("Failed to load model: " +:+ msg)) (log r)) /\
  (forall m p c,
     load_succeeds E (files w) name m p c ->
     out r = RerunRequested /\
     session_state (final r) =
     record_model name (VObj m) (VObj p) (VObj c) (session_state w)).
Proof.
  destruct w as [s fs]; simpl. unfold_load. run_cases;
    intros Hin; try done; repeat (destruct Hin as [Hin|Hin]; try done);
    simplify_eq; (split; [done|]); split.
  all: try (intros msg' Hfail Hmsg;
            destruct (load_fails_cases _ _ _ _ Hfail)
              as [[fs1 Hf]|(mp & fs1 & fs2 & Hf1 & Hf2)];
            apply String.eqb_neq in Hmsg; same_call; auto 10; fail).
  all: intros m p c Hok;
    destruct (load_succeeds_cases _ _ _ _ _ _ Hok) as (fs1 & fs2 & Hm & Hc);
    same_call; auto.
Qed.

Lemma load_model_section_emits E wd :
  emits (fun e => load_event e = true) (load_model_section E wd).
Proof.
  unfold load_model_section, load_vision_model.
  emits.
Qed.

(** ** The script as a whole *)

Lemma upload_section_attr E wd w key :
  key <> "current_image" -> key <> "page_num" ->
  session_state (final (upload_section E wd w)) !! key =
  session_state w !! key.
Proof. intros H1 H2. symmetry. by apply upload_section_keeps. Qed.

Lemma ready_initialised s : ready s = false -> ready (initialised s) = false.
Proof.
  unfold ready, initialised. destruct (s !! "model") eqn:Hm; [done|].
  intros _. by rewrite lookup_insert_ne, lookup_insert_eq.
Qed.

Lemma interact_run E wd w :
  let r := script E wd w in
  interact E wd w =
  match out r with
  | RerunRequested => prepend (log r) (script E (after_rerun wd) (final r))
  | _ => r
  end.
Proof.
  simpl. unfold interact, prepend.
  destruct (script E wd w) as [[[]|msg|] w1 l1]; simpl; try done.
  by destruct (script E (after_rerun wd) w1).
Qed.

Lemma script_run E wd w :
  let u := upload_section E wd (initialised_world w) in
  script E wd w = prepend (log u) (results_section E wd (final u)).
Proof.
  simpl. unfold script. unfold bind at 1. rewrite init_session_state_run.
  unfold bind. pose proof (upload_section_out E wd (initialised_world w)) as Hu.
  destruct (upload_section E wd (initialised_world w)) as [o w1 l1].
  simpl in *. subst o. unfold prepend.
  by destruct (results_section E wd w1) as [o2 w2 l2].
Qed.

Lemma script_log E wd w e :
  In e (log (script E wd w)) ->
  upload_event e = true \/
  In e (log (results_section E wd
               (final (upload_section E wd (initialised_world w))))).
Proof.
  rewrite script_run. simpl. rewrite in_app_iff. intros [Hin|Hin]; [|by right].
  left. pose proof (upload_section_emits E wd (initialised_world w)) as Hu.
  rewrite Forall_forall in Hu. by apply Hu.
Qed.

(** ** What the part after the "Load Model" button does not do *)

Lemma ocr_section_model E wd : keeps same_model (ocr_section E wd).
Proof.
  unfold ocr_section, ready_section, extract_section, extract_text,
    call_apply_chat_template, call_generate, display_section.
  frame.
Qed.

Lemma ocr_section_no_load E wd :
  emits (fun e => is_load e = false /\ e <> St_button "🔄 Load Model")
    (ocr_section E wd).
Proof.
  unfold ocr_section, ready_section, extract_section, extract_text,
    call_apply_chat_template, call_generate, display_section.
  emits.
Qed.

Lemma display_section_out E wd w :
  out (display_section E wd w) <> RerunRequested.
Proof. destruct w as [s fs]. unfold_display. by run_cases. Qed.

Lemma ocr_section_out E wd w : out (ocr_section E wd w) <> RerunRequested.
Proof.
  destruct (session_state w !! "model_loaded") as [vl|] eqn:Hl;
    [|by rewrite ocr_section_missing].
  destruct (truthy vl) eqn:Ht; [|by erewrite ocr_section_not_ready].
  erewrite ocr_section_ready by done.
  destruct (session_state w !! "model_name") as [vn|] eqn:Hn.
  - erewrite ready_section_run by done. apply display_section_out.
  - unfold ready_section, bind, attr. by rewrite Hn.
Qed.

(** A run of the results section that calls [mlx_load] does so from the
    "Load Model" button, on a session that holds a page image. *)
Lemma results_section_load_called E wd w name :
  In (Ext_mlx_load name) (log (results_section E wd w)) ->
  exists vi,
    session_state w !! "current_image" = Some vi /\
    In (Ext_mlx_load name) (log (load_model_section E wd w)).
Proof.
  destruct (session_state w !! "current_image") as [vi|] eqn:Hi.
  2: { rewrite results_section_no_document by done. simpl.
       by intros [|[|]]. }
  rewrite (results_section_document _ _ _ _ Hi), bind_run.
  intros Hin. exists vi. split; [done|].
  destruct (out (load_model_section E wd w)) as [[]|msg|]; simpl in Hin;
    destruct Hin as [|Hin]; try done.
  apply in_app_iff in Hin as [|Hin]; [done|].
  pose proof (ocr_section_no_load E wd (final (load_model_section E wd w)))
    as Hno.
  rewrite Forall_forall in Hno. by apply Hno in Hin as [? _].
Qed.

(** When the load of such a run fails with a message, the message is
    reported and the model the session holds is the one before. *)
Lemma results_section_load_failed E wd w msg :
  In (Ext_mlx_load (model_name wd)) (log (results_section E wd w)) ->
  load_fails E (files w) (model_name wd) msg -> msg <> "" ->
  let r := results_section E wd w in
  In (St_error ("Failed to load model: " +:+ msg)) (log r) /\
  out r <> RerunRequested /\
  same_model w (final r).
Proof.
  intros Hin Hfail Hmsg. simpl.
  destruct (results_section_load_called _ _ _ _ Hin) as (vi & Hi & Hload).
  destruct (load_model_section_called _ _ _ _ Hload) as (_ & Hf & _).
  destruct (Hf msg Hfail Hmsg) as (Hout & Hfin & Herr).
  rewrite (results_section_document _ _ _ _ Hi), bind_run, Hout.
  simpl. split; [|split].
  - right. apply in_app_iff. by left.
  - apply ocr_section_out.
  - eapply same_model_trans; [|apply ocr_section_model].
    intros key _. by rewrite Hfin.
Qed.

(** ** Without a loaded model *)

Lemma load_event_not_extraction (e : @event Obj) :
  load_event e = true ->
  is_inference e = false /\ e <> St_button "🚀 Extract Text".
Proof.
  destruct e; simpl; try done. intros He. split; [done|].
  intros Heq. by simplify_eq.
Qed.

Lemma results_section_not_ready E wd w :
  ready (session_state w) = false ->
  let r := results_section E wd w in
  Forall (fun e => is_inference e = false /\ e <> St_button "🚀 Extract Text")
    (log r) /\
  session_state (final r) !! "output_text" = session_state w !! "output_text".
Proof.
  intros Hr. simpl.
  destruct (session_state w !! "current_image") as [vi|] eqn:Hi.
  2: { rewrite results_section_no_document by done. simpl.
       split; [|done]. by repeat constructor. }
  rewrite (results_section_document _ _ _ _ Hi), bind_run.
  pose proof (load_model_section_emits E wd w) as Hev.
  assert (Hload : Forall
    (fun e => is_inference e = false /\ e <> St_button "🚀 Extract Text")
    (log (load_model_section E wd w))).
  { eapply Forall_impl; [|exact Hev]. intros e He.
    by apply load_event_not_extraction. }
  destruct (load_model_section_cases E wd w)
    as [[Hout (vm & vp & vc & Hfin)]|[Hout Hfin]].
  - rewrite Hout. simpl. rewrite Hfin. split; [by constructor|].
    unfold record_model. by rewrite !lookup_insert_ne.
  - destruct (out (load_model_section E wd w)) as [[]|msg|];
      [|simpl; rewrite Hfin; split; [by constructor|done]|done].
    unfold ready in Hr. rewrite <- Hfin in Hr |- *.
    destruct (session_state (final (load_model_section E wd w))
                !! "model_loaded") as [vl|] eqn:Hl.
    + rewrite (ocr_section_not_ready _ _ _ _ Hl Hr). simpl.
      split; [|done]. constructor; [done|].
      apply Forall_app. split; [done|]. by repeat constructor.
    + rewrite (ocr_section_missing _ _ _ Hl). simpl.
      split; [|done]. constructor; [done|]. by rewrite app_nil_r.
Qed.

(** ** Without a press on "Extract Text" *)

Lemma script_without_extract E wd w :
  extract_clicked wd = false ->
  let r := script E wd w in
  Forall (fun e => is_inference e = false) (log r) /\
  session_state (final r) !! "output_text" = session_state w !! "output_text".
Proof.
  intros Hc. simpl. rewrite script_run. simpl.
  set (w1 := final (upload_section E wd (initialised_world w))).
  assert (Hw1 : session_state w1 !! "output_text" =
                session_state w !! "output_text").
  { unfold w1. rewrite upload_section_attr by done. simpl.
    by apply initialised_attr. }
  rewrite <- Hw1. split.
  - apply Forall_app. split.
    + eapply Forall_impl; [|apply upload_section_emits]. by intros [] He.
    + clear Hw1. clearbody w1. revert w1.
      change (emits (fun e => is_inference e = false)
                (results_section E wd)).
      unfold results_section, ocr_section, ready_section,
        load_model_section, extract_section, load_vision_model,
        display_section.
      rewrite Hc. emits.
  - symmetry. clear Hw1. clearbody w1. revert w1.
    change (keeps (same_attr "output_text") (results_section E wd)).
    unfold results_section, ocr_section, ready_section,
      load_model_section, extract_section, load_vision_model,
      display_section.
    rewrite Hc. frame.
Qed.

(** ** Without a press on "Load Model" *)

Lemma script_without_load E wd w :
  load_clicked wd = false ->
  Forall (fun e => is_load e = false) (log (script E wd w)).
Proof.
  intros Hc. rewrite script_run. simpl. apply Forall_app. split.
  - eapply Forall_impl; [|apply upload_section_emits]. by intros [] He.
  - generalize (final (upload_section E wd (initialised_world w))).
    change (emits (fun e => is_load e = false) (results_section E wd)).
    unfold results_section, ocr_section, ready_section,
      load_model_section, extract_section, extract_text,
      call_apply_chat_template, call_generate, display_section.
    rewrite Hc. emits.
Qed.

(** ** With the selected model loaded *)

Lemma initialised_world_present w :
  is_Some (session_state w !! "model") -> initialised_world w = w.
Proof.
  intros H. unfold initialised_world. rewrite initialised_present by done.
  by destruct w.
Qed.

Lemma ne_str_same n : ne_str (Obj:=Obj) (VStr n) n = false.
Proof. simpl. by rewrite String.eqb_refl. Qed.

Lemma upload_section_model E wd w :
  same_model w (final (upload_section E wd w)).
Proof.
  intros key Hkey. symmetry. apply upload_section_attr;
    intros ->; simpl in Hkey; intuition discriminate.
Qed.

(** A run on a session that holds the selected model loads nothing, offers
    no "Load Model" button and shows the model as ready. *)
Lemma script_loaded_model E wd w vl n :
  is_Some (session_state w !! "model") ->
  is_Some (session_state w !! "current_image") ->
  session_state w !! "model_loaded" = Some vl -> truthy vl = true ->
  session_state w !! "model_name" = Some (VStr n) ->
  model_name wd = n ->
  let r := script E wd w in
  out r <> RerunRequested /\
  same_model w (final r) /\
  is_Some (session_state (final r) !! "current_image") /\
  Forall (fun e => is_load e = false /\ e <> St_button "🔄 Load Model")
    (log r) /\
  In (St_success ("✅ Model ready: " +:+ n)) (log r).
Proof.
  intros Hm Hi Hl Ht Hn Hsel. simpl. rewrite script_run. simpl.
  rewrite (initialised_world_present _ Hm).
  pose proof (upload_section_model E wd w) as Hsame.
  pose proof (upload_section_current_image E wd w Hi) as [vi Hi1].
  pose proof (upload_section_emits E wd w) as Hup.
  set (w1 := final (upload_section E wd w)) in *.
  assert (Hl1 : session_state w1 !! "model_loaded" = Some vl).
  { rewrite <- Hl. symmetry. apply Hsame. simpl. auto. }
  assert (Hn1 : session_state w1 !! "model_name" = Some (VStr n)).
  { rewrite <- Hn. symmetry. apply Hsame. simpl. auto 10. }
  pose proof (results_section_current_image E wd w1) as Hci.
  unfold same_attr in Hci.
  rewrite (results_section_document _ _ _ _ Hi1), bind_run in Hci |- *.
  assert (Hidle : load_model_section E wd w1 = ret tt w1).
  { apply (load_model_section_idle E wd w1 vl (VStr n) Hl1 Hn1 Ht).
    subst n. apply ne_str_same. }
  rewrite Hidle in Hci |- *. simpl in Hci |- *.
  split; [apply ocr_section_out|]. split; [|split; [|split]].
  - eapply same_model_trans; [exact Hsame|apply ocr_section_model].
  - rewrite <- Hci. by exists vi.
  - apply Forall_app. split.
    + eapply Forall_impl; [|exact Hup]. by intros [] He.
    + constructor; [done|]. apply ocr_section_no_load.
  - apply in_app_iff. right. right.
    rewrite (ocr_section_ready _ _ _ _ Hl1 Ht).
    rewrite (ready_section_run _ _ _ _ Hn1). simpl. by left.
Qed.

(** ** After a successful load *)

(** A run that loads the selected model records it and asks for a new
    run. *)
Lemma script_load_succeeded E wd w m p c :
  In (Ext_mlx_load (model_name wd)) (log (script E wd w)) ->
  load_succeeds E (files_at_load E wd w) (model_name wd) m p c ->
  let r := script E wd w in
  out r = RerunRequested /\
  is_Some (session_state (final r) !! "current_image") /\
  session_state (final r) !! "model" = Some (VObj m) /\
  session_state (final r) !! "model_loaded" = Some (VBool true) /\
  session_state (final r) !! "model_name" = Some (VStr (model_name wd)).
Proof.
  intros Hin Hok. simpl. rewrite <- files_at_load_initialised in Hok.
  apply script_log in Hin as [Hin|Hin]; [done|].
  destruct (results_section_load_called _ _ _ _ Hin) as (vi & Hi & Hload).
  destruct (load_model_section_called _ _ _ _ Hload) as (_ & _ & Hs).
  destruct (Hs m p c Hok) as [Hout Hfin].
  rewrite script_run. simpl.
  rewrite (results_section_document _ _ _ _ Hi), bind_run, Hout. simpl.
  rewrite Hfin. unfold record_model. repeat split.
  - rewrite !lookup_insert_ne by done. by exists vi.
  - rewrite !lookup_insert_ne by done. by rewrite lookup_insert_eq.
  - rewrite lookup_insert_ne by done. by rewrite lookup_insert_eq.
  - by rewrite lookup_insert_eq.
Qed.

(** The calls of an interaction that load a model are made by its first
    run. *)
Lemma interact_load_first E wd w name :
  In (Ext_mlx_load name) (log (interact E wd w)) ->
  In (Ext_mlx_load name) (log (script E wd w)).
Proof.
  rewrite interact_run. simpl.
  destruct (out (script E wd w)); try done. simpl.
  intros [Hin|Hin]%in_app_iff; [done|].
  pose proof (script_without_load E (after_rerun wd) (final (script E wd w))
                eq_refl) as Hno.
  rewrite Forall_forall in Hno. by apply Hno in Hin.
Qed.

(** After an interaction that loads the selected model, the session holds
    it under its name, next to the page image. *)
Lemma interact_load_succeeded E wd w m p c :
  In (Ext_mlx_load (model_name wd)) (log (interact E wd w)) ->
  load_succeeds E (files_at_load E wd w) (model_name wd) m p c ->
  let w' := final (interact E wd w) in
  session_state w' !! "model" = Some (VObj m) /\
  is_Some (session_state w' !! "current_image") /\
  session_state w' !! "model_loaded" = Some (VBool true) /\
  session_state w' !! "model_name" = Some (VStr (model_name wd)).
Proof.
  intros Hin%interact_load_first Hok. simpl.
  destruct (script_load_succeeded _ _ _ _ _ _ Hin Hok)
    as (Hout & Hi & Hm & Hl & Hn).
  rewrite interact_run. simpl. rewrite Hout. simpl.
  destruct (script_loaded_model E (after_rerun wd) (final (script E wd w))
              (VBool true) (model_name wd)) as (_ & Hsame & Hi' & _);
    try done.
  repeat split; try done.
  - rewrite <- Hm. symmetry. apply Hsame. simpl. auto.
  - rewrite <- Hl. symmetry. apply Hsame. simpl. auto.
  - rewrite <- Hn. symmetry. apply Hsame. simpl. auto 10.
Qed.

End Sections.

Section Cases.
Context {Obj : Type}.
Implicit Types (E : @externals Obj) (wd : widgets) (w : @world Obj).
Implicit Types (s : gmap string (@value Obj)) (fs : gmap string (list byte)).

(** ** The results section, case by case *)

Lemma ocr_section_blind E wd : files_blind (ocr_section E wd).
Proof.
  unfold ocr_section, ready_section, extract_section, extract_text,
    display_section.
  blind.
Qed.

(** The part after the "Load Model" button runs on the session state the
    button left, which is the one before when the run goes on, and on the
    files the model loader left. *)
Lemma results_section_cases E wd w :
  let r := results_section E wd w in
  let l := load_model_section E wd w in
  (session_state w !! "current_image" = None /\
   r = {| out := Done tt; final := w;
          log := [ St_header "📝 OCR Results";
                   St_info "👈 Upload a PDF file to begin" ] |}) \/
  (is_Some (session_state w !! "current_image") /\
   out l <> Done tt /\ r = prepend [St_header "📝 OCR Results"] l) \/
  (is_Some (session_state w !! "current_image") /\
   out l = Done tt /\ session_state (final l) = session_state w /\
   r = prepend (St_header "📝 OCR Results" :: log l)
         (with_files (files (final l)) (ocr_section E wd w))).
Proof.
  simpl.
  destruct (session_state w !! "current_image") as [vi|] eqn:Hi.
  2: { left. split; [done|]. by apply results_section_no_document. }
  right. rewrite (results_section_document _ _ _ _ Hi), bind_run.
  destruct (load_model_section_cases E wd w)
    as [[Hout _]|[Hout Hfin]].
  - left. split; [by eexists|]. rewrite Hout. split; [done|].
    destruct (load_model_section E wd w); simpl in *. by subst.
  - destruct (load_model_section E wd w) as [[[]|msg|] [s' fs'] l'] eqn:Hrun;
      simpl in *; subst; [right|left|done]; repeat split; try done.
    destruct w as [s fs]. simpl.
    by rewrite (ocr_section_blind E wd s fs fs').
Qed.

(** The files at the end of the results section: those the model loader
    left when it was called, those before otherwise. *)
Lemma results_section_files E wd w :
  let r := results_section E wd w in
  files (final r) =
  if loads (log r) then load_files E (files w) (model_name wd) else files w.
Proof.
  simpl. pose proof (load_model_section_files E wd w) as Hl. simpl in Hl.
  pose proof (ocr_section_no_load E wd w) as Hocr.
  assert (Hno : loads (log (ocr_section E wd w)) = false).
  { unfold loads. apply not_true_is_false. intros Hex.
    apply existsb_exists in Hex as (e & Hin & He).
    rewrite Forall_forall in Hocr. apply Hocr in Hin as [Hin _]. congruence. }
  destruct (results_section_cases E wd w)
    as [(Hi & ->)|[(Hi & Hout & ->)|(Hi & Hout & Hfin & ->)]]; simpl.
  - done.
  - exact Hl.
  - rewrite Hl. unfold loads in *. by rewrite existsb_app, Hno, orb_false_r.
Qed.

Lemma upload_section_no_load E wd w :
  loads (log (upload_section E wd w)) = false.
Proof.
  unfold loads. apply not_true_is_false. intros Hex.
  apply existsb_exists in Hex as (e & Hin & He).
  pose proof (upload_section_emits E wd w) as Hup.
  rewrite Forall_forall in Hup. apply Hup in Hin. by destruct e.
Qed.

(** The files at the end of a run. *)
Lemma script_files E wd w :
  let r := script E wd w in
  files (final r) =
  if loads (log r) then load_files E (files_at_load E wd w) (model_name wd)
  else files_at_load E wd w.
Proof.
  simpl. rewrite script_run. simpl. rewrite results_section_files.
  rewrite files_at_load_initialised. unfold loads.
  rewrite existsb_app. fold (loads (log (upload_section E wd (initialised_world w)))).
  by rewrite upload_section_no_load.
Qed.

End Cases.

Section Invariant.
Context {Obj : Type}.
Implicit Types (E : @externals Obj) (wd : widgets) (w : @world Obj).
Implicit Types (s : gmap string (@value Obj)) (fs : gmap string (list byte)).

(** ** The invariant of the session state *)

Lemma ready_insert_ne s key v :
  key <> "model_loaded" -> ready (<[key := v]> s) = ready s.
Proof. intros Hk. unfold ready. by rewrite lookup_insert_ne. Qed.

Lemma wf_empty : wf (Obj:=Obj) ∅.
Proof.
  unfold wf, ready. rewrite !lookup_empty.
  split; [done|]. split; [by intros [? ?]|done].
Qed.

Lemma wf_initialised s : wf s -> wf (initialised s).
Proof.
  intros Hw. unfold initialised.
  destruct (s !! "model") as [vm|] eqn:Hm; [done|].
  destruct Hw as (Hr & Hi & Ht).
  assert (Hnr : ready s = false).
  { destruct (ready s) eqn:Hrs; [|done].
    destruct (Hr eq_refl) as ([? ?] & _). congruence. }
  unfold wf, ready. rewrite lookup_insert_ne, lookup_insert_eq by done. simpl.
  split; [done|]. rewrite !lookup_insert_ne by done. split; [done|].
  intros v Hv. apply Ht in Hv as [? _]. congruence.
Qed.

Lemma wf_page s image n :
  wf s -> wf (<["page_num" := VInt n]> (<["current_image" := VObj image]> s)).
Proof.
  intros (Hr & Hi & Ht). unfold wf.
  rewrite !ready_insert_ne by done. rewrite lookup_insert_eq.
  rewrite !(lookup_insert_ne _ "page_num") by done.
  rewrite lookup_insert_eq. rewrite !(lookup_insert_ne _ "current_image") by done.
  split; [|split; [by eexists|done]].
  intros H. destruct (Hr H) as (? & ? & ? & ? & ?). by repeat split.
Qed.

Lemma wf_record_model name (m p c : @value Obj) s :
  wf s -> is_Some (s !! "current_image") -> wf (record_model name m p c s).
Proof.
  intros (Hr & Hi & Ht) Himg. unfold wf, record_model, ready.
  rewrite lookup_insert_eq.
  rewrite !(lookup_insert_ne _ "model_name") by done.
  rewrite lookup_insert_eq. simpl.
  rewrite !(lookup_insert_ne _ "model_loaded") by done.
  rewrite lookup_insert_eq.
  rewrite !(lookup_insert_ne _ "config") by done.
  rewrite lookup_insert_eq.
  rewrite !(lookup_insert_ne _ "processor") by done.
  rewrite lookup_insert_eq.
  rewrite !(lookup_insert_ne _ "model") by done.
  split; [|split; [done|]].
  - intros _. repeat split; try done. by eexists.
  - intros v Hv. apply Ht in Hv as [_ ?]. done.
Qed.

Lemma wf_output_text s text :
  wf s -> ready s = true -> wf (<["output_text" := VStr text]> s).
Proof.
  intros (Hr & Hi & Ht) Hrs. unfold wf.
  rewrite ready_insert_ne by done.
  rewrite !(lookup_insert_ne _ "output_text") by done.
  split; [done|]. split; [done|].
  intros v. rewrite lookup_insert_eq. intros [= <-]. split; [done|by eexists].
Qed.

(** The upload section changes the session state by storing a page image
    and its number, or not at all. *)
Lemma upload_section_cases E wd w :
  let s' := session_state (final (upload_section E wd w)) in
  s' = session_state w \/
  exists image n,
    s' = <["page_num" := VInt n]>
           (<["current_image" := VObj image]> (session_state w)).
Proof.
  destruct (uploaded_file wd) as [data|] eqn:Hup;
    [|rewrite upload_section_none by done; by left].
  unfold upload_section, convert_and_select, select_page, index,
    call_convert_from_path, named_temporary_file, path_exists, unlink,
    try_finally, try_except, bind, emit, ret, raise, lift, assign.
  rewrite Hup. simpl.
  destruct (convert_from_path E _ _ _) as [[images|msg] fs']; simpl;
    repeat (case_match; simplify_eq/=); eauto.
Qed.

Lemma wf_upload_section E wd w :
  wf (session_state w) -> wf (session_state (final (upload_section E wd w))).
Proof.
  intros Hw. destruct (upload_section_cases E wd w) as [->|(i & n & ->)];
    [done|by apply wf_page].
Qed.

Lemma wf_results_section E wd w :
  wf (session_state w) -> wf (session_state (final (results_section E wd w))).
Proof.
  intros Hw.
  destruct (results_section_cases E wd w)
    as [(Hi & ->)|[(Hi & Hout & ->)|(Hi & Hout & Hfin & ->)]]; simpl.
  - done.
  - destruct (load_model_section_cases E wd w)
      as [[_ (vm & vp & vc & ->)]|[_ ->]]; [|done].
    by apply wf_record_model.
  - destruct (session_state w !! "model_loaded") as [vl|] eqn:Hl;
      [|by rewrite ocr_section_missing].
    destruct (truthy vl) eqn:Hvl; [|by erewrite ocr_section_not_ready].
    erewrite ocr_section_ready by done.
    destruct (session_state w !! "model_name") as [vn|] eqn:Hn.
    + erewrite ready_section_run by done. simpl.
      rewrite display_section_final.
      destruct (extract_section_cases E wd w) as [_ [->|[text ->]]]; [done|].
      simpl. apply wf_output_text; [done|]. unfold ready. by rewrite Hl.
    + unfold ready_section, bind, attr. by rewrite Hn.
Qed.

Lemma wf_script E wd w :
  wf (session_state w) -> wf (session_state (final (script E wd w))).
Proof.
  intros Hw. rewrite script_run. simpl.
  apply wf_results_section, wf_upload_section. simpl. by apply wf_initialised.
Qed.

Lemma wf_interact E wd w :
  wf (session_state w) -> wf (session_state (final (interact E wd w))).
Proof.
  intros Hw. rewrite interact_run. simpl.
  pose proof (wf_script E wd w Hw) as H1.
  destruct (out (script E wd w)); try done. simpl. by apply wf_script.
Qed.

Lemma reachable_wf w : reachable w -> wf (session_state w).
Proof.
  induction 1 as [fs|E wd w _ IH]; [apply wf_empty|by apply wf_interact].
Qed.

End Invariant.

Section Display.
Context {Obj : Type}.
Implicit Types (E : @externals Obj) (wd : widgets) (w : @world Obj).
Implicit Types (s : gmap string (@value Obj)) (fs : gmap string (list byte)).

(** ** What a run displays of the result *)

Lemma displayed_app (l1 l2 : list (@event Obj)) :
  displayed (l1 ++ l2) = (displayed l1 ++ displayed l2)%list.
Proof. apply List.filter_app. Qed.

Lemma displayed_none (l : list (@event Obj)) :
  Forall (fun e => is_result_display e = false) l -> displayed l = [].
Proof.
  induction 1 as [|e l He _ IH]; [done|]. unfold displayed in *. simpl.
  by rewrite He.
Qed.

Lemma displayed_result_display E wd (text page_num : @value Obj) :
  displayed (result_display E wd text page_num) =
  result_display E wd text page_num.
Proof. unfold result_display. by destruct (render_markdown wd). Qed.

Lemma displayed_shown E wd s : displayed (shown E wd s) = shown E wd s.
Proof.
  unfold shown. repeat case_match; try done. apply displayed_result_display.
Qed.

Lemma shown_after_rerun E wd s : shown E (after_rerun wd) s = shown E wd s.
Proof. done. Qed.

Lemma display_section_log E wd w :
  log (display_section E wd w) = shown E wd (session_state w).
Proof.
  destruct w as [s fs]. unfold shown, result_display. simpl.
  unfold display_section, bind, emit, ret, raise, attr, contains.
  run_cases; done.
Qed.

Lemma displayed_upload_section E wd w :
  displayed (log (upload_section E wd w)) = [].
Proof.
  apply displayed_none. eapply Forall_impl; [|apply upload_section_emits].
  by intros [] He.
Qed.

Lemma displayed_load_model_section E wd w :
  displayed (log (load_model_section E wd w)) = [].
Proof.
  apply displayed_none. eapply Forall_impl; [|apply load_model_section_emits].
  by intros [] He.
Qed.

Lemma extract_section_emits E wd :
  emits (fun e => is_result_display e = false /\ is_load e = false)
    (extract_section E wd).
Proof.
  unfold extract_section, extract_text, call_apply_chat_template,
    call_generate.
  emits.
Qed.

Lemma displayed_extract_section E wd w :
  displayed (log (extract_section E wd w)) = [].
Proof.
  apply displayed_none. eapply Forall_impl; [|apply extract_section_emits].
  by intros e [? _].
Qed.

(** ** The part of a loaded model, case by case *)

Lemma ocr_section_cases E wd w :
  let r := ocr_section E wd w in
  let x := extract_section E wd w in
  (ready (session_state w) = false /\ final r = w /\
   out r <> RerunRequested /\
   Forall (fun e => is_inference e = false /\ is_result_display e = false /\
                    e <> St_button "🚀 Extract Text")
     (log r)) \/
  (ready (session_state w) = true /\
   session_state w !! "model_name" = None /\
   r = {| out := Exception (missing_attribute E "model_name"); final := w;
          log := [] |}) \/
  (ready (session_state w) = true /\
   exists vn,
     session_state w !! "model_name" = Some vn /\
     r = prepend (St_success ("✅ Model ready: " +:+ py_str E vn) :: log x)
           (display_section E wd (final x))).
Proof.
  simpl. unfold ready.
  destruct (session_state w !! "model_loaded") as [vl|] eqn:Hl.
  2: { left. rewrite ocr_section_missing by done. simpl. by repeat split. }
  destruct (truthy vl) eqn:Ht.
  2: { left. rewrite (ocr_section_not_ready _ _ _ _ Hl Ht). simpl.
       repeat split; try done. by repeat constructor. }
  right. rewrite (ocr_section_ready _ _ _ _ Hl Ht).
  destruct (session_state w !! "model_name") as [vn|] eqn:Hn.
  - right. split; [done|]. exists vn. split; [done|].
    by apply ready_section_run.
  - left. repeat split; try done. unfold ready_section, bind, attr.
    by rewrite Hn.
Qed.

(** ** With the invariant *)

Lemma wf_not_ready s :
  wf s -> ready s = false -> s !! "output_text" = None.
Proof.
  intros (_ & _ & Ht) Hr. destruct (s !! "output_text") as [v|] eqn:Hv; [|done].
  destruct (Ht v eq_refl) as [? _]. congruence.
Qed.

Lemma wf_no_document s :
  wf s -> s !! "current_image" = None -> s !! "output_text" = None.
Proof.
  intros Hw Hi. apply wf_not_ready; [done|].
  destruct (ready s) eqn:Hr; [|done].
  destruct Hw as (Hrd & _). destruct (Hrd Hr) as (_ & _ & _ & [? ?] & _).
  congruence.
Qed.

Lemma shown_no_result E wd s : s !! "output_text" = None -> shown E wd s = [].
Proof. intros H. unfold shown. by rewrite H. Qed.

Lemma shown_display E wd s e :
  In e (shown E wd s) -> is_result_display e = true.
Proof.
  unfold shown, result_display. repeat case_match; simpl; try done.
  all: intros [<-|[<-|[<-|[<-|[]]]]]; done.
Qed.

(** ** The "Load Model" button, not pressed or failing *)

Lemma load_model_section_no_rerun E wd w :
  load_clicked wd = false ->
  out (load_model_section E wd w) <> RerunRequested.
Proof.
  intros Hc. destruct w as [s fs].
  unfold load_model_section, try_except, bind, emit, ret, raise, assign, attr.
  run_cases; done.
Qed.

Lemma load_model_section_exception E wd w msg :
  out (load_model_section E wd w) = Exception msg ->
  ready (session_state w) = false \/ session_state w !! "model_name" = None.
Proof.
  destruct w as [s fs]. unfold ready. simpl.
  unfold load_model_section, load_vision_model, call_mlx_load,
    call_load_config, lift, try_except, bind, emit, ret, raise, assign, attr,
    st_rerun.
  run_cases; auto; done.
Qed.

(** ** What the results section displays *)

Lemma results_section_displayed E wd w :
  wf (session_state w) ->
  let r := results_section E wd w in
  displayed (log r) =
  match out r with
  | RerunRequested => []
  | _ => shown E wd (session_state (final r))
  end.
Proof.
  intros Hw. simpl.
  destruct (results_section_cases E wd w)
    as [(Hi & ->)|[(Hi & Hout & ->)|(Hi & Hout & Hfin & ->)]]; simpl.
  - rewrite shown_no_result; [done|]. by apply wf_no_document.
  - change (displayed (log (load_model_section E wd w)) =
            match out (load_model_section E wd w) with
            | RerunRequested => []
            | _ => shown E wd (session_state (final (load_model_section E wd w)))
            end).
    rewrite displayed_load_model_section.
    destruct (out (load_model_section E wd w)) as [[]|msg|] eqn:Ho;
      [done| |done].
    destruct (load_model_section_cases E wd w) as [[Hr _]|[_ ->]];
      [simpl in Hr; congruence|].
    rewrite shown_no_result; [done|].
    destruct (load_model_section_exception _ _ _ _ Ho) as [Hnr|Hn];
      [by apply wf_not_ready|].
    apply wf_not_ready; [done|]. destruct (ready (session_state w)) eqn:Hr;
      [|done].
    destruct Hw as (Hrd & _). destruct (Hrd Hr) as (_ & _ & _ & _ & [? ?]).
    congruence.
  - change (displayed (log (load_model_section E wd w) ++
                       log (ocr_section E wd w)) =
            match out (ocr_section E wd w) with
            | RerunRequested => []
            | _ => shown E wd (session_state (final (ocr_section E wd w)))
            end).
    rewrite displayed_app, displayed_load_model_section. simpl.
    destruct (ocr_section_cases E wd w)
      as [(Hr & Hfin' & Hout' & Hlog)|[(Hr & Hn & _)|(Hr & vn & Hn & ->)]].
    + rewrite Hfin', shown_no_result by (by apply wf_not_ready).
      rewrite displayed_none; [by destruct (out (ocr_section E wd w))|].
      eapply Forall_impl; [|exact Hlog]. by intros e (_ & ? & _).
    + destruct Hw as (Hrd & _). destruct (Hrd Hr) as (_ & _ & _ & _ & [? ?]).
      congruence.
    + simpl. rewrite displayed_app, displayed_extract_section. simpl.
      rewrite display_section_final, display_section_log, displayed_shown.
      pose proof (display_section_out E wd (final (extract_section E wd w))).
      by destruct (out (display_section E wd _)).
Qed.

Lemma script_displayed E wd w :
  wf (session_state w) ->
  let r := script E wd w in
  displayed (log r) =
  match out r with
  | RerunRequested => []
  | _ => shown E wd (session_state (final r))
  end.
Proof.
  intros Hw. simpl. rewrite script_run. simpl.
  rewrite displayed_app, displayed_upload_section. simpl.
  apply results_section_displayed, wf_upload_section. simpl.
  by apply wf_initialised.
Qed.

Lemma script_no_rerun E wd w :
  load_clicked wd = false -> out (script E wd w) <> RerunRequested.
Proof.
  intros Hc. rewrite script_run. simpl.
  set (w1 := final (upload_section E wd (initialised_world w))).
  destruct (results_section_cases E wd w1)
    as [(Hi & ->)|[(Hi & Hout & ->)|(Hi & Hout & Hfin & ->)]]; simpl.
  - done.
  - by apply load_model_section_no_rerun.
  - apply ocr_section_out.
Qed.

(** What an interaction displays of the result is what the session holds
    at its end. *)
Lemma interact_displayed E wd w :
  wf (session_state w) ->
  displayed (log (interact E wd w)) =
  shown E wd (session_state (final (interact E wd w))).
Proof.
  intros Hw. rewrite interact_run. simpl.
  pose proof (script_displayed E wd w Hw) as H1. simpl in H1.
  pose proof (wf_script E wd w Hw) as Hw1.
  destruct (out (script E wd w)); try done. simpl.
  rewrite displayed_app, H1. simpl.
  pose proof (script_displayed E (after_rerun wd) _ Hw1) as H2. simpl in H2.
  pose proof (script_no_rerun E (after_rerun wd) (final (script E wd w))
                eq_refl) as Hno.
  rewrite H2. by destruct (out (script E (after_rerun wd) _)).
Qed.

End Display.

Section Generation.
Context {Obj : Type}.
Implicit Types (E : @externals Obj) (wd : widgets) (w : @world Obj).
Implicit Types (s : gmap string (@value Obj)) (fs : gmap string (list byte)).

(** ** Runs that call the generation *)

Lemma ocr_section_generate E wd w vm vp fp vi opts :
  let x := extract_section E wd w in
  let r := ocr_section E wd w in
  In (Ext_generate vm vp fp vi opts) (log r) ->
  In (Ext_generate vm vp fp vi opts) (log x) /\
  ready (session_state w) = true /\
  final r = final x /\
  displayed (log r) = shown E wd (session_state (final x)).
Proof.
  simpl. intros Hin.
  destruct (ocr_section_cases E wd w)
    as [(Hr & _ & _ & Hlog)|[(Hr & Hn & Hrun)|(Hr & vn & Hn & Hrun)]].
  - rewrite Forall_forall in Hlog. by apply Hlog in Hin as [? _].
  - by rewrite Hrun in Hin.
  - rewrite Hrun in Hin |- *. simpl in *.
    rewrite display_section_final, display_section_log.
    rewrite displayed_app, displayed_extract_section, displayed_shown.
    destruct Hin as [|[Hin|Hin]%in_app_iff]; [done| |]; [done|].
    rewrite display_section_log in Hin. by apply shown_display in Hin.
Qed.

Lemma results_section_generate E wd w vm vp fp vi opts :
  let x := extract_section E wd w in
  let r := results_section E wd w in
  In (Ext_generate vm vp fp vi opts) (log r) ->
  In (Ext_generate vm vp fp vi opts) (log x) /\
  ready (session_state w) = true /\
  session_state (final r) = session_state (final x) /\
  out r <> RerunRequested /\
  displayed (log r) = shown E wd (session_state (final x)).
Proof.
  simpl. intros Hin.
  pose proof (load_model_section_emits E wd w) as Hload.
  rewrite Forall_forall in Hload.
  destruct (results_section_cases E wd w)
    as [(Hi & Hrun)|[(Hi & Hout & Hrun)|(Hi & Hout & Hfin & Hrun)]];
    rewrite Hrun in Hin |- *; simpl in *.
  - by destruct Hin as [|[|]].
  - destruct Hin as [|Hin]; [done|]. by apply Hload in Hin.
  - destruct Hin as [|[Hin|Hin]%in_app_iff]; [done| |];
      [by apply Hload in Hin|].
    destruct (ocr_section_generate _ _ _ _ _ _ _ _ Hin)
      as (Hx & Hr & Hf & Hd).
    repeat split; try done; [by rewrite Hf|apply ocr_section_out|].
    change (displayed (log (load_model_section E wd w) ++
                       log (ocr_section E wd w)) =
            shown E wd (session_state (final (extract_section E wd w)))).
    by rewrite displayed_app, displayed_load_model_section.
Qed.

(** A run that calls the generation calls it from the "Extract Text"
    button, in a ready session, after the upload section; it ends with the
    result display. *)
Lemma script_generate E wd w vm vp fp vi opts :
  let w1 := final (upload_section E wd (initialised_world w)) in
  let x := extract_section E wd w1 in
  let r := script E wd w in
  In (Ext_generate vm vp fp vi opts) (log r) ->
  In (Ext_generate vm vp fp vi opts) (log x) /\
  ready (session_state w1) = true /\
  session_state (final r) = session_state (final x) /\
  out r <> RerunRequested /\
  displayed (log r) = shown E wd (session_state (final x)).
Proof.
  simpl. intros Hin. apply script_log in Hin as [Hin|Hin]; [done|].
  destruct (results_section_generate _ _ _ _ _ _ _ _ Hin)
    as (Hx & Hr & Hf & Ho & Hd).
  rewrite script_run. simpl.
  by rewrite displayed_app, displayed_upload_section.
Qed.

(** The generation is called by the first run of an interaction, which is
    then its only run. *)
Lemma interact_generate E wd w vm vp fp vi opts :
  In (Ext_generate vm vp fp vi opts) (log (interact E wd w)) ->
  interact E wd w = script E wd w.
Proof.
  rewrite interact_run. simpl.
  destruct (out (script E wd w)) eqn:Ho; try done. simpl.
  intros [Hin|Hin]%in_app_iff.
  - apply script_generate in Hin as (_ & _ & _ & Hno & _). congruence.
  - destruct (script_without_extract E (after_rerun wd)
                (final (script E wd w)) eq_refl) as [Hno _].
    rewrite Forall_forall in Hno. by apply Hno in Hin.
Qed.

(** ** Where a stored result comes from *)

Lemma extract_section_stored E wd w :
  let x := extract_section E wd w in
  final x = w \/
  exists vm vp fp vi text,
    In (Ext_generate vm vp fp vi decoding) (log x) /\
    generate E vm vp fp vi decoding = Returns text /\
    final x = {| session_state :=
                   <["output_text" := VStr text]> (session_state w);
                 files := files w |}.
Proof.
  destruct w as [s fs]; simpl.
  unfold extract_section, extract_text, call_apply_chat_template,
    call_generate, lift, try_except, bind, emit, ret, raise, assign, attr.
  run_cases; first [by left | right; eexists _, _, _, _, _; eauto 10].
Qed.

End Generation.

Section Results.
Context {Obj : Type}.
Implicit Types (E : @externals Obj) (wd : widgets) (w : @world Obj).
Implicit Types (s : gmap string (@value Obj)) (fs : gmap string (list byte)).

(** ** The stored result *)

(** The text a generation call returns is the stored result at the end of
    the interaction. *)
Lemma interact_generate_returns E wd w vm vp fp vi opts text :
  In (Ext_generate vm vp fp vi opts) (log (interact E wd w)) ->
  generate E vm vp fp vi opts = Returns text ->
  session_state (final (interact E wd w)) =
  <["output_text" := VStr text]>
    (session_state (final (upload_section E wd (initialised_world w)))).
Proof.
  intros Hin Hgen. pose proof (interact_generate _ _ _ _ _ _ _ _ Hin) as Hrun.
  rewrite Hrun in Hin |- *.
  apply script_generate in Hin as (Hx & _ & -> & _).
  apply extract_section_generate in Hx as (_ & _ & _ & _ & Hret & _).
  by rewrite (Hret _ Hgen).
Qed.

Lemma upload_section_output_text E wd w :
  session_state (final (upload_section E wd (initialised_world w)))
    !! "output_text" = session_state w !! "output_text".
Proof.
  rewrite upload_section_attr by done. simpl. by apply initialised_attr.
Qed.

(** The stored result of a run is the one before, or the text a
    generation call of the run returned. *)
Lemma script_stored E wd w :
  let r := script E wd w in
  session_state (final r) !! "output_text" =
    session_state w !! "output_text" \/
  exists vm vp fp vi text,
    In (Ext_generate vm vp fp vi decoding) (log r) /\
    generate E vm vp fp vi decoding = Returns text /\
    session_state (final r) !! "output_text" = Some (VStr text).
Proof.
  simpl. rewrite script_run. simpl.
  rewrite <- (upload_section_output_text E wd w).
  set (w1 := final (upload_section E wd (initialised_world w))).
  destruct (results_section_cases E wd w1)
    as [(Hi & ->)|[(Hi & Hout & ->)|(Hi & Hout & Hfin & ->)]]; simpl.
  - by left.
  - left. destruct (load_model_section_cases E wd w1)
      as [[_ (vm & vp & vc & ->)]|[_ ->]]; [|done].
    simpl. unfold record_model. by rewrite !lookup_insert_ne.
  - destruct (ocr_section_cases E wd w1)
      as [(_ & -> & _)|[(_ & _ & ->)|(_ & vn & _ & ->)]]; [by left..|].
    simpl. rewrite display_section_final.
    destruct (extract_section_stored E wd w1)
      as [->|(vm & vp & fp & vi & text & Hin & Hgen & ->)]; [by left|].
    right. exists vm, vp, fp, vi, text. simpl.
    rewrite lookup_insert_eq. repeat split; try done.
    apply in_app_iff. right. right. apply in_app_iff. right. right.
    apply in_app_iff. by left.
Qed.

Lemma interact_stored E wd w :
  let r := interact E wd w in
  session_state (final r) !! "output_text" =
    session_state w !! "output_text" \/
  exists vm vp fp vi text,
    In (Ext_generate vm vp fp vi decoding) (log r) /\
    generate E vm vp fp vi decoding = Returns text /\
    session_state (final r) !! "output_text" = Some (VStr text).
Proof.
  simpl. rewrite interact_run. simpl.
  pose proof (script_stored E wd w) as H1. simpl in H1.
  destruct (out (script E wd w)); try done. simpl.
  destruct (script_without_extract E (after_rerun wd)
              (final (script E wd w)) eq_refl) as [_ ->].
  destruct H1 as [H1|(vm & vp & fp & vi & text & Hin & Hgen & Hs)];
    [by left|].
  right. exists vm, vp, fp, vi, text. repeat split; try done.
  apply in_app_iff. by left.
Qed.

(** ** An interaction without a press on "Load Model" *)

Lemma interact_single E wd w :
  load_clicked wd = false -> interact E wd w = script E wd w.
Proof.
  intros Hc. rewrite interact_run. simpl.
  pose proof (script_no_rerun E wd w Hc).
  by destruct (out (script E wd w)).
Qed.

Lemma extract_section_button E wd w :
  In (St_button "🚀 Extract Text") (log (extract_section E wd w)).
Proof.
  unfold extract_section. rewrite bind_run. simpl. by left.
Qed.

(** The page the run stores. *)
Lemma script_page_num E wd w data images fs' image :
  uploaded_file wd = Some data ->
  conversion E w data = (Returns images, fs') ->
  images !! page_choice wd = Some image ->
  session_state (final (script E wd w)) !! "page_num" =
  Some (VInt (Z.of_nat (S (page_choice wd)))).
Proof.
  intros Hup Hconv Himg. rewrite script_run. simpl.
  rewrite <- (results_section_page_num E wd _).
  destruct (decide (1 < length images)%nat) as [Hmany|Hone].
  - rewrite (upload_section_many E wd (initialised_world w) data images fs'
               image Hup Hconv Hmany Himg).
    simpl. by rewrite lookup_insert_eq.
  - apply lookup_lt_Some in Himg as Hlt.
    destruct images as [|image0 [|??]]; simpl in *; [lia| |lia].
    assert (page_choice wd = 0%nat) as Hz by lia. rewrite Hz in *.
    simplify_eq/=.
    rewrite (upload_section_one E wd (initialised_world w) data image fs'
               Hup Hconv).
    simpl. by rewrite lookup_insert_eq.
Qed.

(** A run on a ready session in which "Load Model" is not pressed. *)
Lemma script_ready E wd w vm vp n :
  wf (session_state w) ->
  ready (session_state w) = true ->
  session_state w !! "model" = Some vm ->
  session_state w !! "processor" = Some vp ->
  session_state w !! "model_name" = Some (VStr n) ->
  load_clicked wd = false ->
  let r := script E wd w in
  same_model w (final r) /\
  In (St_success ("✅ Model ready: " +:+ n)) (log r) /\
  In (St_button "🚀 Extract Text") (log r) /\
  (In (St_button "🔄 Load Model") (log r) <-> model_name wd <> n) /\
  Forall (fun e => match e with
                   | Ext_generate m p _ _ _ => m = vm /\ p = vp
                   | _ => True
                   end) (log r).
Proof.
  intros Hw Hr Hm Hp Hn Hc. simpl.
  assert (Hinit : initialised_world w = w).
  { apply initialised_world_present. by rewrite Hm. }
  pose proof (upload_section_model E wd w) as Hsame.
  assert (Hgen : forall e, In e (log (script E wd w)) ->
            match e with
            | Ext_generate m p _ _ _ => m = vm /\ p = vp
            | _ => True
            end).
  { intros [] He; try done.
    apply script_generate in He as (Hx & _).
    apply extract_section_generate in Hx as (Hm' & Hp' & _).
    rewrite Hinit in Hm', Hp'.
    rewrite <- (Hsame "model") in Hm' by (simpl; auto).
    rewrite <- (Hsame "processor") in Hp' by (simpl; auto).
    split; congruence. }
  rewrite script_run in Hgen |- *. simpl in Hgen |- *. rewrite Hinit in *.
  destruct Hw as (Hrd & _). destruct (Hrd Hr) as (_ & _ & _ & Hi & _).
  pose proof (upload_section_current_image E wd w Hi) as [vi Hi1].
  pose proof (upload_section_emits E wd w) as Hup.
  rewrite Forall_forall in Hup.
  set (w1 := final (upload_section E wd w)) in *.
  unfold ready in Hr.
  destruct (session_state w !! "model_loaded") as [vl|] eqn:Hl; [|done].
  assert (Hl1 : session_state w1 !! "model_loaded" = Some vl).
  { rewrite <- Hl. symmetry. apply Hsame. simpl. auto. }
  assert (Hn1 : session_state w1 !! "model_name" = Some (VStr n)).
  { rewrite <- Hn. symmetry. apply Hsame. simpl. auto 10. }
  pose proof (ocr_section_no_load E wd w1) as Hocr.
  rewrite Forall_forall in Hocr.
  assert (Hshow : In (St_success ("✅ Model ready: " +:+ n))
                    (log (ocr_section E wd w1)) /\
                  In (St_button "🚀 Extract Text")
                    (log (ocr_section E wd w1))).
  { rewrite (ocr_section_ready _ _ _ _ Hl1 Hr).
    rewrite (ready_section_run _ _ _ _ Hn1). simpl. split; [by left|].
    right. apply in_app_iff. left. apply extract_section_button. }
  destruct Hshow as [Hshow Hbutton].
  rewrite (results_section_document _ _ _ _ Hi1), bind_run in Hgen |- *.
  destruct (String.eqb_spec n (model_name wd)) as [Heq|Hne].
  - assert (Hidle : load_model_section E wd w1 = ret tt w1).
    { apply (load_model_section_idle E wd w1 vl (VStr n) Hl1 Hn1 Hr).
      subst n. apply ne_str_same. }
    rewrite Hidle in Hgen |- *. simpl in Hgen |- *.
    split; [|split; [|split; [|split]]].
    + eapply same_model_trans; [exact Hsame|apply ocr_section_model].
    + apply in_app_iff. right. by right.
    + apply in_app_iff. right. by right.
    + split; [|by intros []].
      intros [He|[He|He]]%in_app_iff; [by apply Hup in He|done|].
      by apply Hocr in He as [_ ?].
    + by apply Forall_forall.
  - assert (Hoff : load_model_section E wd w1 =
        {| out := Done tt; final := w1; log := [St_button "🔄 Load Model"] |}).
    { apply (load_model_section_offered E wd w1 vl (VStr n) Hl1 Hn1);
        [|done].
      right. simpl. apply negb_true_iff. by apply String.eqb_neq. }
    rewrite Hoff in Hgen |- *. simpl in Hgen |- *.
    split; [|split; [|split; [|split]]].
    + eapply same_model_trans; [exact Hsame|apply ocr_section_model].
    + apply in_app_iff. right. right. by right.
    + apply in_app_iff. right. right. by right.
    + split; [intros _ Heq; congruence|]. intros _.
      apply in_app_iff. right. right. by left.
    + by apply Forall_forall.
Qed.

End Results.

Section Keys.
Context {Obj : Type}.
Implicit Types (E : @externals Obj) (wd : widgets) (w : @world Obj).
Implicit Types (s : gmap string (@value Obj)) (fs : gmap string (list byte)).

(** ** The keys of the session state *)

Lemma grows_refl s : grows s s.
Proof. by intros key. Qed.

Lemma grows_trans s1 s2 s3 : grows s1 s2 -> grows s2 s3 -> grows s1 s3.
Proof. intros H1 H2 key Hk. by apply H2, H1. Qed.

Lemma grows_insert s key (v : @value Obj) : grows s (<[key := v]> s).
Proof.
  intros key' Hk. destruct (decide (key = key')) as [->|Hne].
  - rewrite lookup_insert_eq. by eexists.
  - by rewrite lookup_insert_ne.
Qed.

Lemma grows_initialised s : grows s (initialised s).
Proof.
  unfold initialised. destruct (s !! "model"); [apply grows_refl|].
  repeat (eapply grows_trans; [|apply grows_insert]). apply grows_refl.
Qed.

Lemma grows_record_model name (m p c : @value Obj) s :
  grows s (record_model name m p c s).
Proof.
  unfold record_model.
  repeat (eapply grows_trans; [|apply grows_insert]). apply grows_refl.
Qed.

Lemma grows_upload_section E wd w :
  grows (session_state w) (session_state (final (upload_section E wd w))).
Proof.
  destruct (upload_section_cases E wd w) as [->|(i & n & ->)];
    [apply grows_refl|].
  repeat (eapply grows_trans; [|apply grows_insert]). apply grows_refl.
Qed.

Lemma grows_results_section E wd w :
  grows (session_state w) (session_state (final (results_section E wd w))).
Proof.
  destruct (results_section_cases E wd w)
    as [(Hi & ->)|[(Hi & Hout & ->)|(Hi & Hout & Hfin & ->)]]; simpl.
  - apply grows_refl.
  - destruct (load_model_section_cases E wd w)
      as [[_ (vm & vp & vc & ->)]|[_ ->]]; [|apply grows_refl].
    apply grows_record_model.
  - destruct (ocr_section_cases E wd w)
      as [(_ & -> & _)|[(_ & _ & ->)|(_ & vn & _ & ->)]];
      [apply grows_refl..|].
    simpl. rewrite display_section_final.
    destruct (extract_section_cases E wd w) as [_ [->|[text ->]]];
      [apply grows_refl|apply grows_insert].
Qed.

Lemma grows_script E wd w :
  grows (initialised (session_state w))
    (session_state (final (script E wd w))).
Proof.
  rewrite script_run. simpl.
  eapply grows_trans; [|apply grows_results_section].
  apply (grows_upload_section E wd (initialised_world w)).
Qed.

Lemma has_defaults_initialised s :
  has_defaults s ->
  is_Some (initialised s !! "model") /\
  is_Some (initialised s !! "model_loaded") /\
  is_Some (initialised s !! "model_name").
Proof.
  intros Hs. unfold initialised.
  destruct (s !! "model") as [vm|] eqn:Hm.
  - rewrite Hm. split; [by eexists|]. apply Hs. by eexists.
  - rewrite lookup_insert_eq.
    rewrite (lookup_insert_ne _ "model_name" "model_loaded") by done.
    rewrite lookup_insert_eq. rewrite !lookup_insert_ne by done.
    rewrite lookup_insert_eq. by repeat split.
Qed.

Lemma has_defaults_script E wd w :
  has_defaults (session_state w) ->
  has_defaults (session_state (final (script E wd w))).
Proof.
  intros Hs _. destruct (has_defaults_initialised _ Hs) as (_ & Hl & Hn).
  split; by apply grows_script.
Qed.

Lemma has_defaults_interact E wd w :
  has_defaults (session_state w) ->
  has_defaults (session_state (final (interact E wd w))).
Proof.
  intros Hs. rewrite interact_run. simpl.
  pose proof (has_defaults_script E wd w Hs) as H1.
  destruct (out (script E wd w)); try done. simpl.
  by apply has_defaults_script.
Qed.

Lemma reachable_has_defaults w : reachable w -> has_defaults (session_state w).
Proof.
  induction 1 as [fs|E wd w _ IH]; [|by apply has_defaults_interact].
  intros [? H]. simpl in H. by rewrite lookup_empty in H.
Qed.

(** ** Runs that end normally *)

Lemma load_model_section_raises E wd w msg :
  out (load_model_section E wd w) = Exception msg ->
  session_state w !! "model_loaded" = None \/
  session_state w !! "model_name" = None.
Proof.
  destruct w as [s fs]. simpl.
  unfold load_model_section, load_vision_model, call_mlx_load,
    call_load_config, lift, try_except, bind, emit, ret, raise, assign, attr,
    st_rerun.
  run_cases; auto; done.
Qed.

Lemma display_section_done E wd w :
  (is_Some (session_state w !! "output_text") ->
   is_Some (session_state w !! "page_num")) ->
  out (display_section E wd w) = Done tt.
Proof.
  destruct w as [s fs]. simpl.
  unfold display_section, bind, emit, ret, raise, attr, contains.
  run_cases; try done; intros [? H]; [by eexists|done].
Qed.

Lemma wf_result_page s :
  wf s -> is_Some (s !! "output_text") -> is_Some (s !! "page_num").
Proof.
  intros (Hrd & Hpg & Htx) [v Hv]. destruct (Htx v Hv) as [Hr _].
  destruct (Hrd Hr) as (_ & _ & _ & Hi & _).
  destruct (Hpg Hi) as [n ->]. by eexists.
Qed.

Lemma results_section_ends E wd w :
  wf (session_state w) ->
  is_Some (session_state w !! "model_loaded") ->
  is_Some (session_state w !! "model_name") ->
  let r := results_section E wd w in
  out r = Done tt \/ out r = RerunRequested.
Proof.
  intros Hw [vl Hl] [vn Hn]. simpl.
  destruct (results_section_cases E wd w)
    as [(Hi & ->)|[(Hi & Hout & ->)|(Hi & Hout & Hfin & ->)]]; simpl.
  - by left.
  - destruct (out (load_model_section E wd w)) as [[]|msg|] eqn:Ho;
      [done| |by right].
    apply load_model_section_raises in Ho as [Ho|Ho]; congruence.
  - destruct (truthy vl) eqn:Ht;
      [|left; by rewrite (ocr_section_not_ready _ _ _ _ Hl Ht)].
    rewrite (ocr_section_ready _ _ _ _ Hl Ht).
    rewrite (ready_section_run _ _ _ _ Hn). simpl. left.
    apply display_section_done, wf_result_page.
    destruct (extract_section_cases E wd w) as [_ [->|[text ->]]]; [done|].
    simpl. apply wf_output_text; [done|]. unfold ready. by rewrite Hl.
Qed.

Lemma script_ends E wd w :
  wf (session_state w) -> has_defaults (session_state w) ->
  let r := script E wd w in
  out r = Done tt \/ out r = RerunRequested.
Proof.
  intros Hw Hs. simpl. rewrite script_run. simpl.
  destruct (has_defaults_initialised _ Hs) as (_ & Hl & Hn).
  apply results_section_ends.
  - apply wf_upload_section. simpl. by apply wf_initialised.
  - by apply (grows_upload_section E wd (initialised_world w)).
  - by apply (grows_upload_section E wd (initialised_world w)).
Qed.

Lemma interact_ends E wd w :
  wf (session_state w) -> has_defaults (session_state w) ->
  out (interact E wd w) = Done tt.
Proof.
  intros Hw Hs. rewrite interact_run. simpl.
  destruct (script_ends E wd w Hw Hs) as [Ho|Ho]; rewrite Ho; [done|].
  simpl.
  destruct (script_ends E (after_rerun wd) (final (script E wd w)))
    as [Ho'|Ho']; [by apply wf_script|by apply has_defaults_script|done|].
  by apply script_no_rerun in Ho'.
Qed.

(** ** The models that are loaded *)

Lemma load_model_section_selected E wd :
  emits (fun e => match e with
                  | Ext_mlx_load n | Ext_load_config n => n = model_name wd
                  | _ => True
                  end) (load_model_section E wd).
Proof.
  unfold load_model_section, load_vision_model.
  emits.
Qed.

Lemma script_selected E wd w :
  Forall (fun e => match e with
                   | Ext_mlx_load n | Ext_load_config n => n = model_name wd
                   | _ => True
                   end) (log (script E wd w)).
Proof.
  rewrite script_run. simpl. apply Forall_app. split.
  - eapply Forall_impl; [|apply upload_section_emits]. by intros [] He.
  - set (w1 := final (upload_section E wd (initialised_world w))).
    pose proof (ocr_section_no_load E wd w1) as Hocr.
    destruct (results_section_cases E wd w1)
      as [(Hi & ->)|[(Hi & Hout & ->)|(Hi & Hout & Hfin & ->)]]; simpl.
    + by repeat constructor.
    + constructor; [done|]. apply load_model_section_selected.
    + constructor; [done|]. apply Forall_app. split;
        [apply load_model_section_selected|].
      eapply Forall_impl; [|exact Hocr]. by intros [] [He _].
Qed.

End Keys.

Section Errors.
Context {Obj : Type}.
Implicit Types (E : @externals Obj) (wd : widgets) (w : @world Obj).
Implicit Types (s : gmap string (@value Obj)) (fs : gmap string (list byte)).

(** ** The page image outside the upload section *)

Lemma results_section_no_page E wd :
  emits (fun e => match e with
                  | Ext_convert_from_path _ _ | St_image _ _
                  | St_selectbox _ _ => False
                  | _ => True
                  end) (results_section E wd).
Proof.
  unfold results_section, ocr_section, ready_section, load_model_section,
    extract_section, extract_text,
    display_section, load_vision_model,
    call_apply_chat_template, call_generate.
  emits.
Qed.

Lemma script_page_kept E wd w :
  let u := upload_section E wd (initialised_world w) in
  let r := script E wd w in
  session_state (final u) = initialised (session_state w) ->
  session_state (final r) !! "current_image" =
    session_state w !! "current_image" /\
  session_state (final r) !! "page_num" = session_state w !! "page_num".
Proof.
  simpl. intros Hu. rewrite script_run. simpl.
  rewrite <- (results_section_current_image E wd _).
  rewrite <- (results_section_page_num E wd _).
  rewrite Hu. by rewrite !initialised_attr.
Qed.

(** ** A document without pages *)

Lemma pretty_zero : pretty 0 = "0".
Proof. by vm_compute. Qed.

Lemma upload_section_empty E wd w data fs' :
  uploaded_file wd = Some data ->
  conversion E w data = (Returns [], fs') ->
  upload_section E wd w =
  {| out := Done tt;
     final := {| session_state := session_state w;
                 files := delete (tmp_pdf_path E w) fs' |};
     log := [ St_file_uploader "Choose a PDF file";
              St_spinner "Converting PDF to images...";
              Ext_convert_from_path (tmp_pdf_path E w) 200;
              St_success "✅ PDF loaded successfully! Found 0 page(s)";
              St_error "Error processing PDF: list index out of range" ] |}.
Proof.
  unfold conversion, tmp_pdf_path. intros Hup Hconv. unfold_script.
  rewrite Hup. simpl. rewrite Hconv. unfold select_page, index, len. simpl.
  destruct (fs' !! _) eqn:Hp; simpl; rewrite ?Hp; simpl;
    rewrite ?delete_id by done; change (Z.of_nat 0) with 0;
    by rewrite pretty_zero.
Qed.

(** ** The log of a run that calls the generation *)

Lemma script_generate_log E wd w vm vp fp vi opts :
  let w1 := final (upload_section E wd (initialised_world w)) in
  let x := extract_section E wd w1 in
  let r := script E wd w in
  In (Ext_generate vm vp fp vi opts) (log r) ->
  exists pre,
    log r = (pre ++ log x ++ shown E wd (session_state (final x)))%list.
Proof.
  simpl. intros Hin. apply script_log in Hin as [Hin|Hin]; [done|].
  rewrite script_run. simpl.
  set (w1 := final (upload_section E wd (initialised_world w))) in *.
  pose proof (load_model_section_emits E wd w1) as Hload.
  rewrite Forall_forall in Hload.
  destruct (results_section_cases E wd w1)
    as [(Hi & Hrun)|[(Hi & Hout & Hrun)|(Hi & Hout & Hfin & Hrun)]];
    rewrite Hrun in Hin |- *; simpl in *.
  - by destruct Hin as [|[|]].
  - destruct Hin as [|Hin]; [done|]. by apply Hload in Hin.
  - destruct Hin as [|[Hin|Hin]%in_app_iff]; [done| |];
      [by apply Hload in Hin|].
    destruct (ocr_section_cases E wd w1)
      as [(_ & _ & _ & Hlog)|[(_ & _ & Hocr)|(_ & vn & _ & Hocr)]].
    + rewrite Forall_forall in Hlog. by apply Hlog in Hin as [? _].
    + by rewrite Hocr in Hin.
    + rewrite Hocr. simpl. rewrite display_section_log.
      exists (log (upload_section E wd (initialised_world w)) ++
              St_header "📝 OCR Results" :: log (load_model_section E wd w1) ++
              [St_success ("✅ Model ready: " +:+ py_str E vn)])%list.
      rewrite <- ?app_assoc. simpl. by rewrite <- ?app_assoc.
Qed.

Lemma extract_section_inputs E wd w vm vp fp vi opts :
  In (Ext_generate vm vp fp vi opts) (log (extract_section E wd w)) ->
  exists vc,
    session_state w !! "config" = Some vc /\
    In (Ext_apply_chat_template vp vc (ocr_prompt wd) 1)
      (log (extract_section E wd w)) /\
    apply_chat_template E vp vc (ocr_prompt wd) 1 = Returns fp.
Proof.
  destruct w as [s fs]; simpl.
  unfold extract_section, extract_text, call_apply_chat_template,
    call_generate, lift, try_except, bind, emit, ret, raise, assign, attr.
  run_cases;
    intros Hin; repeat (destruct Hin as [Hin|Hin]; try done);
    simplify_eq; eexists; repeat split; eauto 10.
Qed.

Lemma extract_section_keeps E wd w key :
  key <> "output_text" ->
  session_state (final (extract_section E wd w)) !! key =
  session_state w !! key.
Proof.
  intros Hk. destruct (extract_section_cases E wd w) as [_ [->|[text ->]]];
    [done|]. simpl. by rewrite lookup_insert_ne.
Qed.

(** ** The log of a run that loads a model *)

Lemma load_model_section_success_shown E wd w name m p c :
  In (Ext_mlx_load name) (log (load_model_section E wd w)) ->
  load_succeeds E (files w) name m p c ->
  In (St_success "✅ Model loaded successfully!")
    (log (load_model_section E wd w)).
Proof.
  destruct w as [s fs]; simpl.
  unfold load_model_section, load_vision_model, call_mlx_load,
    call_load_config, lift, try_except, bind, emit, ret, raise, assign, attr,
    st_rerun.
  run_cases;
    intros Hin; try done; repeat (destruct Hin as [Hin|Hin]; try done);
    simplify_eq; intros Hok;
    destruct (load_succeeds_cases _ _ _ _ _ _ Hok) as (fs1 & fs2 & Hm & Hc);
    same_call; auto 10.
Qed.

(** ** What a load records *)

Lemma record_model_lookup name (m p c : @value Obj) s :
  let s' := record_model name m p c s in
  s' !! "model" = Some m /\ s' !! "processor" = Some p /\
  s' !! "config" = Some c /\
  s' !! "model_loaded" = Some (VBool true) /\
  s' !! "model_name" = Some (VStr name) /\
  s' !! "output_text" = s !! "output_text" /\
  s' !! "current_image" = s !! "current_image".
Proof.
  unfold record_model. simpl.
  repeat split; rewrite ?lookup_insert_ne by done;
    by rewrite ?lookup_insert_eq.
Qed.

End Errors.

Section Status.
Context {Obj : Type}.
Implicit Types (E : @externals Obj) (wd : widgets) (w : @world Obj).
Implicit Types (s : gmap string (@value Obj)) (fs : gmap string (list byte)).

(** ** What the results section tells the user *)

Lemma load_model_section_button E wd w vl :
  session_state w !! "model_loaded" = Some vl -> truthy vl = false ->
  In (St_button "🔄 Load Model") (log (load_model_section E wd w)).
Proof.
  intros Hl Ht. destruct w as [s fs]; simpl in *.
  unfold load_model_section, load_vision_model, call_mlx_load,
    call_load_config, lift, try_except, bind, emit, ret, raise, assign, attr,
    st_rerun.
  run_cases; auto.
Qed.

Lemma status_line_later s (l1 l2 : list (@event Obj)) :
  status_line s l2 -> status_line s (l1 ++ l2).
Proof.
  unfold status_line. destruct (s !! "current_image"); [|].
  - destruct (ready s).
    + intros (n & Hn & Hin). exists n. split; [done|].
      apply in_app_iff. by right.
    + intros [H1 H2]. split; apply in_app_iff; by right.
  - intros H. apply in_app_iff. by right.
Qed.

Lemma results_section_status E wd w :
  wf (session_state w) ->
  is_Some (session_state w !! "model_loaded") ->
  is_Some (session_state w !! "model_name") ->
  let r := results_section E wd w in
  (out r = RerunRequested /\
   is_Some (session_state w !! "current_image") /\
   exists model processor config,
     session_state (final r) =
     record_model (model_name wd) model processor config (session_state w)) \/
  (out r = Done tt /\ status_line (session_state (final r)) (log r)).
Proof.
  intros Hw [vl Hl] [vn Hn]. simpl.
  destruct (results_section_ends E wd w Hw) as [Hdone|Hrerun];
    [by eexists|by eexists| |].
  2: { left. split; [done|].
       destruct (results_section_cases E wd w)
         as [(Hi & Hrun)|[(Hi & Hout & Hrun)|(Hi & Hout & Hfin & Hrun)]];
         rewrite Hrun in Hrerun |- *; simpl in *; [done| |].
       - split; [done|].
         destruct (load_model_section_cases E wd w) as [[_ Hrec]|[Hno _]];
           [done|by simpl in Hno].
       - by apply ocr_section_out in Hrerun. }
  right. split; [done|].
  destruct (results_section_cases E wd w)
    as [(Hi & Hrun)|[(Hi & Hout & Hrun)|(Hi & Hout & Hfin & Hrun)]];
    rewrite Hrun in Hdone |- *; simpl in *.
  - unfold status_line. rewrite Hi. simpl. auto.
  - done.
  - destruct Hi as [vi Hi].
    destruct (truthy vl) eqn:Ht.
    + destruct Hw as (Hrd & _).
      assert (Hr : ready (session_state w) = true)
        by (unfold ready; by rewrite Hl).
      destruct (Hrd Hr) as (_ & _ & _ & _ & n & Hn').
      rewrite (ocr_section_ready _ _ _ _ Hl Ht).
      rewrite (ready_section_run _ _ _ _ Hn'). simpl.
      rewrite display_section_final. unfold status_line.
      rewrite (extract_section_keeps _ _ _ "current_image"), Hi by done.
      unfold ready.
      rewrite (extract_section_keeps _ _ _ "model_loaded"), Hl, Ht by done.
      exists n. rewrite (extract_section_keeps _ _ _ "model_name") by done.
      split; [done|]. right. apply in_app_iff. right. by left.
    + rewrite (ocr_section_not_ready _ _ _ _ Hl Ht). simpl.
      unfold status_line, ready. rewrite Hi, Hl, Ht. split.
      * right. apply in_app_iff. right. by left.
      * right. apply in_app_iff. left.
        by eapply load_model_section_button.
Qed.

Lemma script_status E wd w :
  wf (session_state w) -> has_defaults (session_state w) ->
  let r := script E wd w in
  (out r = RerunRequested /\
   is_Some (session_state (final r) !! "current_image") /\
   is_Some (session_state (final r) !! "model") /\
   session_state (final r) !! "model_loaded" = Some (VBool true) /\
   session_state (final r) !! "model_name" = Some (VStr (model_name wd))) \/
  (out r = Done tt /\ status_line (session_state (final r)) (log r)).
Proof.
  intros Hw Hs. simpl. rewrite script_run. simpl.
  destruct (has_defaults_initialised _ Hs) as (_ & Hl & Hn).
  set (w1 := final (upload_section E wd (initialised_world w))).
  destruct (results_section_status E wd w1)
    as [(Hout & Hi & vm & vp & vc & Hfin)|[Hout Hst]].
  - apply wf_upload_section. simpl. by apply wf_initialised.
  - by apply (grows_upload_section E wd (initialised_world w)).
  - by apply (grows_upload_section E wd (initialised_world w)).
  - left. split; [done|]. rewrite Hfin.
    destruct (record_model_lookup (model_name wd) vm vp vc (session_state w1))
      as (Rm & _ & _ & Rl & Rn & _ & Ri).
    rewrite Rm, Rl, Rn, Ri. by repeat split.
  - right. split; [done|]. by apply status_line_later.
Qed.

End Status.

Section Scenarios.
Context {Obj : Type}.
Implicit Types (E : @externals Obj) (wd : widgets) (w : @world Obj).
Implicit Types (s : gmap string (@value Obj)) (fs : gmap string (list byte)).

(** ** What the model loader leaves of the files *)

Lemma load_files_spares E fs name p :
  loader_spares E p -> load_files E fs name !! p = fs !! p.
Proof.
  intros Hsp. unfold load_files.
  destruct (Hsp fs name) as [Hm _].
  destruct (mlx_load E fs name) as [[mp|msg] fs1]; cbn [fst snd] in Hm; [|done].
  destruct (Hsp fs1 name) as [_ Hc]. by rewrite Hc.
Qed.

(** ** What a successful load leaves in the session *)

Lemma interact_loaded E wd w m p c :
  let r := interact E wd w in
  let s' := session_state (final r) in
  In (Ext_mlx_load (model_name wd)) (log r) ->
  load_succeeds E (files_at_load E wd w) (model_name wd) m p c ->
  s' !! "model" = Some (VObj m) /\ s' !! "processor" = Some (VObj p) /\
  s' !! "config" = Some (VObj c) /\
  s' !! "model_loaded" = Some (VBool true) /\
  s' !! "model_name" = Some (VStr (model_name wd)) /\
  s' !! "output_text" = session_state w !! "output_text" /\
  out (script E wd w) = RerunRequested /\
  In (St_success "✅ Model loaded successfully!") (log r) /\
  In (St_success ("✅ Model ready: " +:+ model_name wd)) (log r) /\
  Forall (fun e => is_inference e = false) (log r).
Proof.
  intros r s' Hin Hok. subst r s'.
  rewrite <- files_at_load_initialised in Hok.
  apply interact_load_first in Hin.
  pose proof (upload_section_emits E wd (initialised_world w)) as Hup.
  rewrite interact_run. simpl.
  apply script_log in Hin as [Hin|Hin]; [done|].
  destruct (results_section_load_called _ _ _ _ Hin) as (vi & Hi & Hload).
  pose proof (load_model_section_success_shown _ _ _ _ _ _ _ Hload Hok)
    as Hshown.
  pose proof (load_model_section_emits E wd
    (final (upload_section E wd (initialised_world w)))) as Hev.
  destruct (load_model_section_called _ _ _ _ Hload) as (_ & _ & Hs).
  destruct (Hs m p c Hok) as [Hout Hfin].
  rewrite script_run. simpl.
  rewrite (results_section_document _ _ _ _ Hi), bind_run, Hout.
  simpl.
  set (w1 := final (upload_section E wd (initialised_world w))) in *.
  set (w2 := final (load_model_section E wd w1)) in *.
  destruct (record_model_lookup (model_name wd) (VObj m) (VObj p) (VObj c)
              (session_state w1)) as (Rm & Rp & Rc & Rl & Rn & Rt & Ri).
  rewrite <- Hfin in Rm, Rp, Rc, Rl, Rn, Rt, Ri.
  destruct (script_loaded_model E (after_rerun wd) w2 (VBool true)
              (model_name wd)) as (_ & Hsame & _ & _ & Hready).
  { rewrite Rm. by eexists. }
  { rewrite Ri, Hi. by eexists. }
  { exact Rl. }
  { reflexivity. }
  { exact Rn. }
  { reflexivity. }
  destruct (script_without_extract E (after_rerun wd) w2 eq_refl)
    as [Hno Htext].
  rewrite <- !(Hsame _) by (simpl; auto 10). rewrite Htext. simpl.
  split; [exact Rm|]. split; [exact Rp|]. split; [exact Rc|].
  split; [exact Rl|]. split; [exact Rn|].
  split; [rewrite Rt; apply upload_section_output_text|].
  split; [reflexivity|]. split; [|split].
  - apply in_app_iff. left. apply in_app_iff. right. by right.
  - apply in_app_iff. by right.
  - apply Forall_app. split; [|done]. apply Forall_app. split.
    + eapply Forall_impl; [|exact Hup]. by intros [] He.
    + constructor; [done|]. eapply Forall_impl; [|exact Hev].
      intros e He. by apply load_event_not_extraction in He as [? _].
Qed.

(** ** A ready session, as long as "Load Model" is not pressed *)

Lemma interact_ready E wd w :
  wf (session_state w) -> ready (session_state w) = true ->
  load_clicked wd = false ->
  let r := interact E wd w in
  same_model w (final r) /\ wf (session_state (final r)) /\
  ready (session_state (final r)) = true.
Proof.
  intros Hw Hr Hc. simpl.
  pose proof (wf_interact E wd w Hw) as Hw'.
  destruct Hw as (Hrd & Hrest).
  destruct (Hrd Hr) as ([vm Hm] & [vp Hp] & _ & _ & n & Hn).
  rewrite (interact_single _ _ _ Hc) in Hw' |- *.
  destruct (script_ready E wd w vm vp n (conj Hrd Hrest) Hr Hm Hp Hn Hc)
    as (Hsame & _).
  split; [done|]. split; [done|].
  by rewrite <- (same_model_ready _ _ Hsame).
Qed.

Lemma session_ready (steps : list (@externals Obj * widgets)) w :
  wf (session_state w) -> ready (session_state w) = true ->
  Forall (fun step => load_clicked step.2 = false) steps ->
  same_model w (session steps w) /\ wf (session_state (session steps w)) /\
  ready (session_state (session steps w)) = true.
Proof.
  intros Hw Hr Hsteps. revert w Hw Hr.
  induction Hsteps as [|[E wd] steps Hc _ IH]; intros w Hw Hr; [done|].
  simpl in *. destruct (interact_ready E wd w Hw Hr Hc) as (Hs1 & Hw1 & Hr1).
  destruct (IH _ Hw1 Hr1) as (Hs2 & Hw2 & Hr2).
  split; [|done]. eapply same_model_trans; eassumption.
Qed.

Lemma reachable_session (steps : list (@externals Obj * widgets)) w :
  reachable w -> reachable (session steps w).
Proof.
  revert w. induction steps as [|[E wd] steps IH]; intros w Hw; [done|].
  simpl. by apply IH, reachable_interact.
Qed.

(** ** The stored result, as long as "Extract Text" is not pressed *)

Lemma interact_without_extract E wd w :
  extract_clicked wd = false ->
  session_state (final (interact E wd w)) !! "output_text" =
  session_state w !! "output_text".
Proof.
  intros Hc. rewrite interact_run. simpl.
  destruct (script_without_extract E wd w Hc) as [_ H1].
  destruct (out (script E wd w)); try done. simpl.
  by destruct (script_without_extract E (after_rerun wd)
                 (final (script E wd w)) eq_refl) as [_ ->].
Qed.

Lemma session_without_extract (steps : list (@externals Obj * widgets)) w :
  Forall (fun step => extract_clicked step.2 = false) steps ->
  session_state (session steps w) !! "output_text" =
  session_state w !! "output_text".
Proof.
  intros Hsteps. revert w.
  induction Hsteps as [|[E wd] steps Hc _ IH]; intros w; [done|].
  simpl in *. by rewrite IH, interact_without_extract.
Qed.

(** ** A press on "Extract Text" in a ready session *)

Lemma extract_section_pressed E wd w vi vp vc vm fp text :
  extract_clicked wd = true ->
  session_state w !! "current_image" = Some vi ->
  session_state w !! "processor" = Some vp ->
  session_state w !! "config" = Some vc ->
  session_state w !! "model" = Some vm ->
  apply_chat_template E vp vc (ocr_prompt wd) 1 = Returns fp ->
  generate E vm vp fp vi decoding = Returns text ->
  extract_section E wd w =
  {| out := Done tt;
     final := {| session_state :=
                   <["output_text" := VStr text]> (session_state w);
                 files := files w |};
     log := [ St_button "🚀 Extract Text";
              St_spinner "Extracting text from image...";
              Ext_apply_chat_template vp vc (ocr_prompt wd) 1;
              Ext_generate vm vp fp vi decoding ] |}.
Proof.
  intros Hc Hi Hp Hcf Hm Ht Hg. destruct w as [s fs]; simpl in *.
  unfold extract_section, extract_text, call_apply_chat_template,
    call_generate, lift, try_except, bind, emit, ret, raise, assign, attr.
  by run_script.
Qed.

Lemma load_model_section_quiet E wd w :
  is_Some (session_state w !! "model_loaded") ->
  is_Some (session_state w !! "model_name") ->
  load_clicked wd = false ->
  out (load_model_section E wd w) = Done tt.
Proof.
  intros [vl Hl] [vn Hn] Hc. destruct w as [s fs]; simpl in *.
  unfold load_model_section, try_except, bind, emit, ret, raise, assign, attr.
  run_cases; done.
Qed.

(** A run on a ready session in which "Extract Text" is pressed and "Load
    Model" is not goes through the extraction: it ends with the session
    state the extraction leaves, after all its events. *)
Lemma script_extract E wd w :
  wf (session_state w) -> ready (session_state w) = true ->
  load_clicked wd = false ->
  let w1 := final (upload_section E wd (initialised_world w)) in
  let x := extract_section E wd w1 in
  let r := script E wd w in
  session_state (final r) = session_state (final x) /\
  (forall e, In e (log x) -> In e (log r)).
Proof.
  intros Hw Hr Hc. simpl.
  assert (Hinit : initialised_world w = w).
  { apply initialised_world_present. destruct Hw as (Hrd & _).
    by destruct (Hrd Hr) as (? & _). }
  rewrite script_run. simpl. rewrite Hinit.
  pose proof (upload_section_model E wd w) as Hsame.
  pose proof (wf_upload_section E wd w Hw) as Hw1.
  set (w1 := final (upload_section E wd w)) in *.
  assert (Hr1 : ready (session_state w1) = true)
    by (by rewrite <- (same_model_ready _ _ Hsame)).
  destruct Hw1 as (Hrd1 & _).
  destruct (Hrd1 Hr1) as (_ & _ & _ & Hi1 & n & Hn1).
  unfold ready in Hr1.
  destruct (session_state w1 !! "model_loaded") as [vl|] eqn:Hl1; [|done].
  destruct (results_section_cases E wd w1)
    as [(Hi & _)|[(_ & Hout & _)|(_ & Hout & Hfin & ->)]].
  - rewrite Hi in Hi1. by destruct Hi1.
  - destruct Hout. apply load_model_section_quiet; [| |done]; by eexists.
  - simpl. rewrite (ocr_section_ready _ _ _ _ Hl1 Hr1).
    rewrite (ready_section_run _ _ _ _ Hn1). simpl.
    rewrite display_section_final. split; [done|].
    intros e He. apply in_app_iff. right. right. apply in_app_iff. right.
    right. apply in_app_iff. by left.
Qed.

End Scenarios.

(** * The claims *)

Section Claims.
Context {Obj : Type}.
Implicit Types (E : @externals Obj) (wd : widgets) (w : @world Obj).
Implicit Types (s : gmap string (@value Obj)) (fs : gmap string (list byte)).

(** C8.  In every run with an uploaded file, the conversion is attempted on
    the temporary file that holds the uploaded bytes, and that file is
    deleted after the attempt, whatever the conversion does, return page
    images or raise.  The files the run leaves are those the conversion
    left, without the temporary one, as they are after the model loader
    when the run calls it.  The model loader writes to a place of its own:
    as it leaves the path of the temporary file alone, there is no file at
    that path when the run ends. *)
Theorem temporary_pdf_is_removed E wd w data :
  uploaded_file wd = Some data ->
  loader_spares E (tmp_pdf_path E w) ->
  let r := script E wd w in
  let fs1 := delete (tmp_pdf_path E w) (conversion E w data).2 in
  In (Ext_convert_from_path (tmp_pdf_path E w) 200) (log r) /\
  files (final r) =
    (if loads (log r) then load_files E fs1 (model_name wd) else fs1) /\
  files (final r) !! tmp_pdf_path E w = None.
Proof.
  intros Hup Hsp. simpl.
  destruct (upload_section_some E wd (initialised_world w) data Hup)
    as (_ & _ & Hlog).
  pose proof (script_files E wd w) as Hf. simpl in Hf.
  rewrite (files_at_load_some _ _ _ _ Hup) in Hf.
  split; [rewrite script_run; apply in_or_app; by left|].
  split; [done|]. rewrite Hf.
  destruct (loads _); [rewrite load_files_spares by done|];
    apply lookup_delete_eq.
Qed.

(** C6.  When the conversion returns the page images and [image] is the
    one at the index picked in the page selector (the first one by default,
    and the only one of a single-page document), the run shows and stores
    that image under the 1-based page number.  The selector is rendered
    exactly when there is more than one page, and its options are exactly
    the numbers 1..N. *)
Theorem page_selector_serves_selected_page E wd w data images fs' image :
  uploaded_file wd = Some data ->
  conversion E w data = (Returns images, fs') ->
  images !! page_choice wd = Some image ->
  let r := script E wd w in
  let page_num := Z.of_nat (S (page_choice wd)) in
  session_state (final r) !! "current_image" = Some (VObj image) /\
  session_state (final r) !! "page_num" = Some (VInt page_num) /\
  In (St_image image ("Page " +:+ pretty page_num)) (log r) /\
  (forall label options,
     In (St_selectbox label options) (log r) <->
     (1 < length images)%nat /\ label = "Select page to OCR" /\
     options = range 1 (len images + 1)) /\
  (forall p, p ∈ range 1 (len images + 1) <-> 1 <= p <= len images).
Proof.
  intros Hup Hconv Himg. simpl. rewrite script_run. simpl.
  pose proof (results_section_current_image E wd) as Hci.
  pose proof (results_section_page_num E wd) as Hpn.
  pose proof (results_section_no_selectbox E wd) as Hsel.
  unfold keeps, same_attr in Hci, Hpn. unfold emits in Hsel.
  assert (Hrange : forall p,
    p ∈ range 1 (len images + 1) <-> 1 <= p <= len images).
  { intros p. unfold range. rewrite elem_of_seqZ. lia. }
  assert (Hno : forall w1 label options,
    ~ In (St_selectbox label options) (log (results_section E wd w1))).
  { intros w1 label options Hin. specialize (Hsel w1).
    rewrite Forall_forall in Hsel. by specialize (Hsel _ Hin). }
  destruct (decide (1 < length images)%nat) as [Hmany|Hone].
  - rewrite (upload_section_many E wd (initialised_world w) data images fs'
               image Hup Hconv Hmany Himg).
    simpl. rewrite <- Hci, <- Hpn. simpl.
    rewrite lookup_insert_eq, lookup_insert_ne, lookup_insert_eq by done.
    split; [done|]. split; [done|]. split; [auto 10|]. split; [|done].
    intros label options. split.
    + intros [H|[H|[H|[H|[H|[H|H]]]]]]; simplify_eq; [done|].
      by apply Hno in H.
    + intros (_ & -> & ->). auto 10.
  - apply lookup_lt_Some in Himg as Hlt.
    destruct images as [|image0 [|??]]; simpl in *; [lia| |lia].
    assert (page_choice wd = 0%nat) as Hz by lia. rewrite Hz in *.
    simplify_eq/=.
    rewrite (upload_section_one E wd (initialised_world w) data image fs'
               Hup Hconv).
    simpl. rewrite <- Hci, <- Hpn. simpl.
    rewrite lookup_insert_eq, lookup_insert_ne, lookup_insert_eq by done.
    split; [done|]. split; [done|]. split; [auto 10|]. split; [|done].
    intros label options. split.
    + intros [H|[H|[H|[H|[H|H]]]]]; simplify_eq. by apply Hno in H.
    + intros (? & _). lia.
Qed.

(** C3, as amended.  A run in which the selected model is loaded and the
    load fails with a message reports "Failed to load model: <message>",
    asks for no new run, and leaves the model keys of the session as they
    were: nothing of the failed load is kept, a session that was not loaded
    stays not loaded, and a session that was ready stays ready with the
    model it had. *)
Theorem failed_load_changes_no_model E wd w msg :
  let r := script E wd w in
  In (Ext_mlx_load (model_name wd)) (log r) ->
  load_fails E (files_at_load E wd w) (model_name wd) msg -> msg <> "" ->
  In (St_error ("Failed to load model: " +:+ msg)) (log r) /\
  out r <> RerunRequested /\
  same_model (initialised_world w) (final r) /\
  ready (session_state (final r)) = ready (initialised (session_state w)).
Proof.
  intros r Hin Hfail Hmsg. subst r.
  rewrite <- files_at_load_initialised in Hfail.
  apply script_log in Hin as [Hin|Hin]; [done|].
  destruct (results_section_load_failed _ _ _ _ Hin Hfail Hmsg)
    as (Herr & Hout & Hsame).
  assert (Hup : same_model (initialised_world w)
            (final (upload_section E wd (initialised_world w)))).
  { intros key Hkey. symmetry. apply upload_section_attr;
      intros ->; simpl in Hkey; intuition discriminate. }
  assert (Hall : same_model (initialised_world w) (final (script E wd w))).
  { rewrite script_run. simpl. eapply same_model_trans; eassumption. }
  rewrite script_run. simpl. split; [|split; [done|split]].
  - apply in_app_iff. by right.
  - by rewrite script_run in Hall.
  - symmetry. rewrite script_run in Hall. by apply same_model_ready in Hall.
Qed.

(** C4.  After an interaction that loads the selected model, an interaction
    with the same model selected loads nothing: neither [mlx_load] nor
    [load_config] is called, the "Load Model" button is not even offered,
    the model is shown as ready under its name, and the session holds the
    model it held. *)
Theorem second_load_is_idle E1 E2 wd1 wd2 w m p c :
  let r1 := interact E1 wd1 w in
  In (Ext_mlx_load (model_name wd1)) (log r1) ->
  load_succeeds E1 (files_at_load E1 wd1 w) (model_name wd1) m p c ->
  model_name wd2 = model_name wd1 ->
  let r2 := interact E2 wd2 (final r1) in
  Forall (fun e => is_load e = false) (log r2) /\
  ~ In (St_button "🔄 Load Model") (log r2) /\
  In (St_success ("✅ Model ready: " +:+ model_name wd1)) (log r2) /\
  same_model (final r1) (final r2).
Proof.
  intros r1 Hin Hok Hsel r2. subst r1 r2.
  destruct (interact_load_succeeded _ _ _ _ _ _ Hin Hok)
    as (Hm & Hi & Hl & Hn).
  set (w1 := final (interact E1 wd1 w)) in *.
  destruct (script_loaded_model E2 wd2 w1 (VBool true) (model_name wd1))
    as (Hout & Hsame & _ & Hlog & Hshown); try done.
  rewrite interact_run. simpl.
  destruct (out (script E2 wd2 w1)); try done.
  all: rewrite Forall_forall in Hlog; repeat split; try done.
  all: try (apply Forall_forall; intros e He; by apply Hlog in He as [? _]).
  all: intros He; by apply Hlog in He as [_ ?].
Qed.

(** C9.  When the generation call of an interaction returns [text] and the
    session holds the page number [n] at its end, [text] is the stored
    result, as it was returned.  What the interaction renders of the result
    display is then fixed: for a text that is not empty, the subheader, the
    toggle, the text itself in the markdown element or in the text area,
    whichever the toggle selects, and the download button with the same
    text, the file name [ocr_page_<n>.txt] and the type [text/plain]. *)
Theorem extracted_text_is_shown_as_stored E wd w vm vp fp vi opts text n :
  let r := interact E wd w in
  In (Ext_generate vm vp fp vi opts) (log r) ->
  generate E vm vp fp vi opts = Returns text ->
  session_state (final r) !! "page_num" = Some (VInt n) ->
  session_state (final r) !! "output_text" = Some (VStr text) /\
  displayed (log r) =
  if String.eqb text "" then []
  else [ St_subheader ("Extracted Text (Page " +:+ pretty n +:+ ")");
         St_toggle "Render as Markdown";
         (if render_markdown wd then St_markdown (VStr text)
          else St_text_area "OCR Output" (VStr text) 400);
         St_download_button "📥 Download Text" (VStr text)
           ("ocr_page_" +:+ pretty n +:+ ".txt") "text/plain" ].
Proof.
  intros r Hin Hgen Hpage. subst r.
  pose proof (interact_generate_returns _ _ _ _ _ _ _ _ _ Hin Hgen) as Hs.
  assert (Hout : session_state (final (interact E wd w)) !! "output_text" =
                 Some (VStr text)) by (by rewrite Hs, lookup_insert_eq).
  split; [done|].
  pose proof (interact_generate _ _ _ _ _ _ _ _ Hin) as Hrun.
  rewrite Hrun in Hin, Hpage, Hout |- *.
  apply script_generate in Hin as (_ & _ & Hfin & _ & ->).
  rewrite <- Hfin. unfold shown. rewrite Hout, Hpage. simpl.
  by destruct (String.eqb text "").
Qed.

(** C10.  A press on "Extract Text" in a ready session of the script, with
    "Load Model" not pressed: when the prompt formatter returns and the
    generation returns [text] for what the session holds, the generation is
    called, [text] is stored as the result, be it empty, and the result
    display is rendered exactly when [text] is not empty, with [text], the
    page number of the session and the download button.  In every later
    interaction, after any number of interactions without a press on
    "Extract Text", the stored result is still [text] unless a generation
    call of that interaction has returned a new one, and the result display
    is there, with the stored result and the download button, exactly when
    the stored result is not empty. *)
Theorem result_display_follows_stored_text
    E wd w vm vp vc vi n fp text steps E2 wd2 :
  reachable w ->
  ready (session_state w) = true ->
  load_clicked wd = false -> extract_clicked wd = true ->
  let r := interact E wd w in
  let s1 := session_state (final r) in
  s1 !! "model" = Some vm -> s1 !! "processor" = Some vp ->
  s1 !! "config" = Some vc -> s1 !! "current_image" = Some vi ->
  s1 !! "page_num" = Some (VInt n) ->
  apply_chat_template E vp vc (ocr_prompt wd) 1 = Returns fp ->
  generate E vm vp fp vi decoding = Returns text ->
  Forall (fun step => extract_clicked step.2 = false) steps ->
  let r2 := interact E2 wd2 (session steps (final r)) in
  let s2 := session_state (final r2) in
  In (Ext_generate vm vp fp vi decoding) (log r) /\
  s1 !! "output_text" = Some (VStr text) /\
  displayed (log r) =
    (if String.eqb text "" then []
     else result_display E wd (VStr text) (VInt n)) /\
  exists t2 n2,
    s2 !! "output_text" = Some (VStr t2) /\
    s2 !! "page_num" = Some (VInt n2) /\
    displayed (log r2) =
      (if String.eqb t2 "" then []
       else result_display E2 wd2 (VStr t2) (VInt n2)) /\
    (t2 = text \/
     exists vm2 vp2 fp2 vi2,
       In (Ext_generate vm2 vp2 fp2 vi2 decoding) (log r2) /\
       generate E2 vm2 vp2 fp2 vi2 decoding = Returns t2).
Proof.
  intros Hreach Hr Hl Hx r s1 Hm Hp Hc Hi Hn Ht Hg Hsteps r2 s2.
  subst r s1 r2 s2.
  apply reachable_wf in Hreach as Hw.
  assert (Hreach1 : reachable (final (interact E wd w)))
    by (by apply reachable_interact).
  pose proof (interact_displayed E wd w Hw) as Hd.
  rewrite (interact_single _ _ _ Hl) in *.
  destruct (script_extract E wd w Hw Hr Hl) as [Hfin Hlog].
  rewrite Hfin in Hm, Hp, Hc, Hi, Hn, Hd |- *.
  rewrite extract_section_keeps in Hm by done.
  rewrite extract_section_keeps in Hp by done.
  rewrite extract_section_keeps in Hc by done.
  rewrite extract_section_keeps in Hi by done.
  rewrite extract_section_keeps in Hn by done.
  pose proof (extract_section_pressed E wd _ vi vp vc vm fp text
                Hx Hi Hp Hc Hm Ht Hg) as Hrun.
  rewrite Hrun in Hlog, Hd |- *. simpl in Hlog, Hd |- *.
  assert (Hshown : forall E' wd' s' t n',
    s' !! "output_text" = Some (VStr t) ->
    s' !! "page_num" = Some (VInt n') ->
    shown E' wd' s' =
    if String.eqb t "" then [] else result_display E' wd' (VStr t) (VInt n')).
  { intros E' wd' s' t n' Ht' Hn'. unfold shown. rewrite Ht', Hn'. simpl.
    by destruct (String.eqb t ""). }
  split; [apply Hlog; auto 10|]. split; [by rewrite lookup_insert_eq|].
  split.
  { rewrite Hd. apply Hshown; [by rewrite lookup_insert_eq|].
    by rewrite lookup_insert_ne. }
  set (w2 := session steps (final (script E wd w))).
  assert (Hreach2 : reachable w2) by (by apply reachable_session).
  apply reachable_wf in Hreach2 as Hw2.
  assert (Ht2 : session_state w2 !! "output_text" = Some (VStr text)).
  { unfold w2. rewrite session_without_extract by done.
    by rewrite Hfin, Hrun; simpl; rewrite lookup_insert_eq. }
  pose proof (wf_interact E2 wd2 w2 Hw2) as (Hrd' & Hpg' & Htx').
  rewrite (interact_displayed E2 wd2 w2 Hw2).
  destruct (interact_stored E2 wd2 w2)
    as [Hsame|(vm2 & vp2 & fp2 & vi2 & t2 & Hin2 & Hg2 & Hs2)].
  - rewrite Ht2 in Hsame. destruct (Htx' _ Hsame) as (Hr' & _).
    destruct (Hrd' Hr') as (_ & _ & _ & Hi' & _).
    destruct (Hpg' Hi') as [n2 Hn2]. exists text, n2.
    split; [done|]. split; [done|]. split; [by apply Hshown|by left].
  - destruct (Htx' _ Hs2) as (Hr' & _).
    destruct (Hrd' Hr') as (_ & _ & _ & Hi' & _).
    destruct (Hpg' Hi') as [n2 Hn2]. exists t2, n2.
    split; [done|]. split; [done|]. split; [by apply Hshown|].
    right. by exists vm2, vp2, fp2, vi2.
Qed.

(** C1, as amended.  After an interaction that loads the selected model,
    the session is ready and holds the handle the load returned, recorded
    under the identifier that was selected then.  It stays so through every
    later interaction in which "Load Model" is not pressed, whichever model
    is selected: the session holds the same model, processor, configuration
    and name and never goes back to not ready; the model is shown as ready
    under the name it was loaded with; "Extract Text" is offered and every
    generation call runs on the loaded model and processor; nothing is
    loaded; and "Load Model" is offered exactly when the selected model is
    not the loaded one. *)
Theorem ready_session_keeps_loaded_model E0 wd0 w0 m p c steps E wd :
  reachable w0 ->
  let r0 := interact E0 wd0 w0 in
  In (Ext_mlx_load (model_name wd0)) (log r0) ->
  load_succeeds E0 (files_at_load E0 wd0 w0) (model_name wd0) m p c ->
  Forall (fun step => load_clicked step.2 = false) steps ->
  load_clicked wd = false ->
  let w := session steps (final r0) in
  let r := interact E wd w in
  let n := model_name wd0 in
  ready (session_state w) = true /\
  session_state w !! "model" = Some (VObj m) /\
  session_state w !! "processor" = Some (VObj p) /\
  session_state w !! "config" = Some (VObj c) /\
  session_state w !! "model_name" = Some (VStr n) /\
  same_model w (final r) /\
  ready (session_state (final r)) = true /\
  In (St_success ("✅ Model ready: " +:+ n)) (log r) /\
  In (St_button "🚀 Extract Text") (log r) /\
  (In (St_button "🔄 Load Model") (log r) <-> model_name wd <> n) /\
  Forall (fun e => match e with
                   | Ext_generate vm vp _ _ _ => vm = VObj m /\ vp = VObj p
                   | Ext_mlx_load _ | Ext_load_config _ => False
                   | _ => True
                   end) (log r).
Proof.
  intros Hreach r0 Hin Hok Hsteps Hc w r n. subst r0 w r n.
  destruct (interact_loaded _ _ _ _ _ _ Hin Hok)
    as (Hm & Hp & Hcf & Hl & Hn & _).
  set (w1 := final (interact E0 wd0 w0)) in *.
  assert (Hw1 : wf (session_state w1))
    by (by apply reachable_wf, reachable_interact).
  assert (Hr1 : ready (session_state w1) = true)
    by (unfold ready; by rewrite Hl).
  destruct (session_ready steps w1 Hw1 Hr1 Hsteps) as (Hsame & Hw & Hr).
  set (w := session steps w1) in *.
  rewrite (Hsame "model") in Hm by (simpl; auto).
  rewrite (Hsame "processor") in Hp by (simpl; auto).
  rewrite (Hsame "config") in Hcf by (simpl; auto).
  rewrite (Hsame "model_name") in Hn by (simpl; auto 10).
  rewrite (interact_single _ _ _ Hc).
  destruct (script_ready E wd w (VObj m) (VObj p) (model_name wd0)
              Hw Hr Hm Hp Hn Hc) as (Hkeep & Hshow & Hbutton & Hload & Hgen).
  pose proof (script_without_load E wd w Hc) as Hno.
  repeat split; try done; try apply Hload.
  - by rewrite <- (same_model_ready _ _ Hkeep).
  - rewrite Forall_forall in Hgen, Hno |- *. intros e He.
    specialize (Hgen e He). specialize (Hno e He). by destruct e.
Qed.

(** C2, as amended.  When a session the script has produced holds a result
    that is not empty and the user only selects a page, the result is kept
    as it is: the interaction stores the number of the selected page, the
    stored text is the one before, and the result display is rendered with
    that text under the new page number. *)
Theorem page_change_keeps_result E wd w data images fs' image t :
  reachable w ->
  session_state w !! "output_text" = Some (VStr t) -> t <> "" ->
  uploaded_file wd = Some data ->
  conversion E w data = (Returns images, fs') ->
  images !! page_choice wd = Some image ->
  load_clicked wd = false -> extract_clicked wd = false ->
  let r := interact E wd w in
  let page_num := Z.of_nat (S (page_choice wd)) in
  session_state (final r) !! "page_num" = Some (VInt page_num) /\
  session_state (final r) !! "output_text" = Some (VStr t) /\
  displayed (log r) = result_display E wd (VStr t) (VInt page_num).
Proof.
  intros Hreach Ht Hne Hup Hconv Himg Hl Hx r page_num. subst r page_num.
  apply reachable_wf in Hreach as Hw.
  rewrite (interact_displayed E wd w Hw).
  rewrite (interact_single _ _ _ Hl).
  pose proof (script_page_num _ _ _ _ _ _ _ Hup Hconv Himg) as Hpage.
  destruct (script_without_extract E wd w Hx) as [_ Hsame].
  rewrite Ht in Hsame. split; [done|]. split; [done|].
  unfold shown. rewrite Hsame, Hpage. simpl.
  by destruct (String.eqb_spec t "").
Qed.

End Claims.

(** * Further properties of the script *)

(** ** The sidebar *)

Section Sidebar.

Lemma split_nonempty sep s : split sep s <> [].
Proof. destruct s as [|c s]; simpl; [done|]. repeat case_match; done. Qed.

Lemma split_free sep s : free_of sep s = true -> split sep s = [s].
Proof.
  induction s as [|c s IH]; simpl; [done|].
  intros [Hc Hs]%andb_true_iff. apply negb_true_iff in Hc. rewrite Hc.
  by rewrite IH.
Qed.

Lemma split_app sep p s :
  split sep (p +:+ String sep s) = (split sep p ++ split sep s)%list.
Proof.
  induction p as [|c p IH]; simpl.
  - by rewrite Ascii.eqb_refl.
  - rewrite IH. destruct (Ascii.eqb c sep); [done|].
    destruct (split sep p) eqn:Hp; [by apply split_nonempty in Hp|done].
Qed.

Lemma last_app_nonempty (l1 l2 : list string) d :
  l2 <> [] -> List.last (l1 ++ l2) d = List.last l2 d.
Proof.
  intros Hl2. induction l1 as [|x l1 IH]; [done|].
  simpl. rewrite IH. destruct (l1 ++ l2)%list eqn:Happ; [|done].
  by apply app_eq_nil in Happ as [_ ?].
Qed.

Lemma in_str_tail sub c s : in_str sub s = true -> in_str sub (String c s) = true.
Proof. intros H. simpl. rewrite H. apply orb_true_r. Qed.

Lemma in_str_starts sub s : starts_with sub s = true -> in_str sub s = true.
Proof. intros H. destruct s; cbn [in_str]; by rewrite H. Qed.

Lemma starts_with_cons a sub c s :
  starts_with (String a sub) (String c s) =
  Ascii.eqb a c && starts_with sub s.
Proof. done. Qed.

(** A name that contains "32B" contains "2B". *)
Lemma in_str_32B s : in_str "32B" s = true -> in_str "2B" s = true.
Proof.
  induction s as [|c s IH]; [done|].
  cbn [in_str]. intros [Hp|Hs]%orb_true_iff.
  - apply in_str_tail, in_str_starts.
    rewrite starts_with_cons in Hp. by apply andb_true_iff in Hp as [_ Hp].
  - apply in_str_tail. by apply IH.
Qed.

(** X1.  A model name that contains "32B" and "4bit" gets the caption of
    the 2B model: the test for "2B" of line 55 holds for it, since "32B"
    contains "2B", and comes first.  The branch of line 63 is never
    taken. *)
Theorem caption_of_32B_model name :
  in_str "32B" name = true -> in_str "4bit" name = true ->
  download_caption name = Some "📦 ~0.7GB download".
Proof.
  intros H32 H4. unfold download_caption.
  by rewrite (in_str_32B _ H32), H4.
Qed.

(** X2.  The names are split at the slash as the sidebar needs them: for a
    model identifier made of a provider and a model name, neither with a
    slash, the provider is the first piece and the displayed name is the
    model name. *)
Theorem provider_and_displayed_name p m :
  free_of "/" p = true -> free_of "/" m = true ->
  hd "" (split "/" (p +:+ "/" +:+ m)) = p /\
  format_func (p +:+ "/" +:+ m) = m.
Proof.
  intros Hp Hm. unfold format_func.
  change (p +:+ "/" +:+ m) with (p +:+ String "/" m).
  rewrite split_app, (split_free _ _ Hp), (split_free _ _ Hm). done.
Qed.

Lemma model_name_available wd : In (model_name wd) available_models.
Proof.
  unfold model_name, selectbox_value.
  destruct (available_models !! model_choice wd) as [name|] eqn:Hn.
  - apply list_elem_of_In. by eapply list_elem_of_lookup_2.
  - by left.
Qed.

(** X3.  Whatever option of the model selector is picked, the selected
    identifier is one of the available models, the sidebar shows a caption
    with a download size for it, and the provider shown in the label of
    the selector, taken from the first model, followed by a slash and the
    name the option is displayed under, is the identifier itself. *)
Theorem selected_model_has_caption wd :
  In (model_name wd) available_models /\
  is_Some (download_caption (model_name wd)) /\
  model_name wd = model_provider +:+ "/" +:+ format_func (model_name wd).
Proof.
  pose proof (model_name_available wd) as Hin. split; [done|].
  simpl in Hin.
  by destruct Hin as [<-|[<-|[<-|[<-|[<-|[]]]]]].
Qed.

End Sidebar.

(** ** The session and its runs *)

Section Further.
Context {Obj : Type}.
Implicit Types (E : @externals Obj) (wd : widgets) (w : @world Obj).
Implicit Types (s : gmap string (@value Obj)) (fs : gmap string (list byte)).

(** X4.  Every call that loads a model, in whatever session and whatever
    is pressed, is made on the model selected in the sidebar, one of the
    available models. *)
Theorem load_calls_use_selected_model E wd w :
  Forall (fun e => match e with
                   | Ext_mlx_load n | Ext_load_config n =>
                       n = model_name wd /\ In n available_models
                   | _ => True
                   end) (log (interact E wd w)).
Proof.
  assert (Hrun : forall wd' w', model_name wd' = model_name wd ->
    Forall (fun e => match e with
                     | Ext_mlx_load n | Ext_load_config n =>
                         n = model_name wd /\ In n available_models
                     | _ => True
                     end) (log (script E wd' w'))).
  { intros wd' w' Heq. eapply Forall_impl; [|apply script_selected].
    intros [] He; try done; subst; rewrite Heq;
      (split; [done|apply model_name_available]). }
  rewrite interact_run. simpl.
  pose proof (Hrun wd w eq_refl) as H1.
  destruct (out (script E wd w)); try done. simpl.
  apply Forall_app. split; [done|]. by apply Hrun.
Qed.

(** X5.  Every session the script produces keeps the following: a ready
    session holds a model, a processor and a configuration under the name
    of a model, next to a page image; a page image comes with its page
    number; a stored result is a text and is only found in a ready
    session; and the flag and the name of lines 88-89 are there whenever
    the model key is. *)
Theorem session_invariant w :
  reachable w ->
  wf (session_state w) /\ has_defaults (session_state w).
Proof.
  intros Hw. split; [by apply reachable_wf|by apply reachable_has_defaults].
Qed.

(** X6.  No interaction with a session the script has produced ends in an
    exception, whatever the collaborators do: every exception they raise is
    handled, and every attribute of the session state the script reads is
    there. *)
Theorem interaction_ends_normally E wd w :
  reachable w -> out (interact E wd w) = Done tt.
Proof.
  intros Hw. apply interact_ends;
    [by apply reachable_wf|by apply reachable_has_defaults].
Qed.

(** X7.  No interaction removes a key from the session state: what a run
    has stored stays until it is overwritten. *)
Theorem session_keys_are_kept E wd w :
  grows (session_state w) (session_state (final (interact E wd w))).
Proof.
  assert (Hrun : forall wd' w',
    grows (session_state w') (session_state (final (script E wd' w')))).
  { intros wd' w'. eapply grows_trans; [apply grows_initialised|].
    apply grows_script. }
  rewrite interact_run. simpl. pose proof (Hrun wd w) as H1.
  destruct (out (script E wd w)); try done. simpl.
  eapply grows_trans; [exact H1|apply Hrun].
Qed.

(** X8.  A run without an uploaded file converts nothing and shows no
    page: the page image and the page number of the session, if any, are
    the ones before, so a page uploaded earlier stays the current one
    after the file is taken away.  The files are the ones before as well,
    unless the run calls the model loader: then they are what the loader
    made of them. *)
Theorem run_without_file_keeps_page E wd w :
  uploaded_file wd = None ->
  let r := script E wd w in
  session_state (final r) !! "current_image" =
    session_state w !! "current_image" /\
  session_state (final r) !! "page_num" = session_state w !! "page_num" /\
  files (final r) =
    (if loads (log r) then load_files E (files w) (model_name wd)
     else files w) /\
  Forall (fun e => match e with
                   | Ext_convert_from_path _ _ | St_image _ _
                   | St_selectbox _ _ => False
                   | _ => True
                   end) (log r).
Proof.
  intros Hup r. subst r.
  destruct (script_page_kept E wd w) as [Hi Hp].
  { by rewrite upload_section_none. }
  split; [done|]. split; [done|]. split.
  - pose proof (script_files E wd w) as Hf. simpl in Hf.
    by rewrite (files_at_load_none _ _ _ Hup) in Hf.
  - rewrite script_run. simpl. rewrite upload_section_none by done. simpl.
    constructor; [done|]. apply results_section_no_page.
Qed.

(** X9.  When the conversion of the uploaded file raises, the run reports
    "Error processing PDF: <message>", whatever the message, shows no page
    and goes on to the results section: the page image and the page number
    of the session are the ones before, and the temporary file is deleted
    from the files the conversion left, before the model loader, if the
    run calls it, gets them. *)
Theorem failed_conversion_is_reported E wd w data msg fs' :
  uploaded_file wd = Some data ->
  conversion E w data = (Raises msg, fs') ->
  let r := script E wd w in
  In (St_error ("Error processing PDF: " +:+ msg)) (log r) /\
  In (St_header "📝 OCR Results") (log r) /\
  session_state (final r) !! "current_image" =
    session_state w !! "current_image" /\
  session_state (final r) !! "page_num" = session_state w !! "page_num" /\
  files (final r) =
    (if loads (log r)
     then load_files E (delete (tmp_pdf_path E w) fs') (model_name wd)
     else delete (tmp_pdf_path E w) fs') /\
  Forall (fun e => match e with
                   | St_image _ _ | St_selectbox _ _ => False
                   | _ => True
                   end) (log r).
Proof.
  intros Hup Hconv r. subst r.
  pose proof (script_files E wd w) as Hfiles. simpl in Hfiles.
  rewrite (files_at_load_some _ _ _ _ Hup), Hconv in Hfiles.
  simpl in Hfiles.
  pose proof (upload_section_failure E wd (initialised_world w) data msg fs'
                Hup Hconv) as Hu.
  destruct (script_page_kept E wd w) as [Hi Hp]; [by rewrite Hu|].
  rewrite script_run. simpl. rewrite Hu. simpl.
  set (w1 := {| session_state := initialised (session_state w);
                files := delete (tmp_pdf_path E (initialised_world w)) fs' |}).
  pose proof (results_section_no_page E wd w1) as Hno.
  rewrite script_run in Hi, Hp. simpl in Hi, Hp. rewrite Hu in Hi, Hp.
  simpl in Hi, Hp. fold w1 in Hi, Hp.
  split; [auto 10|]. split.
  { do 4 right. unfold results_section. rewrite bind_run. simpl. by left. }
  split; [done|]. split; [done|]. split.
  - rewrite script_run in Hfiles. simpl in Hfiles. rewrite Hu in Hfiles.
    exact Hfiles.
  - repeat (constructor; [done|]).
    eapply Forall_impl; [|exact Hno]. by intros [] He.
Qed.

(** X10.  A document that converts to no page at all is first announced
    as loaded, with 0 pages, and then reported as "Error processing PDF:
    list index out of range": page 1 is looked up in the empty list.  The
    page image and the page number of the session are the ones before. *)
Theorem document_without_pages E wd w data fs' :
  uploaded_file wd = Some data ->
  conversion E w data = (Returns [], fs') ->
  let r := script E wd w in
  In (St_success "✅ PDF loaded successfully! Found 0 page(s)") (log r) /\
  In (St_error "Error processing PDF: list index out of range") (log r) /\
  session_state (final r) !! "current_image" =
    session_state w !! "current_image" /\
  session_state (final r) !! "page_num" = session_state w !! "page_num".
Proof.
  intros Hup Hconv r. subst r.
  pose proof (upload_section_empty E wd (initialised_world w) data fs'
                Hup Hconv) as Hu.
  destruct (script_page_kept E wd w) as [Hi Hp]; [by rewrite Hu|].
  split; [|split; [|done]]; rewrite script_run; simpl; rewrite Hu; simpl;
    auto 10.
Qed.

(** X11.  When the generation call of an interaction raises, the
    interaction reports "Error during OCR: <message>", whatever the
    message, and shows the exception.  The session state is the one the
    upload section left: the stored result is the one before and is
    displayed as before, and the model is the one before. *)
Theorem failed_generation_is_reported E wd w vm vp fp vi opts msg :
  let r := interact E wd w in
  In (Ext_generate vm vp fp vi opts) (log r) ->
  generate E vm vp fp vi opts = Raises msg ->
  In (St_error ("Error during OCR: " +:+ msg)) (log r) /\
  In (St_exception msg) (log r) /\
  session_state (final r) !! "output_text" =
    session_state w !! "output_text" /\
  same_model (initialised_world w) (final r) /\
  displayed (log r) = shown E wd (session_state (final r)).
Proof.
  intros r Hin Hgen. subst r.
  pose proof (interact_generate _ _ _ _ _ _ _ _ Hin) as Hrun.
  rewrite Hrun in Hin |- *.
  destruct (script_generate_log _ _ _ _ _ _ _ _ Hin) as [pre Hlog].
  apply script_generate in Hin as (Hx & _ & Hfin & _ & Hd).
  apply extract_section_generate in Hx as (_ & _ & _ & _ & _ & Hraise).
  destruct (Hraise _ Hgen) as (Hsame & Herr & Hexc).
  rewrite Hd, Hfin, Hsame, Hlog.
  split; [|split].
  - apply in_app_iff. right. apply in_app_iff. by left.
  - apply in_app_iff. right. apply in_app_iff. by left.
  - split; [apply upload_section_output_text|].
    split; [|done]. intros key Hkey. rewrite Hfin, Hsame.
    by apply upload_section_model.
Qed.

(** X12.  Every generation call of an interaction is made on what the
    session holds at its end: the model, the processor and the page image,
    with at most 2048 new tokens, temperature 0.1 and no verbose output.
    Its prompt is the one the chat template returned for the processor and
    the configuration of the session, the prompt of the sidebar and one
    image. *)
Theorem generation_inputs E wd w vm vp fp vi opts :
  let r := interact E wd w in
  let s' := session_state (final r) in
  In (Ext_generate vm vp fp vi opts) (log r) ->
  s' !! "model" = Some vm /\ s' !! "processor" = Some vp /\
  s' !! "current_image" = Some vi /\
  opts = {| max_tokens := 2048; temperature := (1 # 10)%Q;
            verbose := false |} /\
  exists vc,
    s' !! "config" = Some vc /\
    In (Ext_apply_chat_template vp vc (ocr_prompt wd) 1) (log r) /\
    apply_chat_template E vp vc (ocr_prompt wd) 1 = Returns fp.
Proof.
  intros r s' Hin. subst r s'.
  pose proof (interact_generate _ _ _ _ _ _ _ _ Hin) as Hrun.
  rewrite Hrun in Hin |- *.
  destruct (script_generate_log _ _ _ _ _ _ _ _ Hin) as [pre Hlog].
  apply script_generate in Hin as (Hx & _ & Hfin & _).
  destruct (extract_section_inputs _ _ _ _ _ _ _ _ Hx) as (vc & Hc & Ht & Hf).
  apply extract_section_generate in Hx as (Hm & Hp & Hi & Ho & _).
  rewrite Hfin, Hlog, !extract_section_keeps by done.
  repeat split; try done. exists vc. repeat split; try done.
  apply in_app_iff. right. apply in_app_iff. by left.
Qed.

(** X13.  After an interaction that loads the selected model, the session
    holds what the two calls returned, under the name of the selected
    model, and is ready, whatever it held before; the stored result is the
    one before.  The interaction announces the load, starts the script
    again, shows the model as ready and runs no inference. *)
Theorem successful_load_records_handle E wd w m p c :
  let r := interact E wd w in
  let s' := session_state (final r) in
  In (Ext_mlx_load (model_name wd)) (log r) ->
  load_succeeds E (files_at_load E wd w) (model_name wd) m p c ->
  s' !! "model" = Some (VObj m) /\ s' !! "processor" = Some (VObj p) /\
  s' !! "config" = Some (VObj c) /\
  s' !! "model_loaded" = Some (VBool true) /\
  s' !! "model_name" = Some (VStr (model_name wd)) /\
  s' !! "output_text" = session_state w !! "output_text" /\
  out (script E wd w) = RerunRequested /\
  In (St_success "✅ Model loaded successfully!") (log r) /\
  In (St_success ("✅ Model ready: " +:+ model_name wd)) (log r) /\
  Forall (fun e => is_inference e = false) (log r).
Proof. apply interact_loaded. Qed.

(** X14.  When the temporary file gets a name that is not in use and the
    conversion leaves the files alone, the upload of a run leaves the files
    as it found them: the temporary file is the only one it creates, and
    it removes it.  At the end of the run the files are those of its
    start, or, when the run calls the model loader, what the loader made
    of those. *)
Theorem run_restores_files E wd w data :
  uploaded_file wd = Some data ->
  files w !! tmp_pdf_path E w = None ->
  (conversion E w data).2 = <[tmp_pdf_path E w := data]> (files w) ->
  let r := script E wd w in
  files (final r) =
  if loads (log r) then load_files E (files w) (model_name wd) else files w.
Proof.
  intros Hup Hfresh Hconv. simpl.
  pose proof (script_files E wd w) as Hf. simpl in Hf.
  by rewrite (files_at_load_some _ _ _ _ Hup), Hconv, delete_insert_id in Hf.
Qed.

(** X16.  Every interaction with a session the script has produced tells
    the user where the session stands at its end, going by the page image
    and the flag [model_loaded]: without a page image it asks for a
    document; with a page image and the flag not set it asks to load a
    model and offers the "Load Model" button; with a page image and the
    flag set it shows "Model ready" with the name stored in the session.
    The flag is what counts, not the model: after a load that raised
    without a message the flag is set next to [None] as the model, and the
    model is shown as ready all the same. *)
Theorem status_follows_session E wd w :
  reachable w ->
  let r := interact E wd w in
  status_line (session_state (final r)) (log r).
Proof.
  intros Hreach r. subst r.
  apply reachable_wf in Hreach as Hw.
  apply reachable_has_defaults in Hreach as Hs.
  rewrite interact_run. simpl.
  destruct (script_status E wd w Hw Hs)
    as [(Hout & Hi & Hm & Hl & Hn)|[Hout Hst]]; rewrite Hout; [|done].
  simpl. apply status_line_later.
  destruct (script_loaded_model E (after_rerun wd) (final (script E wd w))
              (VBool true) (model_name wd))
    as (_ & Hsame & [vi Hi'] & _ & Hready); try done.
  unfold status_line. rewrite Hi'.
  rewrite <- (same_model_ready _ _ Hsame). unfold ready. rewrite Hl. simpl.
  exists (model_name wd). split; [|done].
  rewrite <- Hn. symmetry. apply Hsame. simpl. auto 10.
Qed.

(** X17.  In a session in which the flag [model_loaded] of line 175 is
    not set, no interaction reaches the prompt formatter or the generation
    call, whatever is pressed, not even one that loads a model on the way:
    the run that the interaction triggers does not render the "Extract
    Text" button, and the stored result is the one before. *)
Theorem extract_needs_loaded_flag E wd w :
  ready (session_state w) = false ->
  let r := interact E wd w in
  Forall (fun e => is_inference e = false) (log r) /\
  session_state (final r) !! "output_text" = session_state w !! "output_text" /\
  ~ In (St_button "🚀 Extract Text") (log (script E wd w)).
Proof.
  intros Hr. simpl.
  set (w1 := final (upload_section E wd (initialised_world w))).
  assert (Hw1 : ready (session_state w1) = false).
  { unfold ready, w1. rewrite upload_section_attr by done.
    by apply ready_initialised. }
  assert (Ht1 : session_state w1 !! "output_text" =
                session_state w !! "output_text").
  { unfold w1. rewrite upload_section_attr by done. simpl.
    by apply initialised_attr. }
  destruct (results_section_not_ready E wd w1 Hw1) as [Hlog Hfin].
  assert (Hrun : forall e, In e (log (script E wd w)) ->
            is_inference e = false /\ e <> St_button "🚀 Extract Text").
  { intros e [He|He]%script_log; [by destruct e|].
    rewrite Forall_forall in Hlog. by apply Hlog. }
  assert (Hout : session_state (final (script E wd w)) !! "output_text" =
                 session_state w !! "output_text").
  { rewrite script_run. simpl. fold w1. by rewrite Hfin. }
  split; [|split].
  - rewrite interact_run. simpl.
    assert (Forall (fun e => is_inference e = false) (log (script E wd w))).
    { apply Forall_forall. intros e He. by apply Hrun. }
    destruct (out (script E wd w)); [done|done|]. simpl.
    apply Forall_app. split; [done|].
    by apply script_without_extract.
  - rewrite interact_run. simpl.
    destruct (out (script E wd w)); [done|done|]. simpl.
    destruct (script_without_extract E (after_rerun wd)
                (final (script E wd w)) eq_refl) as [_ ->]. done.
  - intros Hin. by apply Hrun in Hin as [_ ?].
Qed.

End Further.

(** * The statements at work on the session of the example *)

(** C3, as stated, fails: a ready session stays ready when the load of
    another model fails. *)
Lemma failed_load_leaves_ready_session :
  ~ (forall (E : @externals string) wd w msg,
       In (Ext_mlx_load (model_name wd)) (log (script E wd w)) ->
       load_fails E (files_at_load E wd w) (model_name wd) msg ->
       ready (session_state (final (script E wd w))) = false).
Proof.
  intros H.
  assert (Hin : In (Ext_mlx_load (model_name (demo_widgets 1 1 true false)))
            (log (script demo_world (demo_widgets 1 1 true false)
                    with_model))) by (vm_compute; auto 20).
  assert (Hfail : load_fails demo_world
            (files_at_load demo_world (demo_widgets 1 1 true false)
               with_model)
            (model_name (demo_widgets 1 1 true false))
            "Repository Not Found") by (left; vm_compute; reflexivity).
  specialize (H _ _ _ _ Hin Hfail). vm_compute in H. discriminate H.
Qed.

Lemma failed_load_changes_no_model_witness :
  let E := demo_world in
  let wd := demo_widgets 1 1 true false in
  let w := with_model in
  let msg := "Repository Not Found" in
  let r := script E wd w in
  (In (Ext_mlx_load (model_name wd)) (log r) /\
   load_fails E (files_at_load E wd w) (model_name wd) msg /\ msg <> "") /\
  In (St_error ("Failed to load model: " +:+ msg)) (log r) /\
  out r <> RerunRequested /\
  same_model (initialised_world w) (final r) /\
  ready (session_state (final r)) = ready (initialised (session_state w)).
Proof.
  intros E wd w msg r.
  assert (Hin : In (Ext_mlx_load (model_name wd)) (log r))
    by (vm_compute; auto 20).
  assert (Hfail : load_fails E (files_at_load E wd w) (model_name wd) msg)
    by (left; vm_compute; reflexivity).
  assert (Hmsg : msg <> "") by (subst msg; discriminate).
  exact (conj (conj Hin (conj Hfail Hmsg))
           (failed_load_changes_no_model E wd w msg Hin Hfail Hmsg)).
Defined.

(** The sessions of the example are sessions of the script. *)
Lemma reachable_with_document : reachable with_document.
Proof. apply reachable_interact, (reachable_start ∅). Qed.

Lemma reachable_with_model : reachable with_model.
Proof. apply reachable_interact, reachable_with_document. Qed.

Lemma reachable_with_result : reachable with_result.
Proof. apply reachable_interact, reachable_with_model. Qed.

(** C1, as stated, fails: with the first model loaded and the second one
    selected, the session stays ready, and a press on "Extract Text" runs
    the generation on the model that is loaded. *)
Lemma ready_session_runs_unselected_model :
  ~ (forall (E : @externals string) wd w,
       reachable w ->
       ready (session_state w) = true ->
       session_state w !! "model_name" <> Some (VStr (model_name wd)) ->
       ready (session_state (final (interact E wd w))) = false /\
       Forall (fun e => is_inference e = false) (log (interact E wd w))).
Proof.
  intros H.
  assert (Hr : ready (session_state with_model) = true)
    by (vm_compute; reflexivity).
  assert (Hn : session_state with_model !! "model_name" <>
               Some (VStr (model_name (demo_widgets 1 1 false true))))
    by (vm_compute; discriminate).
  destruct (H demo_world (demo_widgets 1 1 false true) with_model
              reachable_with_model Hr Hn) as [Hready _].
  vm_compute in Hready. discriminate Hready.
Qed.

Lemma ready_session_keeps_loaded_model_witness :
  let E0 := demo_world in
  let wd0 := demo_widgets 0 1 true false in
  let w0 := with_document in
  let m := "weights of " +:+ model_name wd0 in
  let p := "processor of " +:+ model_name wd0 in
  let c := "config of " +:+ model_name wd0 in
  let steps := [(demo_world, demo_widgets 1 2 false false)] in
  let E := demo_world in
  let wd := demo_widgets 1 1 false true in
  let r0 := interact E0 wd0 w0 in
  let w := session steps (final r0) in
  let r := interact E wd w in
  let n := model_name wd0 in
  (reachable w0 /\
   In (Ext_mlx_load (model_name wd0)) (log r0) /\
   load_succeeds E0 (files_at_load E0 wd0 w0) (model_name wd0) m p c /\
   Forall (fun step => load_clicked step.2 = false) steps /\
   load_clicked wd = false) /\
  ready (session_state w) = true /\
  session_state w !! "model" = Some (VObj m) /\
  session_state w !! "processor" = Some (VObj p) /\
  session_state w !! "config" = Some (VObj c) /\
  session_state w !! "model_name" = Some (VStr n) /\
  same_model w (final r) /\
  ready (session_state (final r)) = true /\
  In (St_success ("✅ Model ready: " +:+ n)) (log r) /\
  In (St_button "🚀 Extract Text") (log r) /\
  (In (St_button "🔄 Load Model") (log r) <-> model_name wd <> n) /\
  Forall (fun e => match e with
                   | Ext_generate vm vp _ _ _ => vm = VObj m /\ vp = VObj p
                   | Ext_mlx_load _ | Ext_load_config _ => False
                   | _ => True
                   end) (log r).
Proof.
  intros E0 wd0 w0 m p c steps E wd r0 w r n.
  assert (Hin : In (Ext_mlx_load (model_name wd0)) (log r0))
    by (vm_compute; auto 20).
  assert (Hok : load_succeeds E0 (files_at_load E0 wd0 w0) (model_name wd0)
                  m p c) by (split; vm_compute; reflexivity).
  assert (Hsteps : Forall (fun step : @externals string * widgets =>
                             load_clicked step.2 = false) steps)
    by (repeat constructor).
  exact (conj (conj reachable_with_document
                 (conj Hin (conj Hok (conj Hsteps eq_refl))))
           (ready_session_keeps_loaded_model E0 wd0 w0 m p c steps E wd
              reachable_with_document Hin Hok Hsteps eq_refl)).
Defined.

(** C2, as stated, fails: with the text of page 2 stored, selecting page 3
    leaves the result display in place. *)
Lemma page_change_shows_stored_result :
  ~ (forall (E : @externals string) wd w t,
       reachable w ->
       session_state w !! "output_text" = Some (VStr t) ->
       extract_clicked wd = false ->
       session_state (final (interact E wd w)) !! "page_num" <>
         session_state w !! "page_num" ->
       displayed (log (interact E wd w)) = []).
Proof.
  intros H.
  assert (Ht : session_state with_result !! "output_text" =
               Some (VStr "# Invoice")) by (vm_compute; reflexivity).
  assert (Hp : session_state
                 (final (interact demo_world (demo_widgets 0 2 false false)
                           with_result)) !! "page_num" <>
               session_state with_result !! "page_num")
    by (vm_compute; discriminate).
  pose proof (H demo_world (demo_widgets 0 2 false false) with_result
                "# Invoice" reachable_with_result Ht eq_refl Hp) as Hd.
  vm_compute in Hd. discriminate Hd.
Qed.

Lemma page_change_keeps_result_witness :
  let E := demo_world in
  let wd := demo_widgets 0 2 false false in
  let w := with_result in
  let t := "# Invoice" in
  let r := interact E wd w in
  let page_num := Z.of_nat (S (page_choice wd)) in
  (reachable w /\ session_state w !! "output_text" = Some (VStr t) /\
   t <> "" /\ uploaded_file wd = Some demo_pdf /\
   conversion E w demo_pdf = (Returns demo_pages, (conversion E w demo_pdf).2) /\
   demo_pages !! page_choice wd = Some "page three" /\
   load_clicked wd = false /\ extract_clicked wd = false) /\
  session_state (final r) !! "page_num" = Some (VInt page_num) /\
  session_state (final r) !! "output_text" = Some (VStr t) /\
  displayed (log r) = result_display E wd (VStr t) (VInt page_num).
Proof.
  intros E wd w t r page_num.
  assert (Ht : session_state w !! "output_text" = Some (VStr t))
    by (vm_compute; reflexivity).
  assert (Hne : t <> "") by discriminate.
  assert (Hconv : conversion E w demo_pdf =
                  (Returns demo_pages, (conversion E w demo_pdf).2))
    by reflexivity.
  assert (Himg : demo_pages !! page_choice wd = Some "page three")
    by reflexivity.
  exact (conj (conj reachable_with_result
                 (conj Ht (conj Hne (conj eq_refl (conj Hconv
                    (conj Himg (conj eq_refl eq_refl)))))))
           (page_change_keeps_result E wd w demo_pdf demo_pages
              (conversion E w demo_pdf).2 "page three" t
              reachable_with_result Ht Hne eq_refl Hconv Himg
              eq_refl eq_refl)).
Defined.

(** C5 at the load of a model that raises an exception without a message:
    the run takes the load for a success.  It reports no error, records
    [None] as the model, marks the session as loaded and asks for a new
    run. *)
Lemma load_failure_without_message_is_not_reported :
  let wd := demo_widgets 0 1 true false in
  let r := script demo_silent wd with_document in
  (mlx_load demo_silent (files_at_load demo_silent wd with_document)
     (model_name wd)).1 = Raises "" /\
  In (Ext_mlx_load (model_name wd)) (log r) /\
  Forall (fun e => is_error e = false) (log r) /\
  In (St_success "✅ Model loaded successfully!") (log r) /\
  out r = RerunRequested /\
  session_state (final r) !! "model" = Some VNone /\
  session_state (final r) !! "model_loaded" = Some (VBool true) /\
  session_state with_document !! "model_loaded" = Some (VBool false).
Proof.
  vm_compute. repeat split; auto 20.
Qed.

(** The model loader of the example writes to its cache only. *)
Lemma demo_loader_spares pages load text fs suffix :
  loader_spares (demo_externals pages load text)
    (temporary_name (demo_externals pages load text) fs suffix).
Proof.
  intros fs' name. simpl. split; [|done].
  destruct (load name); simpl; [|done].
  by rewrite lookup_insert_ne.
Qed.

Lemma temporary_pdf_is_removed_witness :
  let E := demo_world in
  let wd := demo_widgets 0 1 true false in
  let w := with_document in
  let r := script E wd w in
  let fs1 := delete (tmp_pdf_path E w) (conversion E w demo_pdf).2 in
  (uploaded_file wd = Some demo_pdf /\
   loader_spares E (tmp_pdf_path E w)) /\
  In (Ext_convert_from_path (tmp_pdf_path E w) 200) (log r) /\
  files (final r) =
    (if loads (log r) then load_files E fs1 (model_name wd) else fs1) /\
  files (final r) !! tmp_pdf_path E w = None.
Proof.
  intros E wd w r fs1.
  assert (Hsp : loader_spares E (tmp_pdf_path E w))
    by apply demo_loader_spares.
  exact (conj (conj eq_refl Hsp)
           (temporary_pdf_is_removed E wd w demo_pdf eq_refl Hsp)).
Defined.

Lemma page_selector_serves_selected_page_witness :
  let E := demo_world in
  let wd := demo_widgets 0 1 false false in
  let w := fresh in
  let images := demo_pages in
  let r := script E wd w in
  let page_num := Z.of_nat (S (page_choice wd)) in
  (uploaded_file wd = Some demo_pdf /\
   conversion E w demo_pdf = (Returns images, (conversion E w demo_pdf).2) /\
   images !! page_choice wd = Some "page two") /\
  session_state (final r) !! "current_image" = Some (VObj "page two") /\
  session_state (final r) !! "page_num" = Some (VInt page_num) /\
  In (St_image "page two" ("Page " +:+ pretty page_num)) (log r) /\
  (forall label options,
     In (St_selectbox label options) (log r) <->
     (1 < length images)%nat /\ label = "Select page to OCR" /\
     options = range 1 (len images + 1)) /\
  (forall p, p ∈ range 1 (len images + 1) <-> 1 <= p <= len images).
Proof.
  intros E wd w images r page_num.
  assert (Hconv : conversion E w demo_pdf =
                  (Returns images, (conversion E w demo_pdf).2))
    by reflexivity.
  assert (Himg : images !! page_choice wd = Some "page two") by reflexivity.
  exact (conj (conj eq_refl (conj Hconv Himg))
           (page_selector_serves_selected_page E wd w demo_pdf images
              (conversion E w demo_pdf).2 "page two" eq_refl Hconv Himg)).
Defined.

(** The session of the example after the load without a message is a
    session of the script. *)
Lemma reachable_with_silent_load : reachable with_silent_load.
Proof. apply reachable_interact, reachable_with_document. Qed.

(** C7 after the load of a model that raised an exception without a
    message: the session is marked as loaded and holds [None] as the
    model, the processor and the configuration.  A press on "Extract Text"
    then goes to the prompt formatter and to the generation call with
    [None] in their place. *)
Lemma extraction_runs_without_model :
  let wd := demo_widgets 0 1 false true in
  let w := with_silent_load in
  let r := interact demo_silent wd w in
  reachable w /\
  session_state w !! "model" = Some VNone /\
  session_state w !! "processor" = Some VNone /\
  session_state w !! "config" = Some VNone /\
  session_state w !! "model_loaded" = Some (VBool true) /\
  In (St_button "🚀 Extract Text") (log r) /\
  In (Ext_apply_chat_template VNone VNone (ocr_prompt wd) 1) (log r) /\
  In (Ext_generate VNone VNone ("<|image|>" +:+ ocr_prompt wd)
        (VObj "page two") decoding) (log r) /\
  session_state (final r) !! "output_text" = Some (VStr "# Invoice").
Proof.
  split; [exact reachable_with_silent_load|].
  vm_compute. repeat split; auto 20.
Qed.

Lemma second_load_is_idle_witness :
  let E := demo_world in
  let wd := demo_widgets 0 1 true false in
  let w := with_document in
  let m := "weights of " +:+ model_name wd in
  let p := "processor of " +:+ model_name wd in
  let c := "config of " +:+ model_name wd in
  let r1 := interact E wd w in
  let r2 := interact E wd (final r1) in
  (In (Ext_mlx_load (model_name wd)) (log r1) /\
   load_succeeds E (files_at_load E wd w) (model_name wd) m p c /\
   model_name wd = model_name wd) /\
  Forall (fun e => is_load e = false) (log r2) /\
  ~ In (St_button "🔄 Load Model") (log r2) /\
  In (St_success ("✅ Model ready: " +:+ model_name wd)) (log r2) /\
  same_model (final r1) (final r2).
Proof.
  intros E wd w m p c r1 r2.
  assert (Hin : In (Ext_mlx_load (model_name wd)) (log r1))
    by (vm_compute; auto 20).
  assert (Hok : load_succeeds E (files_at_load E wd w) (model_name wd) m p c)
    by (split; vm_compute; reflexivity).
  exact (conj (conj Hin (conj Hok eq_refl))
           (second_load_is_idle E E wd wd w m p c Hin Hok eq_refl)).
Defined.

Lemma extracted_text_is_shown_as_stored_witness :
  let E := demo_world in
  let wd := demo_widgets 0 1 false true in
  let w := with_model in
  let vm := VObj ("weights of " +:+ model_name wd) in
  let vp := VObj ("processor of " +:+ model_name wd) in
  let fp := "<|image|>" +:+ ocr_prompt wd in
  let vi := VObj "page two" in
  let text := "# Invoice" in
  let n := 2 in
  let r := interact E wd w in
  (In (Ext_generate vm vp fp vi decoding) (log r) /\
   generate E vm vp fp vi decoding = Returns text /\
   session_state (final r) !! "page_num" = Some (VInt n)) /\
  session_state (final r) !! "output_text" = Some (VStr text) /\
  displayed (log r) =
  if String.eqb text "" then []
  else [ St_subheader ("Extracted Text (Page " +:+ pretty n +:+ ")");
         St_toggle "Render as Markdown";
         (if render_markdown wd then St_markdown (VStr text)
          else St_text_area "OCR Output" (VStr text) 400);
         St_download_button "📥 Download Text" (VStr text)
           ("ocr_page_" +:+ pretty n +:+ ".txt") "text/plain" ].
Proof.
  intros E wd w vm vp fp vi text n r.
  assert (Hin : In (Ext_generate vm vp fp vi decoding) (log r))
    by (vm_compute; auto 30).
  assert (Hgen : generate E vm vp fp vi decoding = Returns text)
    by reflexivity.
  assert (Hpage : session_state (final r) !! "page_num" = Some (VInt n))
    by (vm_compute; reflexivity).
  exact (conj (conj Hin (conj Hgen Hpage))
           (extracted_text_is_shown_as_stored E wd w vm vp fp vi decoding
              text n Hin Hgen Hpage)).
Defined.

Lemma result_display_follows_stored_text_witness :
  let E := demo_blank in
  let wd := demo_widgets 0 1 false true in
  let w := with_model in
  let vm := VObj ("weights of " +:+ model_name wd) in
  let vp := VObj ("processor of " +:+ model_name wd) in
  let vc := VObj ("config of " +:+ model_name wd) in
  let vi := VObj "page two" in
  let fp := "<|image|>" +:+ ocr_prompt wd in
  let steps := [(demo_world, demo_widgets 0 2 false false)] in
  let E2 := demo_world in
  let wd2 := demo_widgets 0 0 false false in
  let r := interact E wd w in
  let s1 := session_state (final r) in
  let r2 := interact E2 wd2 (session steps (final r)) in
  let s2 := session_state (final r2) in
  (reachable w /\ ready (session_state w) = true /\
   load_clicked wd = false /\ extract_clicked wd = true /\
   s1 !! "model" = Some vm /\ s1 !! "processor" = Some vp /\
   s1 !! "config" = Some vc /\ s1 !! "current_image" = Some vi /\
   s1 !! "page_num" = Some (VInt 2) /\
   apply_chat_template E vp vc (ocr_prompt wd) 1 = Returns fp /\
   generate E vm vp fp vi decoding = Returns "" /\
   Forall (fun step => extract_clicked step.2 = false) steps) /\
  In (Ext_generate vm vp fp vi decoding) (log r) /\
  s1 !! "output_text" = Some (VStr "") /\
  displayed (log r) = [] /\
  exists t2 n2,
    s2 !! "output_text" = Some (VStr t2) /\
    s2 !! "page_num" = Some (VInt n2) /\
    displayed (log r2) =
      (if String.eqb t2 "" then []
       else result_display E2 wd2 (VStr t2) (VInt n2)) /\
    (t2 = "" \/
     exists vm2 vp2 fp2 vi2,
       In (Ext_generate vm2 vp2 fp2 vi2 decoding) (log r2) /\
       generate E2 vm2 vp2 fp2 vi2 decoding = Returns t2).
Proof.
  intros E wd w vm vp vc vi fp steps E2 wd2 r s1 r2 s2.
  assert (Hr : ready (session_state w) = true) by (vm_compute; reflexivity).
  assert (Hm : s1 !! "model" = Some vm) by (vm_compute; reflexivity).
  assert (Hp : s1 !! "processor" = Some vp) by (vm_compute; reflexivity).
  assert (Hc : s1 !! "config" = Some vc) by (vm_compute; reflexivity).
  assert (Hi : s1 !! "current_image" = Some vi) by (vm_compute; reflexivity).
  assert (Hn : s1 !! "page_num" = Some (VInt 2)) by (vm_compute; reflexivity).
  assert (Ht : apply_chat_template E vp vc (ocr_prompt wd) 1 = Returns fp)
    by reflexivity.
  assert (Hg : generate E vm vp fp vi decoding = Returns "") by reflexivity.
  assert (Hsteps : Forall (fun step : @externals string * widgets =>
                             extract_clicked step.2 = false) steps)
    by (repeat constructor).
  exact (conj (conj reachable_with_model (conj Hr (conj eq_refl (conj eq_refl
                 (conj Hm (conj Hp (conj Hc (conj Hi (conj Hn (conj Ht
                    (conj Hg Hsteps)))))))))))
           (result_display_follows_stored_text E wd w vm vp vc vi 2 fp ""
              steps E2 wd2 reachable_with_model Hr eq_refl eq_refl
              Hm Hp Hc Hi Hn Ht Hg Hsteps)).
Defined.

(** * The further properties at work on the session of the example *)

Lemma caption_of_32B_model_witness :
  let name := "mlx-community/Qwen3-VL-32B-Instruct-4bit" in
  (in_str "32B" name = true /\ in_str "4bit" name = true) /\
  download_caption name = Some "📦 ~0.7GB download".
Proof.
  intros name.
  exact (conj (conj eq_refl eq_refl)
           (caption_of_32B_model name eq_refl eq_refl)).
Defined.

Lemma provider_and_displayed_name_witness :
  let p := "mlx-community" in
  let m := "Qwen3-VL-2B-Instruct-4bit" in
  (free_of "/" p = true /\ free_of "/" m = true) /\
  hd "" (split "/" (p +:+ "/" +:+ m)) = p /\
  format_func (p +:+ "/" +:+ m) = m.
Proof.
  intros p m.
  exact (conj (conj eq_refl eq_refl)
           (provider_and_displayed_name p m eq_refl eq_refl)).
Defined.

Lemma session_invariant_witness :
  reachable with_result /\
  wf (session_state with_result) /\ has_defaults (session_state with_result).
Proof.
  exact (conj reachable_with_result
           (session_invariant with_result reachable_with_result)).
Defined.

Lemma interaction_ends_normally_witness :
  let E := demo_failing in
  let wd := demo_widgets 1 2 true true in
  reachable with_result /\ out (interact E wd with_result) = Done tt.
Proof.
  intros E wd.
  exact (conj reachable_with_result
           (interaction_ends_normally E wd with_result
              reachable_with_result)).
Defined.

Lemma run_without_file_keeps_page_witness :
  let E := demo_world in
  let wd := demo_reload in
  let w := with_document in
  let r := script E wd w in
  uploaded_file wd = None /\
  session_state (final r) !! "current_image" =
    session_state w !! "current_image" /\
  session_state (final r) !! "page_num" = session_state w !! "page_num" /\
  files (final r) =
    (if loads (log r) then load_files E (files w) (model_name wd)
     else files w) /\
  Forall (fun e => match e with
                   | Ext_convert_from_path _ _ | St_image _ _
                   | St_selectbox _ _ => False
                   | _ => True
                   end) (log r).
Proof.
  intros E wd w r.
  exact (conj eq_refl (run_without_file_keeps_page E wd w eq_refl)).
Defined.

Lemma failed_conversion_is_reported_witness :
  let E := demo_corrupt in
  let wd := demo_widgets 0 0 true false in
  let w := with_document in
  let msg := "Unable to get page count." in
  let fs' := (conversion E w demo_pdf).2 in
  let r := script E wd w in
  (uploaded_file wd = Some demo_pdf /\
   conversion E w demo_pdf = (Raises msg, fs')) /\
  In (St_error ("Error processing PDF: " +:+ msg)) (log r) /\
  In (St_header "📝 OCR Results") (log r) /\
  session_state (final r) !! "current_image" =
    session_state w !! "current_image" /\
  session_state (final r) !! "page_num" = session_state w !! "page_num" /\
  files (final r) =
    (if loads (log r)
     then load_files E (delete (tmp_pdf_path E w) fs') (model_name wd)
     else delete (tmp_pdf_path E w) fs') /\
  Forall (fun e => match e with
                   | St_image _ _ | St_selectbox _ _ => False
                   | _ => True
                   end) (log r).
Proof.
  intros E wd w msg fs' r.
  assert (Hconv : conversion E w demo_pdf = (Raises msg, fs'))
    by reflexivity.
  exact (conj (conj eq_refl Hconv)
           (failed_conversion_is_reported E wd w demo_pdf msg fs'
              eq_refl Hconv)).
Defined.

Lemma document_without_pages_witness :
  let E := demo_empty in
  let wd := demo_widgets 0 0 false false in
  let w := with_result in
  let fs' := (conversion E w demo_pdf).2 in
  let r := script E wd w in
  (uploaded_file wd = Some demo_pdf /\
   conversion E w demo_pdf = (Returns [], fs')) /\
  In (St_success "✅ PDF loaded successfully! Found 0 page(s)") (log r) /\
  In (St_error "Error processing PDF: list index out of range") (log r) /\
  session_state (final r) !! "current_image" =
    session_state w !! "current_image" /\
  session_state (final r) !! "page_num" = session_state w !! "page_num".
Proof.
  intros E wd w fs' r.
  assert (Hconv : conversion E w demo_pdf = (Returns [], fs'))
    by reflexivity.
  exact (conj (conj eq_refl Hconv)
           (document_without_pages E wd w demo_pdf fs' eq_refl Hconv)).
Defined.

Lemma failed_generation_is_reported_witness :
  let E := demo_failing in
  let wd := demo_widgets 0 1 false true in
  let w := with_result in
  let vm := VObj ("weights of " +:+ model_name wd) in
  let vp := VObj ("processor of " +:+ model_name wd) in
  let fp := "<|image|>" +:+ ocr_prompt wd in
  let vi := VObj "page two" in
  let msg := "out of memory" in
  let r := interact E wd w in
  (In (Ext_generate vm vp fp vi decoding) (log r) /\
   generate E vm vp fp vi decoding = Raises msg) /\
  In (St_error ("Error during OCR: " +:+ msg)) (log r) /\
  In (St_exception msg) (log r) /\
  session_state (final r) !! "output_text" =
    session_state w !! "output_text" /\
  same_model (initialised_world w) (final r) /\
  displayed (log r) = shown E wd (session_state (final r)).
Proof.
  intros E wd w vm vp fp vi msg r.
  assert (Hin : In (Ext_generate vm vp fp vi decoding) (log r))
    by (vm_compute; auto 30).
  assert (Hgen : generate E vm vp fp vi decoding = Raises msg)
    by reflexivity.
  exact (conj (conj Hin Hgen)
           (failed_generation_is_reported E wd w vm vp fp vi decoding msg
              Hin Hgen)).
Defined.

Lemma generation_inputs_witness :
  let E := demo_world in
  let wd := demo_widgets 0 1 false true in
  let w := with_model in
  let vm := VObj ("weights of " +:+ model_name wd) in
  let vp := VObj ("processor of " +:+ model_name wd) in
  let fp := "<|image|>" +:+ ocr_prompt wd in
  let vi := VObj "page two" in
  let r := interact E wd w in
  let s' := session_state (final r) in
  In (Ext_generate vm vp fp vi decoding) (log r) /\
  s' !! "model" = Some vm /\ s' !! "processor" = Some vp /\
  s' !! "current_image" = Some vi /\
  decoding = {| max_tokens := 2048; temperature := (1 # 10)%Q;
                verbose := false |} /\
  exists vc,
    s' !! "config" = Some vc /\
    In (Ext_apply_chat_template vp vc (ocr_prompt wd) 1) (log r) /\
    apply_chat_template E vp vc (ocr_prompt wd) 1 = Returns fp.
Proof.
  intros E wd w vm vp fp vi r s'.
  assert (Hin : In (Ext_generate vm vp fp vi decoding) (log r))
    by (vm_compute; auto 30).
  exact (conj Hin (generation_inputs E wd w vm vp fp vi decoding Hin)).
Defined.

Lemma successful_load_records_handle_witness :
  let E := demo_world in
  let wd := demo_widgets 0 1 true true in
  let w := with_document in
  let m := "weights of " +:+ model_name wd in
  let p := "processor of " +:+ model_name wd in
  let c := "config of " +:+ model_name wd in
  let r := interact E wd w in
  let s' := session_state (final r) in
  (In (Ext_mlx_load (model_name wd)) (log r) /\
   load_succeeds E (files_at_load E wd w) (model_name wd) m p c) /\
  s' !! "model" = Some (VObj m) /\ s' !! "processor" = Some (VObj p) /\
  s' !! "config" = Some (VObj c) /\
  s' !! "model_loaded" = Some (VBool true) /\
  s' !! "model_name" = Some (VStr (model_name wd)) /\
  s' !! "output_text" = session_state w !! "output_text" /\
  out (script E wd w) = RerunRequested /\
  In (St_success "✅ Model loaded successfully!") (log r) /\
  In (St_success ("✅ Model ready: " +:+ model_name wd)) (log r) /\
  Forall (fun e => is_inference e = false) (log r).
Proof.
  intros E wd w m p c r s'.
  assert (Hin : In (Ext_mlx_load (model_name wd)) (log r))
    by (vm_compute; auto 20).
  assert (Hok : load_succeeds E (files_at_load E wd w) (model_name wd) m p c)
    by (split; vm_compute; reflexivity).
  exact (conj (conj Hin Hok)
           (successful_load_records_handle E wd w m p c Hin Hok)).
Defined.

Lemma run_restores_files_witness :
  let E := demo_world in
  let wd := demo_widgets 0 1 true false in
  let w := with_document in
  let r := script E wd w in
  (uploaded_file wd = Some demo_pdf /\
   files w !! tmp_pdf_path E w = None /\
   (conversion E w demo_pdf).2 = <[tmp_pdf_path E w := demo_pdf]> (files w)) /\
  files (final r) =
  if loads (log r) then load_files E (files w) (model_name wd) else files w.
Proof.
  intros E wd w r.
  assert (Hfresh : files w !! tmp_pdf_path E w = None)
    by (vm_compute; reflexivity).
  assert (Hconv : (conversion E w demo_pdf).2 =
                  <[tmp_pdf_path E w := demo_pdf]> (files w)) by reflexivity.
  exact (conj (conj eq_refl (conj Hfresh Hconv))
           (run_restores_files E wd w demo_pdf eq_refl Hfresh Hconv)).
Defined.

Lemma status_follows_session_witness :
  let E := demo_world in
  let wd := demo_widgets 1 1 true false in
  let r := interact E wd with_document in
  reachable with_document /\
  status_line (session_state (final r)) (log r).
Proof.
  intros E wd r.
  exact (conj reachable_with_document
           (status_follows_session E wd with_document
              reachable_with_document)).
Defined.

Lemma extract_needs_loaded_flag_witness :
  let E := demo_world in
  let wd := demo_widgets 0 1 false true in
  let w := with_document in
  let r := interact E wd w in
  ready (session_state w) = false /\
  Forall (fun e => is_inference e = false) (log r) /\
  session_state (final r) !! "output_text" = session_state w !! "output_text" /\
  ~ In (St_button "🚀 Extract Text") (log (script E wd w)).
Proof.
  intros E wd w r.
  assert (Hr : ready (session_state w) = false) by (vm_compute; reflexivity).
  exact (conj Hr (extract_needs_loaded_flag E wd w Hr)).
Defined.
